(** * Transcription session orchestration: a shallow embedding of [src/app/page.tsx]

    The development follows the source file top to bottom: the numeric
    helpers and the audio normaliser ([downmixToMono], [resampleMonoAudio]),
    then the session controller ([clearProgressState], [handleWorkerMessage],
    [initializeWorker], [cancelTranscription], [handleFileSelected]) and the
    structured export ([buildJsonExportPayload]).

    Numbers.  Where the code computes in floating point and a statement
    fixes the value it computes (the progress percentage, the estimate of
    the remaining time, the samples and the length that the normaliser
    returns), a JavaScript [number] is an IEEE 754 binary64 value and a
    cell of a [Float32Array] a binary32 value ([Double], [Single] and the
    normaliser of module [IEEE] below).  The normaliser is given a second
    time over exact rationals ([Qc], canonical fractions), with [NaN] for
    the arithmetic on the [undefined] of an out-of-range read; that
    reading serves the statements about indices, bounds and ranges, and
    the runs of the component, which do not look into the samples.
    Counters that the protocol uses as counts (request identifiers, chunks,
    bytes, slices, milliseconds of [Date.now]) are integers ([Z]); where the
    code computes with them in floating point they are converted. *)

From Stdlib Require Import ZArith QArith Qcanon Qround Lqa List String Bool Lia.
From Stdlib Require Import SpecFloat Qpower.
Import ListNotations.

Local Open Scope Z_scope.

(** ** Exact numerics *)

Definition ofZ (z : Z) : Qc := Q2Qc (inject_Z z).
Definition ofNat (n : nat) : Qc := ofZ (Z.of_nat n).

Definition half : Qc := Q2Qc (1 # 2).

Definition Math_floor (x : Qc) : Z := Qfloor x.
Definition Math_ceil (x : Qc) : Z := Qceiling x.

(** [Math.round] rounds to the nearest integer, ties towards +infinity. *)
Definition Math_round (x : Qc) : Z := Qfloor (x + half)%Qc.

(** [for (let i = 0; i < n; i += 1) body(i)], threading the mutated state. *)
Fixpoint for_from {S : Type} (i n : nat) (body : nat -> S -> S) (s : S) : S :=
  match n with
  | O => s
  | Datatypes.S n' => for_from (Datatypes.S i) n' body (body i s)
  end.

Definition for_loop {S : Type} (n : nat) (body : nat -> S -> S) (s : S) : S :=
  for_from 0 n body s.

(** ** Typed arrays over exact samples *)

Inductive sample : Type :=
| Num (q : Qc)
| NaN.

Definition Float32Array : Type := list sample.

Definition sadd (a b : sample) : sample :=
  match a, b with
  | Num x, Num y => Num (x + y)%Qc
  | _, _ => NaN
  end.

Definition smul (a b : sample) : sample :=
  match a, b with
  | Num x, Num y => Num (x * y)%Qc
  | _, _ => NaN
  end.

(** Division by a channel count.  A zero divisor cannot be represented
    (JavaScript yields an infinity or [NaN]); it is mapped to [NaN]. *)
Definition sdiv (a : sample) (n : nat) : sample :=
  match a, n with
  | Num x, Datatypes.S _ => Num (x / ofNat n)%Qc
  | _, _ => NaN
  end.

(** [new Float32Array(n)]: [n] cells, all zero. *)
Definition new_Float32Array (n : nat) : Float32Array := repeat (Num 0%Qc) n.

(** [a[k]] as an expression: [undefined] outside [0 .. length-1]. *)
Definition get (a : Float32Array) (k : Z) : option sample :=
  if k <? 0 then None else nth_error a (Z.to_nat k).

(** [undefined] in an arithmetic position is [NaN]. *)
Definition toNumber (v : option sample) : sample :=
  match v with
  | Some s => s
  | None => NaN
  end.

Definition load (a : Float32Array) (k : Z) : sample := toNumber (get a k).

(** [a[i] = v]: a store outside the array is ignored. *)
Fixpoint store (a : Float32Array) (i : nat) (v : sample) : Float32Array :=
  match a, i with
  | [], _ => []
  | _ :: t, O => v :: t
  | h :: t, Datatypes.S i' => h :: store t i' v
  end.

(** [dst.set(src)]: copies [src] to the front of [dst]; a source longer
    than the destination raises [RangeError] ([None]). *)
Definition Float32Array_set (dst src : Float32Array) : option Float32Array :=
  if (List.length src <=? List.length dst)%nat
  then Some (src ++ skipn (List.length src) dst)
  else None.

(** ** The audio normaliser over exact samples *)

(** The platform's [AudioBuffer]: [ab_length] frames in each of its
    channels; [numberOfChannels] is the number of channel arrays. *)
Record AudioBuffer : Type := mkAudioBuffer {
  ab_length : nat;
  ab_channels : list Float32Array
}.

Definition numberOfChannels (b : AudioBuffer) : nat := List.length (ab_channels b).

(** [getChannelData(c)].  The platform raises for [c >= numberOfChannels];
    every call below has [c < numberOfChannels]. *)
Definition getChannelData (b : AudioBuffer) (c : nat) : Float32Array :=
  nth c (ab_channels b) [].

(** What the platform guarantees of every [AudioBuffer]. *)
Definition wf_AudioBuffer (b : AudioBuffer) : Prop :=
  (1 <= numberOfChannels b)%nat /\
  Forall (fun ch => List.length ch = ab_length b) (ab_channels b).

Definition downmixToMono (audioBuffer : AudioBuffer) : option Float32Array :=
  let n := numberOfChannels audioBuffer in
  let length := ab_length audioBuffer in
  if (n =? 1)%nat then
    let mono := new_Float32Array length in
    Float32Array_set mono (getChannelData audioBuffer 0)
  else
    let mono := new_Float32Array length in
    let mono :=
      for_loop n (fun channel mono =>
        let channelData := getChannelData audioBuffer channel in
        for_loop length (fun i mono =>
          store mono i (sadd (load mono (Z.of_nat i)) (load channelData (Z.of_nat i))))
          mono) mono in
    let mono :=
      for_loop length (fun i mono =>
        store mono i (sdiv (load mono (Z.of_nat i)) n)) mono in
    Some mono.

(** The body of the resampling loop, with the source's local names. *)
Definition sourceIndex (ratio : Qc) (i : nat) : Qc := (ofNat i / ratio)%Qc.

Definition lower (ratio : Qc) (i : nat) : Z := Math_floor (sourceIndex ratio i).

Definition upper (input : Float32Array) (ratio : Qc) (i : nat) : Z :=
  Z.min (lower ratio i + 1) (Z.of_nat (List.length input) - 1).

Definition weight (ratio : Qc) (i : nat) : Qc :=
  (sourceIndex ratio i - ofZ (lower ratio i))%Qc.

Definition outputLength (input : Float32Array) (ratio : Qc) : Z :=
  Z.max 1 (Math_round (ofNat (List.length input) * ratio)%Qc).

Definition resampleMonoAudio
  (input : Float32Array) (inputSampleRate outputSampleRate : Qc) : Float32Array :=
  if Qc_eq_dec inputSampleRate outputSampleRate then input
  else
    let ratio := (outputSampleRate / inputSampleRate)%Qc in
    let outputLength := Z.to_nat (outputLength input ratio) in
    let output := new_Float32Array outputLength in
    for_loop outputLength (fun i output =>
      store output i
        (sadd (smul (load input (lower ratio i)) (Num (1 - weight ratio i)%Qc))
              (smul (load input (upper input ratio i)) (Num (weight ratio i)))))
      output.


(** An indexed map, the closed form of a loop that rewrites each cell once. *)
Fixpoint imap_from {A B : Type} (k : nat) (F : nat -> A -> B) (l : list A) : list B :=
  match l with
  | [] => []
  | x :: t => F k x :: imap_from (Datatypes.S k) F t
  end.


(** The normaliser as the specification words it, for comparison with the
    code: linear interpolation between two samples with weight [w]. *)
Definition interpolate (a b : sample) (w : Qc) : sample :=
  sadd (smul a (Num (1 - w)%Qc)) (smul b (Num w)).

(** The arithmetic mean of a list of samples. *)
Definition mean (xs : list sample) : sample :=
  sdiv (fold_right sadd (Num 0%Qc) xs) (List.length xs).

(** ** IEEE 754 numbers *)

(** A JavaScript [number]: a binary64 value.  The operations are those of
    the Standard Library's specification of floating-point arithmetic
    (round to nearest, ties to even; one [NaN]). *)
Module Double.

Definition t : Type := spec_float.

Definition prec : Z := 53.
Definition emax : Z := 1024.

Definition zero : t := S754_zero false.

Definition add : t -> t -> t := SFadd prec emax.
Definition sub : t -> t -> t := SFsub prec emax.
Definition mul : t -> t -> t := SFmul prec emax.
Definition div : t -> t -> t := SFdiv prec emax.

(** The double nearest to an integer; exact below [2^53] in magnitude. *)
Definition ofZ (z : Z) : t := binary_normalize prec emax z 0 false.

Definition ofNat (n : nat) : t := ofZ (Z.of_nat n).

(** [x <= y] and [x === y]; both false when an operand is [NaN]; the two
    zeros are equal. *)
Definition leb : t -> t -> bool := SFleb.
Definition eqb : t -> t -> bool := SFeqb.

Definition isNaN (x : t) : bool :=
  match x with
  | S754_nan => true
  | _ => false
  end.

(** [Math.max] and [Math.min] of two numbers: [NaN] if either is, and
    [-0] below [+0]. *)
Definition max (x y : t) : t :=
  match SFcompare x y with
  | None => S754_nan
  | Some Lt => y
  | Some Gt => x
  | Some Eq =>
      match x, y with
      | S754_zero sx, S754_zero sy => S754_zero (sx && sy)
      | _, _ => x
      end
  end.

Definition min (x y : t) : t :=
  match SFcompare x y with
  | None => S754_nan
  | Some Lt => x
  | Some Gt => y
  | Some Eq =>
      match x, y with
      | S754_zero sx, S754_zero sy => S754_zero (sx || sy)
      | _, _ => x
      end
  end.

(** The double of an integer below [2^53] in magnitude, with the sign [s]
    when the integer is zero. *)
Definition integral (s : bool) (z : Z) : t := binary_normalize prec emax z 0 s.

(** [Math.floor] and [Math.round] (nearest integer, ties towards
    +infinity).  A double with a non-negative exponent is an integer; zeros,
    infinities and [NaN] are returned as they are; a zero result has the
    sign of the argument. *)
Definition floor (x : t) : t :=
  match x with
  | S754_finite s m e =>
      if e <? 0 then integral s (Z.shiftr (cond_Zopp s (Zpos m)) (- e)) else x
  | _ => x
  end.

Definition round (x : t) : t :=
  match x with
  | S754_finite s m e =>
      if e <? 0
      then integral s (Z.shiftr (2 * cond_Zopp s (Zpos m) + Z.shiftl 1 (- e)) (1 - e))
      else x
  | _ => x
  end.

(** [Math.ceil] of a finite double, as the integer it is.  The infinities
    and [NaN], which [Math.ceil] returns as they are and for which no
    integer stands, are read as 0; the statements about a ceiling are made
    for finite doubles. *)
Definition ceil (x : t) : Z :=
  match x with
  | S754_finite s m e =>
      if e <? 0
      then - Z.shiftr (- cond_Zopp s (Zpos m)) (- e)
      else Z.shiftl (cond_Zopp s (Zpos m)) e
  | _ => 0
  end.

(** The integer that a double is, if it is one. *)
Definition toZ (x : t) : option Z :=
  match x with
  | S754_zero _ => Some 0
  | S754_finite s m e =>
      if e <? 0
      then if Z.land (Zpos m) (Z.ones (- e)) =? 0
           then Some (cond_Zopp s (Z.shiftr (Zpos m) (- e)))
           else None
      else Some (cond_Zopp s (Z.shiftl (Zpos m) e))
  | _ => None
  end.

(** The rational a finite double stands for. *)
Definition exact (x : t) : option Qc :=
  match x with
  | S754_zero _ => Some 0%Qc
  | S754_finite s m e => Some (Q2Qc (inject_Z (cond_Zopp s (Zpos m)) * Qpower 2 e))
  | _ => None
  end.

End Double.

(** A cell of a [Float32Array]: a binary32 value. *)
Module Single.

Definition t : Type := spec_float.

Definition prec : Z := 24.
Definition emax : Z := 128.

Definition zero : t := S754_zero false.

(** What a store keeps of a double: the nearest binary32 value, ties to
    even. *)
Definition ofDouble (x : Double.t) : t :=
  match x with
  | S754_finite s m e => binary_round prec emax s m e
  | _ => x
  end.

(** What a load gives: the same value as a double. *)
Definition toDouble (x : t) : Double.t :=
  match x with
  | S754_finite s m e => binary_round Double.prec Double.emax s m e
  | _ => x
  end.

Definition ofZ (z : Z) : t := binary_normalize prec emax z 0 false.

End Single.

Definition clampProgress (value : Double.t) : Double.t :=
  Double.max (Double.ofZ 0) (Double.min (Double.ofZ 100) value).

(** ** The audio normaliser in floating point *)

Module IEEE.

Definition Float32Array : Type := list Single.t.

(** [new Float32Array(n)]: [n] cells, all [+0]. *)
Definition new_Float32Array (n : nat) : Float32Array := repeat Single.zero n.

(** [ToIndex] of the length given to [new Float32Array]: [NaN] counts as 0,
    a fraction is truncated, and a length that is negative, infinite or
    above [2^53 - 1] raises [RangeError] ([None]). *)
Definition toIndex (x : Double.t) : option nat :=
  match x with
  | S754_nan | S754_zero _ => Some 0%nat
  | S754_infinity _ => None
  | S754_finite s m e =>
      let magnitude := if e <? 0 then Z.shiftr (Zpos m) (- e) else Z.shiftl (Zpos m) e in
      let z := cond_Zopp s magnitude in
      if (0 <=? z) && (z <=? 2 ^ 53 - 1) then Some (Z.to_nat z) else None
  end.

Definition get (a : Float32Array) (k : Z) : option Single.t :=
  if k <? 0 then None else nth_error a (Z.to_nat k).

(** [a[k]] in an arithmetic position: the cell as a double, [NaN] for the
    [undefined] of an index outside the array. *)
Definition load (a : Float32Array) (k : Z) : Double.t :=
  match get a k with
  | Some x => Single.toDouble x
  | None => S754_nan
  end.

(** [a[x]] for a number [x]: a property that exists only when [x] is an
    integer inside the array. *)
Definition loadAt (a : Float32Array) (x : Double.t) : Double.t :=
  match Double.toZ x with
  | Some k => load a k
  | None => S754_nan
  end.

(** [a[i] = v]: the cell keeps the binary32 rounding of [v]; a store
    outside the array is ignored. *)
Fixpoint store (a : Float32Array) (i : nat) (v : Double.t) : Float32Array :=
  match a, i with
  | [], _ => []
  | _ :: rest, O => Single.ofDouble v :: rest
  | x :: rest, Datatypes.S i' => x :: store rest i' v
  end.

Definition Float32Array_set (dst src : Float32Array) : option Float32Array :=
  if (List.length src <=? List.length dst)%nat
  then Some (src ++ skipn (List.length src) dst)
  else None.

Record AudioBuffer : Type := mkAudioBuffer {
  ab_length : nat;
  ab_channels : list Float32Array
}.

Definition numberOfChannels (b : AudioBuffer) : nat := List.length (ab_channels b).

Definition getChannelData (b : AudioBuffer) (c : nat) : Float32Array :=
  nth c (ab_channels b) [].

Definition wf_AudioBuffer (b : AudioBuffer) : Prop :=
  (1 <= numberOfChannels b)%nat /\
  Forall (fun ch => List.length ch = ab_length b) (ab_channels b).

(** [new Float32Array(length)] has the length of the buffer that the
    platform decoded, and is taken to be allocated. *)
Definition downmixToMono (audioBuffer : AudioBuffer) : option Float32Array :=
  let n := numberOfChannels audioBuffer in
  let length := ab_length audioBuffer in
  if (n =? 1)%nat then
    let mono := new_Float32Array length in
    Float32Array_set mono (getChannelData audioBuffer 0)
  else
    let mono := new_Float32Array length in
    let mono :=
      for_loop n (fun channel mono =>
        let channelData := getChannelData audioBuffer channel in
        for_loop length (fun i mono =>
          store mono i (Double.add (load mono (Z.of_nat i)) (load channelData (Z.of_nat i))))
          mono) mono in
    let mono :=
      for_loop length (fun i mono =>
        store mono i (Double.div (load mono (Z.of_nat i)) (Double.ofNat n))) mono in
    Some mono.

(** The body of the resampling loop, with the source's local names. *)
Definition sourceIndex (ratio : Double.t) (i : nat) : Double.t :=
  Double.div (Double.ofNat i) ratio.

Definition lower (ratio : Double.t) (i : nat) : Double.t :=
  Double.floor (sourceIndex ratio i).

Definition upper (input : Float32Array) (ratio : Double.t) (i : nat) : Double.t :=
  Double.min (Double.add (lower ratio i) (Double.ofZ 1))
             (Double.sub (Double.ofNat (List.length input)) (Double.ofZ 1)).

Definition weight (ratio : Double.t) (i : nat) : Double.t :=
  Double.sub (sourceIndex ratio i) (lower ratio i).

Definition outputLength (input : Float32Array) (ratio : Double.t) : Double.t :=
  Double.max (Double.ofZ 1)
             (Double.round (Double.mul (Double.ofNat (List.length input)) ratio)).

(** The value stored in cell [i] of the output, before the store rounds it. *)
Definition interpolated (input : Float32Array) (ratio : Double.t) (i : nat) : Double.t :=
  Double.add
    (Double.mul (loadAt input (lower ratio i)) (Double.sub (Double.ofZ 1) (weight ratio i)))
    (Double.mul (loadAt input (upper input ratio i)) (weight ratio i)).

Section Allocation.

(** [allocatable n] tells whether the platform can allocate a
    [Float32Array] of [n] cells; where it cannot, [new Float32Array(n)]
    raises [RangeError].  The length of the output is computed from the
    rates and can be any number. *)
Variable allocatable : nat -> bool.

Definition allocate (n : nat) : option Float32Array :=
  if allocatable n then Some (new_Float32Array n) else None.

(** The length of the output as a number of cells; [None] is the
    [RangeError] of a length that is none or cannot be allocated. *)
Definition outputCells (input : Float32Array) (ratio : Double.t) : option nat :=
  match toIndex (outputLength input ratio) with
  | Some n => if allocatable n then Some n else None
  | None => None
  end.

Definition resampleMonoAudio
  (input : Float32Array) (inputSampleRate outputSampleRate : Double.t)
  : option Float32Array :=
  if Double.eqb inputSampleRate outputSampleRate then Some input
  else
    let ratio := Double.div outputSampleRate inputSampleRate in
    match toIndex (outputLength input ratio) with
    | None => None
    | Some outputLength =>
        match allocate outputLength with
        | None => None
        | Some output =>
            Some (for_loop outputLength (fun i output =>
                    store output i
                      (Double.add
                         (Double.mul (loadAt input (lower ratio i))
                                     (Double.sub (Double.ofZ 1) (weight ratio i)))
                         (Double.mul (loadAt input (upper input ratio i))
                                     (weight ratio i))))
                    output)
        end
    end.

End Allocation.

(** What the two loops of [downmixToMono] leave in a cell: the samples of
    the channels added one after the other into a binary32 cell that starts
    at [+0], then the cell divided by the number of channels. *)
Definition accumulate (xs : list Double.t) : Single.t :=
  fold_left (fun cell x => Single.ofDouble (Double.add (Single.toDouble cell) x))
            xs Single.zero.

Definition roundedMean (xs : list Double.t) : Single.t :=
  Single.ofDouble
    (Double.div (Single.toDouble (accumulate xs)) (Double.ofNat (List.length xs))).

(** One pass of the inner loop: channel [ch] added into [mono]. *)
Definition addChannel (ch mono : Float32Array) : Float32Array :=
  imap_from 0
    (fun i m => Single.ofDouble (Double.add (Single.toDouble m) (load ch (Z.of_nat i))))
    mono.

End IEEE.

(** The specification's formulas read over the rationals, for comparison with what
    the code computes in floating point. *)
Definition exactSample (x : Single.t) : sample :=
  match Double.exact x with
  | Some q => Num q
  | None => NaN
  end.

Definition exactOutputLength (inputLength : nat) (R_in R : Qc) : Z :=
  Z.max 1 (Math_round (ofNat inputLength * R / R_in)%Qc).

Definition exactSourceIndex (i : nat) (R_in R : Qc) : Z :=
  Math_floor (ofNat i * R_in / R)%Qc.

Definition exactEstimate (elapsedMilliseconds processed total : Z) : Z :=
  Math_ceil (ofZ elapsedMilliseconds / ofZ 1000 / ofZ processed
             * ofZ (total - processed))%Qc.
(** ** Protocol and session types *)

Inductive WhisperLanguage : Type :=
| english | turkish | spanish | french | german | italian
| portuguese | russian | arabic | hindi | japanese | korean.

(** ["auto" | WhisperLanguage]; [null] is [None] of the option around it. *)
Inductive Language : Type :=
| auto
| whisper (l : WhisperLanguage).

Module ProgressPhase.
Inductive t : Type := download | transcribing.

Definition eqb (a b : t) : bool :=
  match a, b with
  | download, download | transcribing, transcribing => true
  | _, _ => false
  end.
End ProgressPhase.

Module CopyState.
Inductive t : Type := idle | success | error.
End CopyState.

Module ViewMode.
Inductive t : Type := plain | timestamps.
End ViewMode.

Module WorkerStatus.
Inductive t : Type := loading | ready | transcribing | error.
End WorkerStatus.

Module TranscriptionStatus.
Inductive t : Type := idle | loading | decoding | transcribing | ready | error.
End TranscriptionStatus.

Inductive WorkerRequest : Type :=
| req_load
| req_transcribe (requestId : Z) (audio : Float32Array) (language : Language).

Record TranscriptSegment : Type := mkSegment {
  seg_text : string;
  seg_start : Qc;
  seg_end : Qc
}.

Record TranscriptExportJson : Type := mkExport {
  version : Z;
  createdAt : string;
  fileName : option string;
  model : string;
  language : option Language;
  text : string;
  export_segments : list TranscriptSegment
}.

(** The payload of a [progress] message; optional members are options. *)
Record ProgressMessage : Type := mkProgress {
  m_phase : ProgressPhase.t;
  m_progress : Double.t;
  m_requestId : option Z;
  m_processedChunks : option Z;
  m_totalChunks : option Z;
  m_currentSlice : option Z;
  m_totalSlices : option Z;
  m_loaded : option Z;
  m_total : option Z;
  m_file : option string
}.

Inductive WorkerResponse : Type :=
| msg_status (st : WorkerStatus.t) (requestId : option Z)
             (detail : option string) (device : option string)
| msg_progress (p : ProgressMessage)
| msg_partial (text : string) (requestId : Z)
| msg_segments (requestId : Z) (text : string) (segs : list TranscriptSegment)
| msg_result (text : string) (requestId : Z)
| msg_error (err : string) (requestId : option Z).

(** Callbacks handed to [queueMicrotask] and [window.setTimeout]. *)
Inductive Task : Type :=
| task_workers_unsupported   (* initializeWorker, no [Worker] constructor *)
| task_cancelling_done.      (* cancelTranscription, after 300 ms *)

(** A call of [handleFileSelected] suspended at [await decodeAudioFile(file)]:
    the values its closure holds. *)
Record PendingDecode : Type := mkPending {
  pd_requestId : Z;
  pd_worker : nat;
  pd_language : option Language
}.

(** The component's state: the [useRef] cells, the [useState] cells that the
    session controller and the exporter read or write, and the part of the
    platform they act on.  Workers are numbered in creation order;
    [terminated] lists the workers on which [terminate()] was called and
    [posted] the messages handed to [postMessage], oldest first;
    [awaiting] holds the suspended calls of [handleFileSelected].  State
    that only drives the layout (font, language menu, device badges,
    warm-up counter) is left out. *)
Record State : Type := mkState {
  workerRef : option nat;
  activeRequestIdRef : Z;
  transcribeStartedAtRef : option Z;
  status : TranscriptionStatus.t;
  progress : Double.t;
  progressPhase : option ProgressPhase.t;
  processedChunks : option Z;
  totalChunks : option Z;
  etaSeconds : option Z;
  output : string;
  segments : list TranscriptSegment;
  error : option string;
  activeFileName : option string;
  selectedLanguage : option Language;
  copyState : CopyState.t;
  copyFeedback : option string;
  isCancelling : bool;
  isExportMenuOpen : bool;
  downloadedBytes : option Z;
  totalBytes : option Z;
  viewMode : ViewMode.t;
  loadingDetail : option string;
  activeDevice : option string;
  currentSlice : option Z;
  totalSlices : option Z;
  workerSupported : bool;
  workersCreated : nat;
  terminated : list nat;
  posted : list (nat * WorkerRequest);
  microtasks : list Task;
  timeouts : list (Z * Task);
  awaiting : list PendingDecode
}.

(** The component as first rendered ([useState] and [useRef] defaults). *)
Definition initialState (supported : bool) : State :=
  {| workerRef := None;
     activeRequestIdRef := 0;
     transcribeStartedAtRef := None;
     status := TranscriptionStatus.idle;
     progress := Double.zero;
     progressPhase := None;
     processedChunks := None;
     totalChunks := None;
     etaSeconds := None;
     output := EmptyString;
     segments := [];
     error := None;
     activeFileName := None;
     selectedLanguage := None;
     copyState := CopyState.idle;
     copyFeedback := None;
     isCancelling := false;
     isExportMenuOpen := false;
     downloadedBytes := None;
     totalBytes := None;
     viewMode := ViewMode.timestamps;
     loadingDetail := None;
     activeDevice := None;
     currentSlice := None;
     totalSlices := None;
     workerSupported := supported;
     workersCreated := O;
     terminated := [];
     posted := [];
     microtasks := [];
     timeouts := [];
     awaiting := [] |}.

(** Field updates: the [useState] setters under their source names, and
    assignments to [useRef] cells and to the platform's bookkeeping. *)
Definition set_workerRef (v : option nat) (s : State) : State :=
  {| workerRef := v; activeRequestIdRef := activeRequestIdRef s;
     transcribeStartedAtRef := transcribeStartedAtRef s; status := status s; progress := progress s;
     progressPhase := progressPhase s; processedChunks := processedChunks s;
     totalChunks := totalChunks s; etaSeconds := etaSeconds s; output := output s;
     segments := segments s; error := error s; activeFileName := activeFileName s;
     selectedLanguage := selectedLanguage s; copyState := copyState s; copyFeedback := copyFeedback s;
     isCancelling := isCancelling s; isExportMenuOpen := isExportMenuOpen s;
     downloadedBytes := downloadedBytes s; totalBytes := totalBytes s; viewMode := viewMode s;
     loadingDetail := loadingDetail s; activeDevice := activeDevice s; currentSlice := currentSlice s;
     totalSlices := totalSlices s; workerSupported := workerSupported s;
     workersCreated := workersCreated s; terminated := terminated s; posted := posted s;
     microtasks := microtasks s; timeouts := timeouts s; awaiting := awaiting s |}.

Definition set_activeRequestIdRef (v : Z) (s : State) : State :=
  {| workerRef := workerRef s; activeRequestIdRef := v;
     transcribeStartedAtRef := transcribeStartedAtRef s; status := status s; progress := progress s;
     progressPhase := progressPhase s; processedChunks := processedChunks s;
     totalChunks := totalChunks s; etaSeconds := etaSeconds s; output := output s;
     segments := segments s; error := error s; activeFileName := activeFileName s;
     selectedLanguage := selectedLanguage s; copyState := copyState s; copyFeedback := copyFeedback s;
     isCancelling := isCancelling s; isExportMenuOpen := isExportMenuOpen s;
     downloadedBytes := downloadedBytes s; totalBytes := totalBytes s; viewMode := viewMode s;
     loadingDetail := loadingDetail s; activeDevice := activeDevice s; currentSlice := currentSlice s;
     totalSlices := totalSlices s; workerSupported := workerSupported s;
     workersCreated := workersCreated s; terminated := terminated s; posted := posted s;
     microtasks := microtasks s; timeouts := timeouts s; awaiting := awaiting s |}.

Definition set_transcribeStartedAtRef (v : option Z) (s : State) : State :=
  {| workerRef := workerRef s; activeRequestIdRef := activeRequestIdRef s;
     transcribeStartedAtRef := v; status := status s; progress := progress s;
     progressPhase := progressPhase s; processedChunks := processedChunks s;
     totalChunks := totalChunks s; etaSeconds := etaSeconds s; output := output s;
     segments := segments s; error := error s; activeFileName := activeFileName s;
     selectedLanguage := selectedLanguage s; copyState := copyState s; copyFeedback := copyFeedback s;
     isCancelling := isCancelling s; isExportMenuOpen := isExportMenuOpen s;
     downloadedBytes := downloadedBytes s; totalBytes := totalBytes s; viewMode := viewMode s;
     loadingDetail := loadingDetail s; activeDevice := activeDevice s; currentSlice := currentSlice s;
     totalSlices := totalSlices s; workerSupported := workerSupported s;
     workersCreated := workersCreated s; terminated := terminated s; posted := posted s;
     microtasks := microtasks s; timeouts := timeouts s; awaiting := awaiting s |}.

Definition setStatus (v : TranscriptionStatus.t) (s : State) : State :=
  {| workerRef := workerRef s; activeRequestIdRef := activeRequestIdRef s;
     transcribeStartedAtRef := transcribeStartedAtRef s; status := v; progress := progress s;
     progressPhase := progressPhase s; processedChunks := processedChunks s;
     totalChunks := totalChunks s; etaSeconds := etaSeconds s; output := output s;
     segments := segments s; error := error s; activeFileName := activeFileName s;
     selectedLanguage := selectedLanguage s; copyState := copyState s; copyFeedback := copyFeedback s;
     isCancelling := isCancelling s; isExportMenuOpen := isExportMenuOpen s;
     downloadedBytes := downloadedBytes s; totalBytes := totalBytes s; viewMode := viewMode s;
     loadingDetail := loadingDetail s; activeDevice := activeDevice s; currentSlice := currentSlice s;
     totalSlices := totalSlices s; workerSupported := workerSupported s;
     workersCreated := workersCreated s; terminated := terminated s; posted := posted s;
     microtasks := microtasks s; timeouts := timeouts s; awaiting := awaiting s |}.

Definition setProgress (v : Double.t) (s : State) : State :=
  {| workerRef := workerRef s; activeRequestIdRef := activeRequestIdRef s;
     transcribeStartedAtRef := transcribeStartedAtRef s; status := status s; progress := v;
     progressPhase := progressPhase s; processedChunks := processedChunks s;
     totalChunks := totalChunks s; etaSeconds := etaSeconds s; output := output s;
     segments := segments s; error := error s; activeFileName := activeFileName s;
     selectedLanguage := selectedLanguage s; copyState := copyState s; copyFeedback := copyFeedback s;
     isCancelling := isCancelling s; isExportMenuOpen := isExportMenuOpen s;
     downloadedBytes := downloadedBytes s; totalBytes := totalBytes s; viewMode := viewMode s;
     loadingDetail := loadingDetail s; activeDevice := activeDevice s; currentSlice := currentSlice s;
     totalSlices := totalSlices s; workerSupported := workerSupported s;
     workersCreated := workersCreated s; terminated := terminated s; posted := posted s;
     microtasks := microtasks s; timeouts := timeouts s; awaiting := awaiting s |}.

Definition setProgressPhase (v : option ProgressPhase.t) (s : State) : State :=
  {| workerRef := workerRef s; activeRequestIdRef := activeRequestIdRef s;
     transcribeStartedAtRef := transcribeStartedAtRef s; status := status s; progress := progress s;
     progressPhase := v; processedChunks := processedChunks s; totalChunks := totalChunks s;
     etaSeconds := etaSeconds s; output := output s; segments := segments s; error := error s;
     activeFileName := activeFileName s; selectedLanguage := selectedLanguage s;
     copyState := copyState s; copyFeedback := copyFeedback s; isCancelling := isCancelling s;
     isExportMenuOpen := isExportMenuOpen s; downloadedBytes := downloadedBytes s;
     totalBytes := totalBytes s; viewMode := viewMode s; loadingDetail := loadingDetail s;
     activeDevice := activeDevice s; currentSlice := currentSlice s; totalSlices := totalSlices s;
     workerSupported := workerSupported s; workersCreated := workersCreated s;
     terminated := terminated s; posted := posted s; microtasks := microtasks s;
     timeouts := timeouts s; awaiting := awaiting s |}.

Definition setProcessedChunks (v : option Z) (s : State) : State :=
  {| workerRef := workerRef s; activeRequestIdRef := activeRequestIdRef s;
     transcribeStartedAtRef := transcribeStartedAtRef s; status := status s; progress := progress s;
     progressPhase := progressPhase s; processedChunks := v; totalChunks := totalChunks s;
     etaSeconds := etaSeconds s; output := output s; segments := segments s; error := error s;
     activeFileName := activeFileName s; selectedLanguage := selectedLanguage s;
     copyState := copyState s; copyFeedback := copyFeedback s; isCancelling := isCancelling s;
     isExportMenuOpen := isExportMenuOpen s; downloadedBytes := downloadedBytes s;
     totalBytes := totalBytes s; viewMode := viewMode s; loadingDetail := loadingDetail s;
     activeDevice := activeDevice s; currentSlice := currentSlice s; totalSlices := totalSlices s;
     workerSupported := workerSupported s; workersCreated := workersCreated s;
     terminated := terminated s; posted := posted s; microtasks := microtasks s;
     timeouts := timeouts s; awaiting := awaiting s |}.

Definition setTotalChunks (v : option Z) (s : State) : State :=
  {| workerRef := workerRef s; activeRequestIdRef := activeRequestIdRef s;
     transcribeStartedAtRef := transcribeStartedAtRef s; status := status s; progress := progress s;
     progressPhase := progressPhase s; processedChunks := processedChunks s; totalChunks := v;
     etaSeconds := etaSeconds s; output := output s; segments := segments s; error := error s;
     activeFileName := activeFileName s; selectedLanguage := selectedLanguage s;
     copyState := copyState s; copyFeedback := copyFeedback s; isCancelling := isCancelling s;
     isExportMenuOpen := isExportMenuOpen s; downloadedBytes := downloadedBytes s;
     totalBytes := totalBytes s; viewMode := viewMode s; loadingDetail := loadingDetail s;
     activeDevice := activeDevice s; currentSlice := currentSlice s; totalSlices := totalSlices s;
     workerSupported := workerSupported s; workersCreated := workersCreated s;
     terminated := terminated s; posted := posted s; microtasks := microtasks s;
     timeouts := timeouts s; awaiting := awaiting s |}.

Definition setEtaSeconds (v : option Z) (s : State) : State :=
  {| workerRef := workerRef s; activeRequestIdRef := activeRequestIdRef s;
     transcribeStartedAtRef := transcribeStartedAtRef s; status := status s; progress := progress s;
     progressPhase := progressPhase s; processedChunks := processedChunks s;
     totalChunks := totalChunks s; etaSeconds := v; output := output s; segments := segments s;
     error := error s; activeFileName := activeFileName s; selectedLanguage := selectedLanguage s;
     copyState := copyState s; copyFeedback := copyFeedback s; isCancelling := isCancelling s;
     isExportMenuOpen := isExportMenuOpen s; downloadedBytes := downloadedBytes s;
     totalBytes := totalBytes s; viewMode := viewMode s; loadingDetail := loadingDetail s;
     activeDevice := activeDevice s; currentSlice := currentSlice s; totalSlices := totalSlices s;
     workerSupported := workerSupported s; workersCreated := workersCreated s;
     terminated := terminated s; posted := posted s; microtasks := microtasks s;
     timeouts := timeouts s; awaiting := awaiting s |}.

Definition setOutput (v : string) (s : State) : State :=
  {| workerRef := workerRef s; activeRequestIdRef := activeRequestIdRef s;
     transcribeStartedAtRef := transcribeStartedAtRef s; status := status s; progress := progress s;
     progressPhase := progressPhase s; processedChunks := processedChunks s;
     totalChunks := totalChunks s; etaSeconds := etaSeconds s; output := v; segments := segments s;
     error := error s; activeFileName := activeFileName s; selectedLanguage := selectedLanguage s;
     copyState := copyState s; copyFeedback := copyFeedback s; isCancelling := isCancelling s;
     isExportMenuOpen := isExportMenuOpen s; downloadedBytes := downloadedBytes s;
     totalBytes := totalBytes s; viewMode := viewMode s; loadingDetail := loadingDetail s;
     activeDevice := activeDevice s; currentSlice := currentSlice s; totalSlices := totalSlices s;
     workerSupported := workerSupported s; workersCreated := workersCreated s;
     terminated := terminated s; posted := posted s; microtasks := microtasks s;
     timeouts := timeouts s; awaiting := awaiting s |}.

Definition setSegments (v : list TranscriptSegment) (s : State) : State :=
  {| workerRef := workerRef s; activeRequestIdRef := activeRequestIdRef s;
     transcribeStartedAtRef := transcribeStartedAtRef s; status := status s; progress := progress s;
     progressPhase := progressPhase s; processedChunks := processedChunks s;
     totalChunks := totalChunks s; etaSeconds := etaSeconds s; output := output s; segments := v;
     error := error s; activeFileName := activeFileName s; selectedLanguage := selectedLanguage s;
     copyState := copyState s; copyFeedback := copyFeedback s; isCancelling := isCancelling s;
     isExportMenuOpen := isExportMenuOpen s; downloadedBytes := downloadedBytes s;
     totalBytes := totalBytes s; viewMode := viewMode s; loadingDetail := loadingDetail s;
     activeDevice := activeDevice s; currentSlice := currentSlice s; totalSlices := totalSlices s;
     workerSupported := workerSupported s; workersCreated := workersCreated s;
     terminated := terminated s; posted := posted s; microtasks := microtasks s;
     timeouts := timeouts s; awaiting := awaiting s |}.

Definition setError (v : option string) (s : State) : State :=
  {| workerRef := workerRef s; activeRequestIdRef := activeRequestIdRef s;
     transcribeStartedAtRef := transcribeStartedAtRef s; status := status s; progress := progress s;
     progressPhase := progressPhase s; processedChunks := processedChunks s;
     totalChunks := totalChunks s; etaSeconds := etaSeconds s; output := output s;
     segments := segments s; error := v; activeFileName := activeFileName s;
     selectedLanguage := selectedLanguage s; copyState := copyState s; copyFeedback := copyFeedback s;
     isCancelling := isCancelling s; isExportMenuOpen := isExportMenuOpen s;
     downloadedBytes := downloadedBytes s; totalBytes := totalBytes s; viewMode := viewMode s;
     loadingDetail := loadingDetail s; activeDevice := activeDevice s; currentSlice := currentSlice s;
     totalSlices := totalSlices s; workerSupported := workerSupported s;
     workersCreated := workersCreated s; terminated := terminated s; posted := posted s;
     microtasks := microtasks s; timeouts := timeouts s; awaiting := awaiting s |}.

Definition setActiveFileName (v : option string) (s : State) : State :=
  {| workerRef := workerRef s; activeRequestIdRef := activeRequestIdRef s;
     transcribeStartedAtRef := transcribeStartedAtRef s; status := status s; progress := progress s;
     progressPhase := progressPhase s; processedChunks := processedChunks s;
     totalChunks := totalChunks s; etaSeconds := etaSeconds s; output := output s;
     segments := segments s; error := error s; activeFileName := v;
     selectedLanguage := selectedLanguage s; copyState := copyState s; copyFeedback := copyFeedback s;
     isCancelling := isCancelling s; isExportMenuOpen := isExportMenuOpen s;
     downloadedBytes := downloadedBytes s; totalBytes := totalBytes s; viewMode := viewMode s;
     loadingDetail := loadingDetail s; activeDevice := activeDevice s; currentSlice := currentSlice s;
     totalSlices := totalSlices s; workerSupported := workerSupported s;
     workersCreated := workersCreated s; terminated := terminated s; posted := posted s;
     microtasks := microtasks s; timeouts := timeouts s; awaiting := awaiting s |}.

Definition setSelectedLanguage (v : option Language) (s : State) : State :=
  {| workerRef := workerRef s; activeRequestIdRef := activeRequestIdRef s;
     transcribeStartedAtRef := transcribeStartedAtRef s; status := status s; progress := progress s;
     progressPhase := progressPhase s; processedChunks := processedChunks s;
     totalChunks := totalChunks s; etaSeconds := etaSeconds s; output := output s;
     segments := segments s; error := error s; activeFileName := activeFileName s;
     selectedLanguage := v; copyState := copyState s; copyFeedback := copyFeedback s;
     isCancelling := isCancelling s; isExportMenuOpen := isExportMenuOpen s;
     downloadedBytes := downloadedBytes s; totalBytes := totalBytes s; viewMode := viewMode s;
     loadingDetail := loadingDetail s; activeDevice := activeDevice s; currentSlice := currentSlice s;
     totalSlices := totalSlices s; workerSupported := workerSupported s;
     workersCreated := workersCreated s; terminated := terminated s; posted := posted s;
     microtasks := microtasks s; timeouts := timeouts s; awaiting := awaiting s |}.

Definition setCopyState (v : CopyState.t) (s : State) : State :=
  {| workerRef := workerRef s; activeRequestIdRef := activeRequestIdRef s;
     transcribeStartedAtRef := transcribeStartedAtRef s; status := status s; progress := progress s;
     progressPhase := progressPhase s; processedChunks := processedChunks s;
     totalChunks := totalChunks s; etaSeconds := etaSeconds s; output := output s;
     segments := segments s; error := error s; activeFileName := activeFileName s;
     selectedLanguage := selectedLanguage s; copyState := v; copyFeedback := copyFeedback s;
     isCancelling := isCancelling s; isExportMenuOpen := isExportMenuOpen s;
     downloadedBytes := downloadedBytes s; totalBytes := totalBytes s; viewMode := viewMode s;
     loadingDetail := loadingDetail s; activeDevice := activeDevice s; currentSlice := currentSlice s;
     totalSlices := totalSlices s; workerSupported := workerSupported s;
     workersCreated := workersCreated s; terminated := terminated s; posted := posted s;
     microtasks := microtasks s; timeouts := timeouts s; awaiting := awaiting s |}.

Definition setCopyFeedback (v : option string) (s : State) : State :=
  {| workerRef := workerRef s; activeRequestIdRef := activeRequestIdRef s;
     transcribeStartedAtRef := transcribeStartedAtRef s; status := status s; progress := progress s;
     progressPhase := progressPhase s; processedChunks := processedChunks s;
     totalChunks := totalChunks s; etaSeconds := etaSeconds s; output := output s;
     segments := segments s; error := error s; activeFileName := activeFileName s;
     selectedLanguage := selectedLanguage s; copyState := copyState s; copyFeedback := v;
     isCancelling := isCancelling s; isExportMenuOpen := isExportMenuOpen s;
     downloadedBytes := downloadedBytes s; totalBytes := totalBytes s; viewMode := viewMode s;
     loadingDetail := loadingDetail s; activeDevice := activeDevice s; currentSlice := currentSlice s;
     totalSlices := totalSlices s; workerSupported := workerSupported s;
     workersCreated := workersCreated s; terminated := terminated s; posted := posted s;
     microtasks := microtasks s; timeouts := timeouts s; awaiting := awaiting s |}.

Definition setIsCancelling (v : bool) (s : State) : State :=
  {| workerRef := workerRef s; activeRequestIdRef := activeRequestIdRef s;
     transcribeStartedAtRef := transcribeStartedAtRef s; status := status s; progress := progress s;
     progressPhase := progressPhase s; processedChunks := processedChunks s;
     totalChunks := totalChunks s; etaSeconds := etaSeconds s; output := output s;
     segments := segments s; error := error s; activeFileName := activeFileName s;
     selectedLanguage := selectedLanguage s; copyState := copyState s; copyFeedback := copyFeedback s;
     isCancelling := v; isExportMenuOpen := isExportMenuOpen s; downloadedBytes := downloadedBytes s;
     totalBytes := totalBytes s; viewMode := viewMode s; loadingDetail := loadingDetail s;
     activeDevice := activeDevice s; currentSlice := currentSlice s; totalSlices := totalSlices s;
     workerSupported := workerSupported s; workersCreated := workersCreated s;
     terminated := terminated s; posted := posted s; microtasks := microtasks s;
     timeouts := timeouts s; awaiting := awaiting s |}.

Definition setIsExportMenuOpen (v : bool) (s : State) : State :=
  {| workerRef := workerRef s; activeRequestIdRef := activeRequestIdRef s;
     transcribeStartedAtRef := transcribeStartedAtRef s; status := status s; progress := progress s;
     progressPhase := progressPhase s; processedChunks := processedChunks s;
     totalChunks := totalChunks s; etaSeconds := etaSeconds s; output := output s;
     segments := segments s; error := error s; activeFileName := activeFileName s;
     selectedLanguage := selectedLanguage s; copyState := copyState s; copyFeedback := copyFeedback s;
     isCancelling := isCancelling s; isExportMenuOpen := v; downloadedBytes := downloadedBytes s;
     totalBytes := totalBytes s; viewMode := viewMode s; loadingDetail := loadingDetail s;
     activeDevice := activeDevice s; currentSlice := currentSlice s; totalSlices := totalSlices s;
     workerSupported := workerSupported s; workersCreated := workersCreated s;
     terminated := terminated s; posted := posted s; microtasks := microtasks s;
     timeouts := timeouts s; awaiting := awaiting s |}.

Definition setDownloadedBytes (v : option Z) (s : State) : State :=
  {| workerRef := workerRef s; activeRequestIdRef := activeRequestIdRef s;
     transcribeStartedAtRef := transcribeStartedAtRef s; status := status s; progress := progress s;
     progressPhase := progressPhase s; processedChunks := processedChunks s;
     totalChunks := totalChunks s; etaSeconds := etaSeconds s; output := output s;
     segments := segments s; error := error s; activeFileName := activeFileName s;
     selectedLanguage := selectedLanguage s; copyState := copyState s; copyFeedback := copyFeedback s;
     isCancelling := isCancelling s; isExportMenuOpen := isExportMenuOpen s; downloadedBytes := v;
     totalBytes := totalBytes s; viewMode := viewMode s; loadingDetail := loadingDetail s;
     activeDevice := activeDevice s; currentSlice := currentSlice s; totalSlices := totalSlices s;
     workerSupported := workerSupported s; workersCreated := workersCreated s;
     terminated := terminated s; posted := posted s; microtasks := microtasks s;
     timeouts := timeouts s; awaiting := awaiting s |}.

Definition setTotalBytes (v : option Z) (s : State) : State :=
  {| workerRef := workerRef s; activeRequestIdRef := activeRequestIdRef s;
     transcribeStartedAtRef := transcribeStartedAtRef s; status := status s; progress := progress s;
     progressPhase := progressPhase s; processedChunks := processedChunks s;
     totalChunks := totalChunks s; etaSeconds := etaSeconds s; output := output s;
     segments := segments s; error := error s; activeFileName := activeFileName s;
     selectedLanguage := selectedLanguage s; copyState := copyState s; copyFeedback := copyFeedback s;
     isCancelling := isCancelling s; isExportMenuOpen := isExportMenuOpen s;
     downloadedBytes := downloadedBytes s; totalBytes := v; viewMode := viewMode s;
     loadingDetail := loadingDetail s; activeDevice := activeDevice s; currentSlice := currentSlice s;
     totalSlices := totalSlices s; workerSupported := workerSupported s;
     workersCreated := workersCreated s; terminated := terminated s; posted := posted s;
     microtasks := microtasks s; timeouts := timeouts s; awaiting := awaiting s |}.

Definition setViewMode (v : ViewMode.t) (s : State) : State :=
  {| workerRef := workerRef s; activeRequestIdRef := activeRequestIdRef s;
     transcribeStartedAtRef := transcribeStartedAtRef s; status := status s; progress := progress s;
     progressPhase := progressPhase s; processedChunks := processedChunks s;
     totalChunks := totalChunks s; etaSeconds := etaSeconds s; output := output s;
     segments := segments s; error := error s; activeFileName := activeFileName s;
     selectedLanguage := selectedLanguage s; copyState := copyState s; copyFeedback := copyFeedback s;
     isCancelling := isCancelling s; isExportMenuOpen := isExportMenuOpen s;
     downloadedBytes := downloadedBytes s; totalBytes := totalBytes s; viewMode := v;
     loadingDetail := loadingDetail s; activeDevice := activeDevice s; currentSlice := currentSlice s;
     totalSlices := totalSlices s; workerSupported := workerSupported s;
     workersCreated := workersCreated s; terminated := terminated s; posted := posted s;
     microtasks := microtasks s; timeouts := timeouts s; awaiting := awaiting s |}.

Definition setLoadingDetail (v : option string) (s : State) : State :=
  {| workerRef := workerRef s; activeRequestIdRef := activeRequestIdRef s;
     transcribeStartedAtRef := transcribeStartedAtRef s; status := status s; progress := progress s;
     progressPhase := progressPhase s; processedChunks := processedChunks s;
     totalChunks := totalChunks s; etaSeconds := etaSeconds s; output := output s;
     segments := segments s; error := error s; activeFileName := activeFileName s;
     selectedLanguage := selectedLanguage s; copyState := copyState s; copyFeedback := copyFeedback s;
     isCancelling := isCancelling s; isExportMenuOpen := isExportMenuOpen s;
     downloadedBytes := downloadedBytes s; totalBytes := totalBytes s; viewMode := viewMode s;
     loadingDetail := v; activeDevice := activeDevice s; currentSlice := currentSlice s;
     totalSlices := totalSlices s; workerSupported := workerSupported s;
     workersCreated := workersCreated s; terminated := terminated s; posted := posted s;
     microtasks := microtasks s; timeouts := timeouts s; awaiting := awaiting s |}.

Definition setActiveDevice (v : option string) (s : State) : State :=
  {| workerRef := workerRef s; activeRequestIdRef := activeRequestIdRef s;
     transcribeStartedAtRef := transcribeStartedAtRef s; status := status s; progress := progress s;
     progressPhase := progressPhase s; processedChunks := processedChunks s;
     totalChunks := totalChunks s; etaSeconds := etaSeconds s; output := output s;
     segments := segments s; error := error s; activeFileName := activeFileName s;
     selectedLanguage := selectedLanguage s; copyState := copyState s; copyFeedback := copyFeedback s;
     isCancelling := isCancelling s; isExportMenuOpen := isExportMenuOpen s;
     downloadedBytes := downloadedBytes s; totalBytes := totalBytes s; viewMode := viewMode s;
     loadingDetail := loadingDetail s; activeDevice := v; currentSlice := currentSlice s;
     totalSlices := totalSlices s; workerSupported := workerSupported s;
     workersCreated := workersCreated s; terminated := terminated s; posted := posted s;
     microtasks := microtasks s; timeouts := timeouts s; awaiting := awaiting s |}.

Definition setCurrentSlice (v : option Z) (s : State) : State :=
  {| workerRef := workerRef s; activeRequestIdRef := activeRequestIdRef s;
     transcribeStartedAtRef := transcribeStartedAtRef s; status := status s; progress := progress s;
     progressPhase := progressPhase s; processedChunks := processedChunks s;
     totalChunks := totalChunks s; etaSeconds := etaSeconds s; output := output s;
     segments := segments s; error := error s; activeFileName := activeFileName s;
     selectedLanguage := selectedLanguage s; copyState := copyState s; copyFeedback := copyFeedback s;
     isCancelling := isCancelling s; isExportMenuOpen := isExportMenuOpen s;
     downloadedBytes := downloadedBytes s; totalBytes := totalBytes s; viewMode := viewMode s;
     loadingDetail := loadingDetail s; activeDevice := activeDevice s; currentSlice := v;
     totalSlices := totalSlices s; workerSupported := workerSupported s;
     workersCreated := workersCreated s; terminated := terminated s; posted := posted s;
     microtasks := microtasks s; timeouts := timeouts s; awaiting := awaiting s |}.

Definition setTotalSlices (v : option Z) (s : State) : State :=
  {| workerRef := workerRef s; activeRequestIdRef := activeRequestIdRef s;
     transcribeStartedAtRef := transcribeStartedAtRef s; status := status s; progress := progress s;
     progressPhase := progressPhase s; processedChunks := processedChunks s;
     totalChunks := totalChunks s; etaSeconds := etaSeconds s; output := output s;
     segments := segments s; error := error s; activeFileName := activeFileName s;
     selectedLanguage := selectedLanguage s; copyState := copyState s; copyFeedback := copyFeedback s;
     isCancelling := isCancelling s; isExportMenuOpen := isExportMenuOpen s;
     downloadedBytes := downloadedBytes s; totalBytes := totalBytes s; viewMode := viewMode s;
     loadingDetail := loadingDetail s; activeDevice := activeDevice s; currentSlice := currentSlice s;
     totalSlices := v; workerSupported := workerSupported s; workersCreated := workersCreated s;
     terminated := terminated s; posted := posted s; microtasks := microtasks s;
     timeouts := timeouts s; awaiting := awaiting s |}.

Definition set_workersCreated (v : nat) (s : State) : State :=
  {| workerRef := workerRef s; activeRequestIdRef := activeRequestIdRef s;
     transcribeStartedAtRef := transcribeStartedAtRef s; status := status s; progress := progress s;
     progressPhase := progressPhase s; processedChunks := processedChunks s;
     totalChunks := totalChunks s; etaSeconds := etaSeconds s; output := output s;
     segments := segments s; error := error s; activeFileName := activeFileName s;
     selectedLanguage := selectedLanguage s; copyState := copyState s; copyFeedback := copyFeedback s;
     isCancelling := isCancelling s; isExportMenuOpen := isExportMenuOpen s;
     downloadedBytes := downloadedBytes s; totalBytes := totalBytes s; viewMode := viewMode s;
     loadingDetail := loadingDetail s; activeDevice := activeDevice s; currentSlice := currentSlice s;
     totalSlices := totalSlices s; workerSupported := workerSupported s; workersCreated := v;
     terminated := terminated s; posted := posted s; microtasks := microtasks s;
     timeouts := timeouts s; awaiting := awaiting s |}.

Definition set_terminated (v : list nat) (s : State) : State :=
  {| workerRef := workerRef s; activeRequestIdRef := activeRequestIdRef s;
     transcribeStartedAtRef := transcribeStartedAtRef s; status := status s; progress := progress s;
     progressPhase := progressPhase s; processedChunks := processedChunks s;
     totalChunks := totalChunks s; etaSeconds := etaSeconds s; output := output s;
     segments := segments s; error := error s; activeFileName := activeFileName s;
     selectedLanguage := selectedLanguage s; copyState := copyState s; copyFeedback := copyFeedback s;
     isCancelling := isCancelling s; isExportMenuOpen := isExportMenuOpen s;
     downloadedBytes := downloadedBytes s; totalBytes := totalBytes s; viewMode := viewMode s;
     loadingDetail := loadingDetail s; activeDevice := activeDevice s; currentSlice := currentSlice s;
     totalSlices := totalSlices s; workerSupported := workerSupported s;
     workersCreated := workersCreated s; terminated := v; posted := posted s;
     microtasks := microtasks s; timeouts := timeouts s; awaiting := awaiting s |}.

Definition set_posted (v : list (nat * WorkerRequest)) (s : State) : State :=
  {| workerRef := workerRef s; activeRequestIdRef := activeRequestIdRef s;
     transcribeStartedAtRef := transcribeStartedAtRef s; status := status s; progress := progress s;
     progressPhase := progressPhase s; processedChunks := processedChunks s;
     totalChunks := totalChunks s; etaSeconds := etaSeconds s; output := output s;
     segments := segments s; error := error s; activeFileName := activeFileName s;
     selectedLanguage := selectedLanguage s; copyState := copyState s; copyFeedback := copyFeedback s;
     isCancelling := isCancelling s; isExportMenuOpen := isExportMenuOpen s;
     downloadedBytes := downloadedBytes s; totalBytes := totalBytes s; viewMode := viewMode s;
     loadingDetail := loadingDetail s; activeDevice := activeDevice s; currentSlice := currentSlice s;
     totalSlices := totalSlices s; workerSupported := workerSupported s;
     workersCreated := workersCreated s; terminated := terminated s; posted := v;
     microtasks := microtasks s; timeouts := timeouts s; awaiting := awaiting s |}.

Definition set_microtasks (v : list Task) (s : State) : State :=
  {| workerRef := workerRef s; activeRequestIdRef := activeRequestIdRef s;
     transcribeStartedAtRef := transcribeStartedAtRef s; status := status s; progress := progress s;
     progressPhase := progressPhase s; processedChunks := processedChunks s;
     totalChunks := totalChunks s; etaSeconds := etaSeconds s; output := output s;
     segments := segments s; error := error s; activeFileName := activeFileName s;
     selectedLanguage := selectedLanguage s; copyState := copyState s; copyFeedback := copyFeedback s;
     isCancelling := isCancelling s; isExportMenuOpen := isExportMenuOpen s;
     downloadedBytes := downloadedBytes s; totalBytes := totalBytes s; viewMode := viewMode s;
     loadingDetail := loadingDetail s; activeDevice := activeDevice s; currentSlice := currentSlice s;
     totalSlices := totalSlices s; workerSupported := workerSupported s;
     workersCreated := workersCreated s; terminated := terminated s; posted := posted s;
     microtasks := v; timeouts := timeouts s; awaiting := awaiting s |}.

Definition set_timeouts (v : list (Z * Task)) (s : State) : State :=
  {| workerRef := workerRef s; activeRequestIdRef := activeRequestIdRef s;
     transcribeStartedAtRef := transcribeStartedAtRef s; status := status s; progress := progress s;
     progressPhase := progressPhase s; processedChunks := processedChunks s;
     totalChunks := totalChunks s; etaSeconds := etaSeconds s; output := output s;
     segments := segments s; error := error s; activeFileName := activeFileName s;
     selectedLanguage := selectedLanguage s; copyState := copyState s; copyFeedback := copyFeedback s;
     isCancelling := isCancelling s; isExportMenuOpen := isExportMenuOpen s;
     downloadedBytes := downloadedBytes s; totalBytes := totalBytes s; viewMode := viewMode s;
     loadingDetail := loadingDetail s; activeDevice := activeDevice s; currentSlice := currentSlice s;
     totalSlices := totalSlices s; workerSupported := workerSupported s;
     workersCreated := workersCreated s; terminated := terminated s; posted := posted s;
     microtasks := microtasks s; timeouts := v; awaiting := awaiting s |}.

Definition set_awaiting (v : list PendingDecode) (s : State) : State :=
  {| workerRef := workerRef s; activeRequestIdRef := activeRequestIdRef s;
     transcribeStartedAtRef := transcribeStartedAtRef s; status := status s; progress := progress s;
     progressPhase := progressPhase s; processedChunks := processedChunks s;
     totalChunks := totalChunks s; etaSeconds := etaSeconds s; output := output s;
     segments := segments s; error := error s; activeFileName := activeFileName s;
     selectedLanguage := selectedLanguage s; copyState := copyState s; copyFeedback := copyFeedback s;
     isCancelling := isCancelling s; isExportMenuOpen := isExportMenuOpen s;
     downloadedBytes := downloadedBytes s; totalBytes := totalBytes s; viewMode := viewMode s;
     loadingDetail := loadingDetail s; activeDevice := activeDevice s; currentSlice := currentSlice s;
     totalSlices := totalSlices s; workerSupported := workerSupported s;
     workersCreated := workersCreated s; terminated := terminated s; posted := posted s;
     microtasks := microtasks s; timeouts := timeouts s; awaiting := v |}.
(** ** Session controller *)

(** A JavaScript string used as a condition: true unless absent or empty. *)
Definition truthy (v : option string) : bool :=
  match v with
  | Some x => negb (String.eqb x EmptyString)
  | None => false
  end.

(** [typeof requestId === "number" && requestId !== activeRequestIdRef.current] *)
Definition staleOptional (requestId : option Z) (s : State) : bool :=
  match requestId with
  | Some r => negb (r =? activeRequestIdRef s)
  | None => false
  end.

(** The request identifier a message carries, if any. *)
Definition requestIdOf (message : WorkerResponse) : option Z :=
  match message with
  | msg_status _ requestId _ _ => requestId
  | msg_progress m => m_requestId m
  | msg_partial _ requestId => Some requestId
  | msg_segments requestId _ _ => Some requestId
  | msg_result _ requestId => Some requestId
  | msg_error _ requestId => requestId
  end.

Definition isDownloadProgress (message : WorkerResponse) : bool :=
  match message with
  | msg_progress m => ProgressPhase.eqb (m_phase m) ProgressPhase.download
  | _ => false
  end.

(** The same [progress] payload under another request identifier. *)
Definition retag (requestId : option Z) (m : ProgressMessage) : ProgressMessage :=
  {| m_phase := m_phase m; m_progress := m_progress m; m_requestId := requestId;
     m_processedChunks := m_processedChunks m; m_totalChunks := m_totalChunks m;
     m_currentSlice := m_currentSlice m; m_totalSlices := m_totalSlices m;
     m_loaded := m_loaded m; m_total := m_total m; m_file := m_file m |}.

Definition clearProgressState (s : State) : State :=
  let s := setProgress Double.zero s in
  let s := setProgressPhase None s in
  let s := setProcessedChunks None s in
  let s := setTotalChunks None s in
  let s := setEtaSeconds None s in
  let s := setDownloadedBytes None s in
  let s := setTotalBytes None s in
  let s := setLoadingDetail None s in
  let s := setCurrentSlice None s in
  let s := setTotalSlices None s in
  set_transcribeStartedAtRef None s.

(** What [clearProgressState] establishes. *)
Definition progressCleared (s : State) : Prop :=
  progress s = Double.zero
  /\ progressPhase s = None
  /\ processedChunks s = None /\ totalChunks s = None
  /\ etaSeconds s = None
  /\ downloadedBytes s = None /\ totalBytes s = None
  /\ loadingDetail s = None
  /\ currentSlice s = None /\ totalSlices s = None
  /\ transcribeStartedAtRef s = None.

(** [if (message.device) setActiveDevice(message.device)] *)
Definition noteDevice (device : option string) (s : State) : State :=
  if truthy device then setActiveDevice device s else s.

(** The five assignments that the [ready] status and the terminal
    [segments] and [result] messages share. *)
Definition endProgress (s : State) : State :=
  let s := setProgressPhase None s in
  let s := setProcessedChunks None s in
  let s := setTotalChunks None s in
  let s := setEtaSeconds None s in
  set_transcribeStartedAtRef None s.

Definition isSome {A : Type} (v : option A) : bool :=
  match v with Some _ => true | None => false end.

(** The handler reads the clock at most twice: [clock0] is what [Date.now()]
    returns where the start of the transcribe phase is recorded, [clock1]
    what it returns where the elapsed time is taken (milliseconds).  The
    estimate is computed in doubles from the clock readings and the chunk
    counters, which are integers; [Math.ceil] makes it an integer, and the
    state keeps that integer. *)
Definition handleWorkerMessage
  (clock0 clock1 : Z) (message : WorkerResponse) (s : State) : State :=
  match message with
  | msg_status st requestId detail device =>
      if staleOptional requestId s then s
      else
        let s :=
          match st with
          | WorkerStatus.loading =>
              let s := setStatus TranscriptionStatus.loading s in
              let s := if truthy detail then setLoadingDetail detail s else s in
              noteDevice device s
          | WorkerStatus.transcribing =>
              let s := setStatus TranscriptionStatus.transcribing s in
              let s := setLoadingDetail None s in
              noteDevice device s
          | WorkerStatus.ready =>
              let s := setStatus TranscriptionStatus.ready s in
              let s := setLoadingDetail None s in
              let s := noteDevice device s in
              endProgress s
          | WorkerStatus.error =>
              let s := setStatus TranscriptionStatus.error s in
              let s := setLoadingDetail None s in
              clearProgressState s
          end in
        match st with
        | WorkerStatus.error => if truthy detail then setError detail s else s
        | _ => s
        end
  | msg_progress m =>
      if ProgressPhase.eqb (m_phase m) ProgressPhase.transcribing
         && staleOptional (m_requestId m) s
      then s
      else
        let s := setProgressPhase (Some (m_phase m)) s in
        let s := setProgress (clampProgress (m_progress m)) s in
        match m_phase m with
        | ProgressPhase.download =>
            let s := setStatus TranscriptionStatus.loading s in
            let s := setProcessedChunks None s in
            let s := setTotalChunks None s in
            let s := setEtaSeconds None s in
            let s := set_transcribeStartedAtRef None s in
            let s := if isSome (m_loaded m) then setDownloadedBytes (m_loaded m) s else s in
            match m_total m with
            | Some total => if 0 <? total then setTotalBytes (Some total) s else s
            | None => s
            end
        | ProgressPhase.transcribing =>
            let s := setStatus TranscriptionStatus.transcribing s in
            let s := setProcessedChunks (m_processedChunks m) s in
            let s := setTotalChunks (m_totalChunks m) s in
            let s := if isSome (m_currentSlice m) then setCurrentSlice (m_currentSlice m) s else s in
            let s := if isSome (m_totalSlices m) then setTotalSlices (m_totalSlices m) s else s in
            let startedAt :=
              match transcribeStartedAtRef s with
              | Some t => t
              | None => clock0
              end in
            let s := set_transcribeStartedAtRef (Some startedAt) s in
            match m_processedChunks m, m_totalChunks m with
            | Some processed, Some total =>
                if (0 <? processed) && (processed <=? total) then
                  let elapsedSeconds :=
                    Double.div (Double.sub (Double.ofZ clock1) (Double.ofZ startedAt))
                               (Double.ofZ 1000) in
                  let averageChunkSeconds :=
                    Double.div elapsedSeconds (Double.ofZ processed) in
                  let remainingChunks :=
                    Double.max (Double.sub (Double.ofZ total) (Double.ofZ processed))
                               Double.zero in
                  let estimatedRemaining :=
                    Double.ceil (Double.mul averageChunkSeconds remainingChunks) in
                  setEtaSeconds (Some estimatedRemaining) s
                else setEtaSeconds None s
            | _, _ => setEtaSeconds None s
            end
        end
  | msg_partial text requestId =>
      if negb (requestId =? activeRequestIdRef s) then s
      else
        let s := setStatus TranscriptionStatus.transcribing s in
        setOutput text s
  | msg_segments requestId text segs =>
      if negb (requestId =? activeRequestIdRef s) then s
      else
        let s := setSegments segs s in
        let s := setOutput text s in
        let s := setStatus TranscriptionStatus.ready s in
        endProgress s
  | msg_result text requestId =>
      if negb (requestId =? activeRequestIdRef s) then s
      else
        let s := setOutput text s in
        let s := setStatus TranscriptionStatus.ready s in
        endProgress s
  | msg_error err requestId =>
      if staleOptional requestId s then s
      else
        let s := setStatus TranscriptionStatus.error s in
        let s := setError (Some err) s in
        clearProgressState s
  end.

(** The seconds that the handler expects the remaining chunks to take: the
    double of which the estimate is the ceiling. *)
Definition remainingSeconds (clock1 startedAt processed total : Z) : Double.t :=
  Double.mul
    (Double.div
       (Double.div (Double.sub (Double.ofZ clock1) (Double.ofZ startedAt))
                   (Double.ofZ 1000))
       (Double.ofZ processed))
    (Double.max (Double.sub (Double.ofZ total) (Double.ofZ processed)) Double.zero).

(** The estimate of a transcribe-phase message in closed form, for the
    statements about [handleWorkerMessage]. *)
Definition estimate (clock1 startedAt : Z) (m : ProgressMessage) : option Z :=
  match m_processedChunks m, m_totalChunks m with
  | Some processed, Some total =>
      if (0 <? processed) && (processed <=? total)
      then Some (Double.ceil (remainingSeconds clock1 startedAt processed total))
      else None
  | _, _ => None
  end.

(** [worker.onerror]; [message] is [event.message]. *)
Definition handleWorkerError (message : string) (s : State) : State :=
  let s := setStatus TranscriptionStatus.error s in
  let s :=
    setError
      (Some (if String.eqb message EmptyString
             then "Worker encountered an unexpected error."%string
             else message)) s in
  clearProgressState s.

Definition runTask (t : Task) (s : State) : State :=
  match t with
  | task_workers_unsupported =>
      let s := setStatus TranscriptionStatus.error s in
      setError (Some "Web Workers are not supported in this browser."%string) s
  | task_cancelling_done => setIsCancelling false s
  end.

Definition initializeWorker (s : State) : State :=
  if negb (workerSupported s) then
    set_microtasks (microtasks s ++ [task_workers_unsupported]) s
  else
    let worker := workersCreated s in
    let s := set_workersCreated (Datatypes.S worker) s in
    let s := set_workerRef (Some worker) s in
    set_posted (posted s ++ [(worker, req_load)]) s.

Definition terminateWorker (s : State) : State :=
  match workerRef s with
  | Some worker =>
      let s := set_terminated (terminated s ++ [worker]) s in
      set_workerRef None s
  | None => s
  end.

Definition cancelTranscription (s : State) : State :=
  let s := set_activeRequestIdRef (activeRequestIdRef s + 1) s in
  let s := setIsCancelling true s in
  let s := setStatus TranscriptionStatus.idle s in
  let s := setError None s in
  let s := clearProgressState s in
  let s := terminateWorker s in
  let s := initializeWorker s in
  set_timeouts (timeouts s ++ [(300, task_cancelling_done)]) s.

(** ** Submitting a file *)

(** What the platform's [decodeAudioData] did with the file's bytes. *)
Inductive Decoded : Type :=
| no_AudioContext
| decode_failed (thrown : option string)
| decoded (audioBuffer : AudioBuffer) (sampleRate : Qc).

(** [decodeAudioFile]: the left injection is a thrown value, holding the
    [message] when the value is an [Error]. *)
Definition decodeAudioFile (d : Decoded) : option string + Float32Array :=
  match d with
  | no_AudioContext => inl (Some "Web Audio API is not supported in this browser."%string)
  | decode_failed thrown => inl thrown
  | decoded audioBuffer sampleRate =>
      match downmixToMono audioBuffer with
      | Some mono => inr (resampleMonoAudio mono sampleRate (ofZ 16000))
      | None => inl (Some "RangeError"%string)
      end
  end.

Definition busyStatus (st : TranscriptionStatus.t) : bool :=
  match st with
  | TranscriptionStatus.loading
  | TranscriptionStatus.transcribing
  | TranscriptionStatus.decoding => true
  | _ => false
  end.

(** [handleFileSelected] up to its [await]. *)
Definition handleFileSelected (fileName : string) (s : State) : State :=
  match selectedLanguage s with
  | None => s
  | Some _ =>
      let language := selectedLanguage s in
      let s := if busyStatus (status s) then cancelTranscription s else s in
      match workerRef s with
      | None =>
          let s := setStatus TranscriptionStatus.error s in
          setError (Some "Transcription worker is not available."%string) s
      | Some worker =>
          let requestId := activeRequestIdRef s + 1 in
          let s := set_activeRequestIdRef requestId s in
          let s := setActiveFileName (Some fileName) s in
          let s := setOutput EmptyString s in
          let s := setSegments [] s in
          let s := setViewMode ViewMode.timestamps s in
          let s := setCopyState CopyState.idle s in
          let s := setCopyFeedback None s in
          let s := setIsExportMenuOpen false s in
          let s := setError None s in
          let s := setStatus TranscriptionStatus.decoding s in
          let s := clearProgressState s in
          set_awaiting (awaiting s ++ [mkPending requestId worker language]) s
      end
  end.

(** [handleFileSelected] from its [await] on, with what [decodeAudioFile]
    produced. *)
Definition handleFileSelected_resume
  (p : PendingDecode) (r : option string + Float32Array) (s : State) : State :=
  if negb (pd_requestId p =? activeRequestIdRef s) then s
  else
    match r with
    | inr audioData =>
        let language :=
          match pd_language p with
          | Some l => l
          | None => whisper english
          end in
        set_posted
          (posted s ++ [(pd_worker p, req_transcribe (pd_requestId p) audioData language)]) s
    | inl thrown =>
        let s := setStatus TranscriptionStatus.error s in
        setError
          (Some match thrown with
                | Some message => message
                | None => "Failed to decode the selected audio file."%string
                end) s
    end.

(** ** Derived view state *)

Definition isCompiling (s : State) : bool :=
  match status s, loadingDetail s with
  | TranscriptionStatus.loading, Some d => String.eqb d "compiling"
  | _, _ => false
  end.

Definition isWarmingUp (s : State) : bool :=
  match status s, processedChunks s, totalChunks s with
  | TranscriptionStatus.transcribing, Some processed, Some total =>
      (processed =? 0) && (0 <? total)
  | _, _, _ => false
  end.

Definition showProgressBar (s : State) : bool :=
  match progressPhase s with
  | Some ProgressPhase.download => negb (isCompiling s)
  | Some ProgressPhase.transcribing => negb (isWarmingUp s)
  | None => false
  end.

(** One of the four Cancel buttons is rendered and not disabled. *)
Definition cancelButtonEnabled (s : State) : bool :=
  (isCompiling s
   || isWarmingUp s
   || showProgressBar s
   || (match status s with TranscriptionStatus.decoding => true | _ => false end
       && negb (showProgressBar s)))
  && negb (isCancelling s).

(** The countdown of the displayed estimate, once a second: the updater
    handed to [setEtaSeconds]. *)
Definition etaCountdown (s : State) : State :=
  setEtaSeconds
    (match etaSeconds s with
     | None => Some 0
     | Some current => if current <=? 0 then Some 0 else Some (current - 1)
     end) s.

(** The guard of the effect that sets up the countdown interval. *)
Definition etaCountdownRunning (s : State) : bool :=
  match progressPhase s, etaSeconds s with
  | Some ProgressPhase.transcribing, Some eta => 0 <? eta
  | _, _ => false
  end.

(** ** Structured export *)

(** [toISOString] is the platform's rendering of an instant; [now] is the
    instant [new Date()] captures.  The state is returned as it is left. *)
Definition buildJsonExportPayload
  (toISOString : Z -> string) (now : Z) (s : State) : TranscriptExportJson * State :=
  ({| version := 1;
      createdAt := toISOString now;
      fileName := activeFileName s;
      model := "Xenova/whisper-small"%string;
      language := selectedLanguage s;
      text := output s;
      export_segments := segments s |}, s).

(** The record [p] with another [createdAt]. *)
Definition withCreatedAt (stamp : string) (p : TranscriptExportJson) : TranscriptExportJson :=
  {| version := version p; createdAt := stamp; fileName := fileName p;
     model := model p; language := language p; text := text p;
     export_segments := export_segments p |}.

(** ** Runs of the component *)

(** What can happen to the mounted component.  A run is a list of these;
    the platform interleaves them freely, subject to [enabled]. *)
Inductive Event : Type :=
| ev_mount                    (* the mount effect: initializeWorker() *)
| ev_unmount                  (* its cleanup: terminate the worker in use *)
| ev_message (worker : nat) (clock0 clock1 : Z) (message : WorkerResponse)
                              (* worker.onmessage *)
| ev_worker_error (worker : nat) (message : string)
                              (* worker.onerror *)
| ev_cancel_click             (* onClick of a Cancel button *)
| ev_file_selected (fileName : string)
                              (* the dropzone's onFileSelected *)
| ev_decoded (p : PendingDecode) (d : Decoded)
                              (* decodeAudioFile settles for submission p *)
| ev_microtask                (* the oldest queued microtask runs *)
| ev_timeout                  (* the oldest timer fires *)
| ev_eta_tick                 (* the one-second countdown interval *)
| ev_select_language (l : Language).
                              (* a choice in the language menu *)

(** Suspended submissions are told apart by request and worker. *)
Definition PendingDecode_eqb (p q : PendingDecode) : bool :=
  (pd_requestId p =? pd_requestId q) && (pd_worker p =? pd_worker q)%nat.

(** A worker delivers events while it exists and has not been terminated.
    The countdown interval is set up by an effect whose guard is
    [etaCountdownRunning] and cleared by the cleanup of that effect, which
    runs only after a later render; a tick that is already due can
    therefore meet a state in which the guard no longer holds, and
    [ev_eta_tick] is enabled in every state. *)
Definition workerLive (worker : nat) (s : State) : bool :=
  (worker <? workersCreated s)%nat
  && negb (existsb (Nat.eqb worker) (terminated s)).

Definition enabled (e : Event) (s : State) : bool :=
  match e with
  | ev_mount | ev_unmount => true
  | ev_message worker _ _ _ => workerLive worker s
  | ev_worker_error worker _ => workerLive worker s
  | ev_cancel_click => cancelButtonEnabled s
  | ev_file_selected _ => true
  | ev_decoded p _ => existsb (PendingDecode_eqb p) (awaiting s)
  | ev_microtask => isSome (hd_error (microtasks s))
  | ev_timeout => isSome (hd_error (timeouts s))
  | ev_eta_tick => true
  | ev_select_language _ => true
  end.

Definition react (e : Event) (s : State) : State :=
  match e with
  | ev_mount => initializeWorker s
  | ev_unmount => terminateWorker s
  | ev_message _ clock0 clock1 message => handleWorkerMessage clock0 clock1 message s
  | ev_worker_error _ message => handleWorkerError message s
  | ev_cancel_click => cancelTranscription s
  | ev_file_selected fileName => handleFileSelected fileName s
  | ev_decoded p d =>
      let s :=
        set_awaiting (filter (fun q => negb (PendingDecode_eqb p q)) (awaiting s)) s in
      handleFileSelected_resume p (decodeAudioFile d) s
  | ev_microtask =>
      match microtasks s with
      | t :: rest => runTask t (set_microtasks rest s)
      | [] => s
      end
  | ev_timeout =>
      match timeouts s with
      | (_, t) :: rest => runTask t (set_timeouts rest s)
      | [] => s
      end
  | ev_eta_tick => etaCountdown s
  | ev_select_language l => setSelectedLanguage (Some l) s
  end.

(** [run events s]: the state after [events], or [None] when one of them
    cannot occur in the state it meets. *)
Fixpoint run (events : list Event) (s : State) : option State :=
  match events with
  | [] => Some s
  | e :: rest => if enabled e s then run rest (react e s) else None
  end.

Definition reachable (s : State) : Prop :=
  exists supported events, run events (initialState supported) = Some s.

(** [cancelTranscription] has two callers: a Cancel button, and
    [handleFileSelected] while a session is in flight. *)
Definition cancelInvoked (s : State) : bool :=
  cancelButtonEnabled s || (isSome (selectedLanguage s) && busyStatus (status s)).

(** Two states with the same workers, queues of posted messages and
    suspended submissions. *)
Definition samePlatform (s s' : State) : Prop :=
  workerRef s' = workerRef s
  /\ workersCreated s' = workersCreated s
  /\ terminated s' = terminated s
  /\ posted s' = posted s
  /\ awaiting s' = awaiting s
  /\ workerSupported s' = workerSupported s.

(** What every run maintains: worker numbers in use are numbers of created
    workers, and where the platform has no [Worker] constructor there is no
    worker, no session in flight and no progress display. *)
Definition wellFormed (s : State) : Prop :=
  (forall w, workerRef s = Some w -> (w < workersCreated s)%nat)
  /\ Forall (fun w => (w < workersCreated s)%nat) (terminated s)
  /\ Forall (fun e => (fst e < workersCreated s)%nat) (posted s)
  /\ Forall (fun p => (pd_worker p < workersCreated s)%nat) (awaiting s)
  /\ (workerSupported s = false ->
      workersCreated s = 0%nat
      /\ workerRef s = None
      /\ busyStatus (status s) = false
      /\ progressPhase s = None).

(** The messages handed to one worker, oldest first. *)
Definition postedTo (worker : nat) (s : State) : list WorkerRequest :=
  map snd (filter (fun e => (fst e =? worker)%nat) (posted s)).

(** ** Further definitions for the properties of runs *)

(** The request identifiers of the [transcribe] requests among posted
    messages, oldest first. *)
Definition transcribeIds (l : list (nat * WorkerRequest)) : list Z :=
  flat_map (fun e => match snd e with
                     | req_transcribe requestId _ _ => [requestId]
                     | req_load => []
                     end) l.

(** A progress message that the handler does not drop. *)
Definition progressApplied (m : ProgressMessage) (s : State) : bool :=
  negb (ProgressPhase.eqb (m_phase m) ProgressPhase.transcribing
        && staleOptional (m_requestId m) s).

(** The bookkeeping of request identifiers that every run maintains. *)
Definition requestsOrdered (s : State) : Prop :=
  0 <= activeRequestIdRef s
  /\ Forall (fun p => 1 <= pd_requestId p <= activeRequestIdRef s) (awaiting s)
  /\ NoDup (map pd_requestId (awaiting s))
  /\ Forall (fun id => 1 <= id <= activeRequestIdRef s) (transcribeIds (posted s))
  /\ NoDup (transcribeIds (posted s))
  /\ (forall id, In id (transcribeIds (posted s)) ->
                 ~ In id (map pd_requestId (awaiting s))).

(** A number between 0 and 100. *)
Definition isPercentage (x : Double.t) : bool :=
  Double.leb Double.zero x && Double.leb x (Double.ofZ 100).

(** What the progress display satisfies in every run. *)
Definition displayConsistent (s : State) : Prop :=
  clampProgress (progress s) = progress s
  /\ (forall total, totalBytes s = Some total -> 0 < total)
  /\ (forall eta, etaSeconds s = Some eta -> 0 < eta ->
        progressPhase s = Some ProgressPhase.transcribing
        /\ transcribeStartedAtRef s <> None
        /\ exists processed total,
             processedChunks s = Some processed
             /\ totalChunks s = Some total
             /\ 1 <= processed <= total).

(** The progress messages of a run all carry a number, not [NaN]. *)
Definition numericProgress (e : Event) : bool :=
  match e with
  | ev_message _ _ _ (msg_progress m) => negb (Double.isNaN (m_progress m))
  | _ => true
  end.


(** The worker in use has not been terminated. *)
Definition refNotTerminated (s : State) : Prop :=
  forall w, workerRef s = Some w -> ~ In w (terminated s).
(** ** Labels and text exports *)

From Stdlib Require Import Ascii DecimalString DecimalZ.

Local Open Scope string_scope.

(** Strings.  A JavaScript string is modelled by the [string] holding its
    UTF-8 encoding; [String(n)] of an integer is its decimal numeral, with
    a minus sign for a negative one (integers below 10^21 in size). *)
Definition String_of_Z (z : Z) : string := NilEmpty.string_of_int (Z.to_int z).

Fixpoint repeatString (s : string) (n : nat) : string :=
  match n with
  | O => EmptyString
  | Datatypes.S n' => s ++ repeatString s n'
  end.

(** [s.padStart(2, "0")] *)
Definition padStart2 (s : string) : string :=
  repeatString "0" (2 - String.length s)%nat ++ s.

(** [parts.join(separator)] *)
Fixpoint join (separator : string) (parts : list string) : string :=
  match parts with
  | [] => EmptyString
  | [p] => p
  | p :: rest => p ++ separator ++ join separator rest
  end.

(** A string used as a condition: true unless empty. *)
Definition nonEmpty (s : string) : bool :=
  match s with
  | EmptyString => false
  | String _ _ => true
  end.

(** [Math.floor(a / b)] and [a % b] on integers. *)
Definition floorDiv (a b : Z) : Z := Math_floor (ofZ a / ofZ b)%Qc.

Definition formatSegmentTimestamp (seconds : Qc) : string :=
  let safeSeconds := Z.max 0 (Math_floor seconds) in
  let hours := floorDiv safeSeconds 3600 in
  let minutes := floorDiv (Z.rem safeSeconds 3600) 60 in
  let secs := Z.rem safeSeconds 60 in
  let paddedMinutes := padStart2 (String_of_Z minutes) in
  let paddedSeconds := padStart2 (String_of_Z secs) in
  if (0 <? hours)%Z
  then padStart2 (String_of_Z hours) ++ ":" ++ paddedMinutes ++ ":" ++ paddedSeconds
  else paddedMinutes ++ ":" ++ paddedSeconds.

(** What [timestampForFilename] reads from a [Date]: the local-time getters
    [getFullYear], [getMonth] (from 0), [getDate], [getHours], [getMinutes]
    and [getSeconds]. *)
Record DateParts : Type := mkDate {
  getFullYear : Z;
  getMonth : Z;
  getDate : Z;
  getHours : Z;
  getMinutes : Z;
  getSeconds : Z
}.

Definition timestampForFilename (date : DateParts) : string :=
  let pad := fun value : Z => padStart2 (String_of_Z value) in
  let year := getFullYear date in
  let month := pad (getMonth date + 1) in
  let day := pad (getDate date) in
  let hours := pad (getHours date) in
  let minutes := pad (getMinutes date) in
  let seconds := pad (getSeconds date) in
  String_of_Z year ++ "-" ++ month ++ "-" ++ day ++ "-" ++ hours
    ++ "-" ++ minutes ++ "-" ++ seconds.

(** The dates a clock can show. *)
Definition validDate (d : DateParts) : Prop :=
  0 <= getFullYear d
  /\ 0 <= getMonth d <= 11
  /\ 1 <= getDate d <= 31
  /\ 0 <= getHours d <= 23
  /\ 0 <= getMinutes d <= 59
  /\ 0 <= getSeconds d <= 59.

Definition roughAudioMinutes (s : State) : option Z :=
  match totalChunks s with
  | Some total =>
      if (0 <? total)%Z
      then Some (Math_round (ofZ ((total - 1) * 20 + 30) / ofZ 60)%Qc)
      else None
  | None => None
  end.

(** The two ends of the coarse estimate shown before the first chunk. *)
Definition roughLow (minutes : Z) : Z := Z.max 1 (Math_round (ofZ minutes / ofZ 5)%Qc).
Definition roughHigh (minutes : Z) : Z := Z.max 2 (Math_round (ofZ minutes / ofZ 2)%Qc).

Definition etaLabel (s : State) : option string :=
  match progressPhase s with
  | Some ProgressPhase.transcribing =>
      match etaSeconds s with
      | None =>
          match roughAudioMinutes s with
          | Some minutes =>
              if (0 <? minutes)%Z then
                let low := roughLow minutes in
                let high := roughHigh minutes in
                Some ("Audio length ~" ++ String_of_Z minutes
                      ++ " min — estimated processing time: "
                      ++ String_of_Z low ++ "–" ++ String_of_Z high ++ " min")
              else Some "Estimated time: calculating..."
          | None => Some "Estimated time: calculating..."
          end
      | Some eta =>
          if (eta <=? 0)%Z then Some "Estimated time: finishing..."
          else Some ("Estimated remaining: " ++ formatSegmentTimestamp (ofZ eta))
      end
  | _ => None
  end.

(** The clock label of [hours], [minutes] and [secs], the closed form of
    [formatSegmentTimestamp]. *)
Definition renderClock (hours minutes secs : Z) : string :=
  (if (0 <? hours)%Z then padStart2 (String_of_Z hours) ++ ":" else "")
  ++ padStart2 (String_of_Z minutes) ++ ":" ++ padStart2 (String_of_Z secs).

(** Reading a decimal numeral back, leading zeros allowed; used to show
    that the labels determine the numbers they were made from. *)
Definition readZ (s : string) : option Z :=
  option_map Z.of_int (NilEmpty.int_of_string s).

Local Close Scope string_scope.

(** ** Plain-text and timestamped exports *)

Local Open Scope string_scope.

(** [String.prototype.trim] removes white space and line terminators from
    both ends.  On the UTF-8 encoding these are the bytes 09-0D and 20,
    the two bytes C2 A0 (U+00A0) and the three-byte encodings of U+1680,
    U+2000-U+200A, U+2028, U+2029, U+202F, U+205F, U+3000 and U+FEFF. *)
Definition white1 (a : ascii) : bool :=
  let a := N_of_ascii a in
  ((9 <=? a) && (a <=? 13) || (a =? 32))%N.

Definition white2 (a b : ascii) : bool :=
  ((N_of_ascii a =? 194) && (N_of_ascii b =? 160))%N.

Definition white3 (a b c : ascii) : bool :=
  let a := N_of_ascii a in
  let b := N_of_ascii b in
  let c := N_of_ascii c in
  ((a =? 225) && (b =? 154) && (c =? 128)
   || (a =? 226) && (b =? 128)
      && ((128 <=? c) && (c <=? 138) || (c =? 168) || (c =? 169) || (c =? 175))
   || (a =? 226) && (b =? 129) && (c =? 159)
   || (a =? 227) && (b =? 128) && (c =? 128)
   || (a =? 239) && (b =? 187) && (c =? 191))%N.

Fixpoint trimStart (s : string) : string :=
  match s with
  | EmptyString => EmptyString
  | String a rest =>
      if white1 a then trimStart rest
      else
        match rest with
        | EmptyString => s
        | String b rest2 =>
            if white2 a b then trimStart rest2
            else
              match rest2 with
              | EmptyString => s
              | String c rest3 => if white3 a b c then trimStart rest3 else s
              end
        end
  end.

(** Does [s] begin with a white-space character? *)
Definition startsWhite (s : string) : bool :=
  match s with
  | String a rest =>
      white1 a
      || match rest with
         | String b rest2 =>
             white2 a b
             || match rest2 with
                | String c _ => white3 a b c
                | EmptyString => false
                end
         | EmptyString => false
         end
  | EmptyString => false
  end.

(** Nothing but white space. *)
Definition blank (s : string) : bool := negb (nonEmpty (trimStart s)).

Fixpoint trimEnd (s : string) : string :=
  match s with
  | EmptyString => EmptyString
  | String a rest => if blank s then EmptyString else String a (trimEnd rest)
  end.

Definition trim (s : string) : string := trimEnd (trimStart s).

Definition plainTextExport (s : State) : string :=
  match segments s with
  | _ :: _ =>
      join " " (filter nonEmpty (map (fun segment => trim (seg_text segment)) (segments s)))
  | [] => trim (output s)
  end.

(** One line of the timestamped export. *)
Definition timestampedLine (segment : TranscriptSegment) : string :=
  "[" ++ formatSegmentTimestamp (seg_start segment) ++ "] " ++ seg_text segment.

Definition newline : string := String (ascii_of_nat 10) EmptyString.

Definition timestampedExport (s : State) : string :=
  match segments s with
  | _ :: _ => join newline (map timestampedLine (segments s))
  | [] => trim (output s)
  end.

Definition hasExportContent (s : State) : bool :=
  nonEmpty (trim (plainTextExport s)) || nonEmpty (trim (timestampedExport s)).

(** What an export asks of the platform: a text to write to the clipboard,
    with the message to show once it is written, or a file to offer for
    saving. *)
Inductive ExportEffect : Type :=
| eff_clipboard (value successMessage : string)
| eff_download (content filename mimeType : string).

Inductive SmartExportAction : Type :=
| copy_text_only
| copy_with_timestamps
| export_json.

(** The reset timers of the copy feedback: the [copyResetTimeoutRef] cell,
    and the timers set by [writeToClipboard] that have neither fired nor
    been cleared.  Timers are numbered in the order in which
    [window.setTimeout] creates them. *)
Record CopyTimers : Type := mkCopyTimers {
  copyResetTimeoutRef : option nat;
  copyTimersCreated : nat;
  copyTimersPending : list nat
}.

(** [window.clearTimeout(id)]: nothing happens for a timer that has fired. *)
Definition clearTimeout (id : nat) (pending : list nat) : list nat :=
  filter (fun k => negb (k =? id)%nat) pending.

(** The end of [writeToClipboard]: the timer in the cell is cleared and a
    new one, of 1500 ms, is set and stored in the cell. *)
Definition armCopyReset (t : CopyTimers) : CopyTimers :=
  let pending :=
    match copyResetTimeoutRef t with
    | Some old => clearTimeout old (copyTimersPending t)
    | None => copyTimersPending t
    end in
  let id := copyTimersCreated t in
  {| copyResetTimeoutRef := Some id;
     copyTimersCreated := Datatypes.S id;
     copyTimersPending := pending ++ [id] |}.

(** The callback of the reset timer [id]. *)
Definition copyResetFires (id : nat) (s : State) (t : CopyTimers) : State * CopyTimers :=
  let s := setCopyState CopyState.idle s in
  let s := setCopyFeedback None s in
  (s, {| copyResetTimeoutRef := copyResetTimeoutRef t;
         copyTimersCreated := copyTimersCreated t;
         copyTimersPending := clearTimeout id (copyTimersPending t) |}).

(** The [catch] block of [writeToClipboard]; [thrown] holds the [message]
    when the value caught is an [Error]. *)
Definition copyFailed (thrown : option string) (s : State) : State :=
  let s := setCopyState CopyState.error s in
  let s := setCopyFeedback (Some "Copy failed") s in
  setError
    (Some match thrown with
          | Some message => message
          | None => "Failed to copy transcript to clipboard."
          end) s.

(** How the promise of [navigator.clipboard.writeText] settles. *)
Inductive ClipboardWrite : Type :=
| write_resolved
| write_rejected (thrown : option string).

(** [writeToClipboard] up to its [await].  [clipboardAvailable] tells
    whether [navigator.clipboard] exists.  The effect, when there is one,
    is the call [writeText(value)] that the function then awaits. *)
Definition writeToClipboard
  (clipboardAvailable : bool) (value successMessage : string)
  (s : State) (t : CopyTimers) : State * CopyTimers * option ExportEffect :=
  if negb (nonEmpty (trim value)) then (s, t, None)
  else if negb clipboardAvailable then
    (copyFailed (Some "Clipboard API is unavailable in this browser.") s,
     armCopyReset t, None)
  else (s, t, Some (eff_clipboard value successMessage)).

(** [writeToClipboard] from its [await] on. *)
Definition writeToClipboard_resume
  (outcome : ClipboardWrite) (successMessage : string)
  (s : State) (t : CopyTimers) : State * CopyTimers :=
  let s :=
    match outcome with
    | write_resolved =>
        let s := setCopyState CopyState.success s in
        setCopyFeedback (Some successMessage) s
    | write_rejected thrown => copyFailed thrown s
    end in
  (s, armCopyReset t).

(** [handleSmartExport]; after the [await] of [writeToClipboard] it only
    returns.  [stringify] stands for [JSON.stringify (_, null, 2)] and
    [toISOString] for the platform's rendering of an instant; [now] and
    [date] are the readings of the two [new Date()]. *)
Definition handleSmartExport
  (clipboardAvailable : bool)
  (stringify : TranscriptExportJson -> string) (toISOString : Z -> string)
  (now : Z) (date : DateParts) (action : SmartExportAction)
  (s : State) (t : CopyTimers) : State * CopyTimers * option ExportEffect :=
  let s' := setIsExportMenuOpen false s in
  if negb (hasExportContent s) then (s', t, None)
  else
    match action with
    | copy_text_only =>
        writeToClipboard clipboardAvailable (plainTextExport s) "Text copied" s' t
    | copy_with_timestamps =>
        writeToClipboard clipboardAvailable (timestampedExport s)
                         "Timestamped copy ready" s' t
    | export_json =>
        let jsonPayload := fst (buildJsonExportPayload toISOString now s) in
        (s', t, Some (eff_download
                        (stringify jsonPayload ++ newline)
                        ("transcription-" ++ timestampForFilename date ++ ".json")
                        "application/json;charset=utf-8"))
    end.

(** What a copy action does with a text [value] that is not blank. *)
Definition copies
  (clipboardAvailable : bool) (value successMessage : string)
  (s : State) (t : CopyTimers) (r : State * CopyTimers * option ExportEffect) : Prop :=
  if clipboardAvailable
  then r = (setIsExportMenuOpen false s, t, Some (eff_clipboard value successMessage))
  else r = (copyFailed (Some "Clipboard API is unavailable in this browser.")
                       (setIsExportMenuOpen false s),
            armCopyReset t, None).

(** At most one reset timer is pending, and it is the one in the cell. *)
Definition copyTimersTidy (t : CopyTimers) : Prop :=
  copyTimersPending t = []
  \/ exists id, copyResetTimeoutRef t = Some id /\ copyTimersPending t = [id].

Definition handleDownloadTxt (date : DateParts) (s : State) : option ExportEffect :=
  if negb (nonEmpty (trim (timestampedExport s))) then None
  else Some (eff_download
               (timestampedExport s)
               ("transcription-" ++ timestampForFilename date ++ ".txt")
               "text/plain;charset=utf-8").

(** The lines of a text, as a reader splitting it at line feeds sees them. *)
Fixpoint splitLines (s : string) : list string :=
  match s with
  | EmptyString => [EmptyString]
  | String a rest =>
      if Ascii.eqb a (ascii_of_nat 10) then EmptyString :: splitLines rest
      else match splitLines rest with
           | line :: lines => String a line :: lines
           | [] => [String a EmptyString]
           end
  end.

Fixpoint hasNewline (s : string) : bool :=
  match s with
  | EmptyString => false
  | String a rest => Ascii.eqb a (ascii_of_nat 10) || hasNewline rest
  end.

Local Close Scope string_scope.

(** * Verification *)

(** ** Loops over arrays *)

Lemma length_imap_from {A B : Type} (F : nat -> A -> B) l :
  forall k, List.length (imap_from k F l) = List.length l.
Proof. induction l as [|x t IH]; intros k; simpl; [reflexivity | now rewrite IH]. Qed.

Lemma nth_error_imap_from {A B : Type} (F : nat -> A -> B) l :
  forall k i, nth_error (imap_from k F l) i = option_map (F (k + i)%nat) (nth_error l i).
Proof.
  induction l as [|x t IH]; intros k [|i]; simpl; try reflexivity.
  - now rewrite Nat.add_0_r.
  - rewrite IH. now replace (Datatypes.S k + i)%nat with (k + Datatypes.S i)%nat by lia.
Qed.

Lemma imap_from_const {A B : Type} (f : nat -> B) (l : list A) :
  forall k, imap_from k (fun i _ => f i) l = map f (seq k (List.length l)).
Proof. induction l as [|x t IH]; intros k; simpl; [reflexivity | now rewrite IH]. Qed.




Section PointwiseLoop.
Variable F : nat -> sample -> sample.

Let body (i : nat) (a : Float32Array) : Float32Array :=
  store a i (F i (load a (Z.of_nat i))).


End PointwiseLoop.

Lemma for_from_nth_fold {A S : Type} (G : A -> S -> S) (d : A) rest :
  forall pre s,
    for_from (List.length pre) (List.length rest)
      (fun c s => G (nth c (pre ++ rest) d) s) s
    = fold_left (fun s ch => G ch s) rest s.
Proof.
  induction rest as [|x rest IH]; intros pre s; simpl; [reflexivity|].
  rewrite nth_middle.
  specialize (IH (pre ++ [x]) (G x s)).
  rewrite length_app, Nat.add_1_r, <- app_assoc in IH. exact IH.
Qed.


Lemma nth_error_repeat_lt {A : Type} (x : A) n i :
  (i < n)%nat -> nth_error (repeat x n) i = Some x.
Proof.
  revert i. induction n as [|n IH]; intros [|i] H; simpl; try lia; try reflexivity.
  apply IH. lia.
Qed.

(** ** Rational arithmetic behind the resampler *)

Lemma this_Q2Qc (q : Q) : (this (Q2Qc q) == q)%Q.
Proof. simpl. apply Qred_correct. Qed.

Lemma this_ofZ z : (this (ofZ z) == inject_Z z)%Q.
Proof. unfold ofZ. apply this_Q2Qc. Qed.

Lemma this_Qcdiv (a b : Qc) : (this (a / b)%Qc == this a / this b)%Q.
Proof.
  unfold Qcdiv, Qcmult, Qcinv. rewrite !this_Q2Qc. reflexivity.
Qed.


Lemma this_Qcplus (a b : Qc) : (this (a + b)%Qc == this a + this b)%Q.
Proof. unfold Qcplus. apply this_Q2Qc. Qed.

Lemma Qc_pos_neq0 (x : Qc) : (0 < x)%Qc -> x <> 0%Qc.
Proof. intros H E. subst x. exact (Qlt_irrefl _ H). Qed.








(** ** The resampler in closed form *)




Lemma nth_error_map_seq {B : Type} (f : nat -> B) n i :
  (i < n)%nat -> nth_error (map f (seq 0 n)) i = Some (f i).
Proof.
  intros H. rewrite nth_error_map, nth_error_seq.
  destruct (Nat.ltb_spec i n); [reflexivity | lia].
Qed.


(** C8. Resampling a buffer to the rate it already has returns that very
    buffer, for every buffer and every rate. *)
Theorem resampleMonoAudio_same_rate :
  forall (S : Float32Array) (r : Qc), resampleMonoAudio S r r = S.
Proof.
  intros S r. unfold resampleMonoAudio.
  destruct (Qc_eq_dec r r) as [_|H]; [reflexivity | now elim H].
Qed.



(** ** The normaliser in floating point *)

Lemma ieee_store_app_length pre x rest v :
  IEEE.store (pre ++ x :: rest) (List.length pre) v = pre ++ Single.ofDouble v :: rest.
Proof. induction pre as [|p pre IH]; simpl; [reflexivity | now rewrite IH]. Qed.

Lemma ieee_get_of_nat a (i : nat) : IEEE.get a (Z.of_nat i) = nth_error a i.
Proof.
  unfold IEEE.get. destruct (Z.ltb_spec (Z.of_nat i) 0); [lia|]. now rewrite Nat2Z.id.
Qed.

Lemma ieee_load_app_length pre x rest :
  IEEE.load (pre ++ x :: rest) (Z.of_nat (List.length pre)) = Single.toDouble x.
Proof.
  unfold IEEE.load. rewrite ieee_get_of_nat, nth_error_app2 by lia.
  now rewrite Nat.sub_diag.
Qed.

Lemma ieee_load_in_range (a : IEEE.Float32Array) (i : nat) x :
  nth_error a i = Some x -> IEEE.load a (Z.of_nat i) = Single.toDouble x.
Proof. intros H. unfold IEEE.load. now rewrite ieee_get_of_nat, H. Qed.

Lemma ieee_length_new_Float32Array n : List.length (IEEE.new_Float32Array n) = n.
Proof. apply repeat_length. Qed.

Section RoundedLoop.
Variable F : nat -> Double.t -> Double.t.

Let body (i : nat) (a : IEEE.Float32Array) : IEEE.Float32Array :=
  IEEE.store a i (F i (IEEE.load a (Z.of_nat i))).

Lemma ieee_for_from_store rest :
  forall pre,
    for_from (List.length pre) (List.length rest) body (pre ++ rest)
    = pre ++ imap_from (List.length pre)
               (fun i x => Single.ofDouble (F i (Single.toDouble x))) rest.
Proof.
  induction rest as [|x rest IH]; intros pre; simpl; [reflexivity|].
  unfold body at 2. rewrite ieee_load_app_length, ieee_store_app_length.
  specialize (IH (pre ++ [Single.ofDouble (F (List.length pre) (Single.toDouble x))])).
  rewrite length_app, Nat.add_1_r in IH. simpl in IH.
  rewrite <- !app_assoc in IH. simpl in IH. exact IH.
Qed.

(** A loop that rewrites cell [i] from its own old value is an indexed map
    that rounds each new value to binary32. *)
Lemma ieee_for_loop_store a :
  for_loop (List.length a) body a
  = imap_from 0 (fun i x => Single.ofDouble (F i (Single.toDouble x))) a.
Proof. exact (ieee_for_from_store a []). Qed.
End RoundedLoop.

(** *** Resampling *)

Lemma ieee_resampleMonoAudio_map allocatable input R_in R :
  Double.eqb R_in R = false ->
  let ratio := Double.div R R_in in
  IEEE.resampleMonoAudio allocatable input R_in R
  = option_map
      (fun n => map (fun i => Single.ofDouble (IEEE.interpolated input ratio i)) (seq 0 n))
      (IEEE.outputCells allocatable input ratio).
Proof.
  intros Hneq ratio. unfold IEEE.resampleMonoAudio, IEEE.outputCells, IEEE.allocate.
  rewrite Hneq. fold ratio.
  destruct (IEEE.toIndex (IEEE.outputLength input ratio)) as [n|]; [|reflexivity].
  destruct (allocatable n); [|reflexivity].
  simpl option_map. f_equal.
  pose proof (ieee_for_loop_store
    (fun i _ => IEEE.interpolated input ratio i) (IEEE.new_Float32Array n)) as H.
  rewrite ieee_length_new_Float32Array in H. cbv beta in H.
  unfold IEEE.interpolated in H at 1.
  rewrite H, imap_from_const, ieee_length_new_Float32Array. reflexivity.
Qed.

(** C6, as stated, fails.  Resampling 27 samples from rate 6 to rate 13 gives
    58 samples where [max 1 (round (27 * 13 / 6))] is 59: the quotient 13/6
    is rounded to a double, and 27 times that double is below 58.5.
    Resampling from rate 3 to rate 7, output sample 35 is read at source
    index 14 where [floor (35 * 3 / 7)] is 15: 35 divided by the rounded
    7/3 is below 15.  With [2^100] at index 14 of an input that is zero
    elsewhere, that sample is [2^51], where the interpolation between
    indices 15 and 16 is 0. *)
Lemma resampleMonoAudio_rounds_length_and_index :
  option_map (@List.length Single.t)
    (IEEE.resampleMonoAudio (fun _ => true) (repeat Single.zero 27)
                            (Double.ofZ 6) (Double.ofZ 13))
  = Some 58%nat
  /\ exactOutputLength 27 (ofZ 6) (ofZ 13) = 59
  /\ let input :=
       repeat Single.zero 14 ++ [S754_finite false 8388608 77] ++ repeat Single.zero 25 in
     Double.toZ (IEEE.lower (Double.div (Double.ofZ 7) (Double.ofZ 3)) 35) = Some 14
     /\ exactSourceIndex 35 (ofZ 3) (ofZ 7) = 15
     /\ option_map (fun output => option_map exactSample (nth_error output 35))
          (IEEE.resampleMonoAudio (fun _ => true) input (Double.ofZ 3) (Double.ofZ 7))
        = Some (Some (Num (ofZ (2 ^ 51))))
     /\ interpolate (load (map exactSample input) 15) (load (map exactSample input) 16)
                    (ofNat 35 * ofZ 3 / ofZ 7 - ofZ 15)%Qc
        = Num 0%Qc.
Proof.
  cbv zeta. split; [vm_compute; reflexivity|]. split; [vm_compute; reflexivity|].
  split; [vm_compute; reflexivity|]. split; [vm_compute; reflexivity|]. split.
  - vm_compute. apply (f_equal (fun q => Some (Some (Num q)))).
    apply Qc_is_canon. reflexivity.
  - vm_compute. apply (f_equal Num). apply Qc_is_canon. reflexivity.
Qed.

(** C6, amended.  For distinct rates the resampler computes in doubles:
    with [ratio] the rounded quotient [R / R_in], the output has
    [max 1 (round (inputLength * ratio))] samples, the product rounded
    before [round] is taken (a [RangeError] if that is no length or
    cannot be allocated), and sample [i] is the binary32 rounding of the
    linear interpolation, evaluated in doubles, of the input between index
    [floor (i / ratio)] and the next index clamped at the last index of the
    input, weighted by the position [i / ratio] minus its floor. *)
Theorem resampleMonoAudio_interpolation_in_doubles :
  forall (allocatable : nat -> bool) (input : IEEE.Float32Array) (R_in R : Double.t),
    Double.eqb R_in R = false ->
    let ratio := Double.div R R_in in
    let inputLength := Double.ofNat (List.length input) in
    let outputLength :=
      Double.max (Double.ofZ 1) (Double.round (Double.mul inputLength ratio)) in
    match IEEE.toIndex outputLength with
    | None => IEEE.resampleMonoAudio allocatable input R_in R = None
    | Some n =>
        if allocatable n then
          exists output,
            IEEE.resampleMonoAudio allocatable input R_in R = Some output
            /\ List.length output = n
            /\ forall i : nat,
                (i < n)%nat ->
                let position := Double.div (Double.ofNat i) ratio in
                let k := Double.floor position in
                let next :=
                  Double.min (Double.add k (Double.ofZ 1))
                             (Double.sub inputLength (Double.ofZ 1)) in
                let w := Double.sub position k in
                nth_error output i
                = Some (Single.ofDouble
                          (Double.add
                             (Double.mul (IEEE.loadAt input k)
                                         (Double.sub (Double.ofZ 1) w))
                             (Double.mul (IEEE.loadAt input next) w)))
        else IEEE.resampleMonoAudio allocatable input R_in R = None
    end.
Proof.
  intros allocatable input R_in R Hneq ratio inputLength outputLength.
  pose proof (ieee_resampleMonoAudio_map allocatable input R_in R Hneq) as Hmap.
  cbv zeta in Hmap. fold ratio in Hmap. unfold IEEE.outputCells in Hmap.
  change (IEEE.outputLength input ratio) with outputLength in Hmap.
  destruct (IEEE.toIndex outputLength) as [n|]; [|exact Hmap].
  destruct (allocatable n); [|exact Hmap].
  eexists. split; [exact Hmap|]. split.
  - now rewrite length_map, length_seq.
  - intros i Hi. cbv zeta. rewrite (nth_error_map_seq _ _ _ Hi). reflexivity.
Qed.

Lemma resampleMonoAudio_interpolation_in_doubles_witness :
  let input := [Single.ofZ 0; Single.ofZ 2; Single.ofZ 4] in
  IEEE.resampleMonoAudio (fun _ => true) input (Double.ofZ 3) (Double.ofZ 6)
  = Some [Single.ofZ 0; Single.ofZ 1; Single.ofZ 2; Single.ofZ 3; Single.ofZ 4; Single.ofZ 4].
Proof.
  intros input.
  assert (Hneq : Double.eqb (Double.ofZ 3) (Double.ofZ 6) = false) by reflexivity.
  pose proof (resampleMonoAudio_interpolation_in_doubles
                (fun _ => true) input (Double.ofZ 3) (Double.ofZ 6) Hneq) as H.
  cbv zeta in H.
  change (IEEE.toIndex
            (Double.max (Double.ofZ 1)
               (Double.round
                  (Double.mul (Double.ofNat (List.length input))
                     (Double.div (Double.ofZ 6) (Double.ofZ 3))))))
    with (Some 6%nat) in H.
  cbv beta iota in H.
  destruct H as (output & Hrun & _ & _). rewrite Hrun.
  vm_compute in Hrun. injection Hrun as <-. vm_compute. reflexivity.
Defined.

(** *** Downmix *)

Lemma ieee_length_addChannels chs :
  forall mono,
    List.length (fold_left (fun mono ch => IEEE.addChannel ch mono) chs mono)
    = List.length mono.
Proof.
  induction chs as [|ch chs IH]; intros mono; simpl; [reflexivity|].
  rewrite IH. apply length_imap_from.
Qed.

Lemma ieee_nth_error_addChannels chs :
  forall mono i,
    nth_error (fold_left (fun mono ch => IEEE.addChannel ch mono) chs mono) i
    = option_map
        (fun m =>
           fold_left
             (fun cell x => Single.ofDouble (Double.add (Single.toDouble cell) x))
             (map (fun ch => IEEE.load ch (Z.of_nat i)) chs) m)
        (nth_error mono i).
Proof.
  induction chs as [|ch chs IH]; intros mono i; simpl.
  - now destruct (nth_error mono i).
  - rewrite IH. unfold IEEE.addChannel at 1. rewrite nth_error_imap_from. simpl.
    now destruct (nth_error mono i).
Qed.

Lemma ieee_outer_loop_addChannels (L : nat) chs :
  forall mono,
    List.length mono = L ->
    fold_left
      (fun mono ch =>
         for_loop L (fun i mono =>
           IEEE.store mono i
             (Double.add (IEEE.load mono (Z.of_nat i)) (IEEE.load ch (Z.of_nat i)))) mono)
      chs mono
    = fold_left (fun mono ch => IEEE.addChannel ch mono) chs mono.
Proof.
  induction chs as [|ch chs IH]; intros mono Hlen; simpl; [reflexivity|].
  pose proof (ieee_for_loop_store
                (fun i m => Double.add m (IEEE.load ch (Z.of_nat i))) mono) as H.
  rewrite Hlen in H. cbv beta in H. rewrite H.
  apply IH. unfold IEEE.addChannel. now rewrite length_imap_from.
Qed.

Lemma ieee_downmixToMono_several (b : IEEE.AudioBuffer) :
  IEEE.numberOfChannels b <> 1%nat ->
  IEEE.downmixToMono b
  = Some (imap_from 0
            (fun _ m =>
               Single.ofDouble
                 (Double.div (Single.toDouble m) (Double.ofNat (IEEE.numberOfChannels b))))
            (fold_left (fun mono ch => IEEE.addChannel ch mono) (IEEE.ab_channels b)
                       (IEEE.new_Float32Array (IEEE.ab_length b)))).
Proof.
  intros Hn. unfold IEEE.downmixToMono.
  destruct (Nat.eqb_spec (IEEE.numberOfChannels b) 1) as [E|_]; [contradiction|].
  f_equal. cbv zeta. unfold for_loop at 2, IEEE.getChannelData, IEEE.numberOfChannels.
  pose proof (for_from_nth_fold
             (fun ch mono =>
                for_loop (IEEE.ab_length b) (fun i mono =>
                  IEEE.store mono i
                    (Double.add (IEEE.load mono (Z.of_nat i)) (IEEE.load ch (Z.of_nat i))))
                  mono)
             [] (IEEE.ab_channels b) [] (IEEE.new_Float32Array (IEEE.ab_length b))) as Hf.
  cbn [List.length app] in Hf. cbv beta in Hf. rewrite Hf. clear Hf.
  rewrite ieee_outer_loop_addChannels by apply ieee_length_new_Float32Array.
  set (summed := fold_left _ _ _).
  pose proof (ieee_for_loop_store
    (fun _ m => Double.div m (Double.ofNat (List.length (IEEE.ab_channels b)))) summed) as H.
  assert (Hlen : List.length summed = IEEE.ab_length b).
  { unfold summed. rewrite ieee_length_addChannels. apply ieee_length_new_Float32Array. }
  rewrite Hlen in H. exact H.
Qed.

(** C7, as stated, fails.  One frame with the binary32 values nearest to 0.1
    and 0.2 in its two channels is downmixed to 5033165/33554432, while the
    arithmetic mean of the two samples is 40265319/268435456: the sum of
    the two samples is no binary32 value and is rounded when it is stored
    in the cell. *)
Lemma downmixToMono_rounds_the_sum :
  let a : Single.t := S754_finite false 13421773 (-27) in
  let b : Single.t := S754_finite false 13421773 (-26) in
  valid_binary Single.prec Single.emax a = true
  /\ valid_binary Single.prec Single.emax b = true
  /\ option_map (map exactSample)
       (IEEE.downmixToMono (IEEE.mkAudioBuffer 1 [[a]; [b]]))
     = Some [Num (Q2Qc (5033165 # 33554432))]
  /\ mean [exactSample a; exactSample b] = Num (Q2Qc (40265319 # 268435456))
  /\ Q2Qc (5033165 # 33554432) <> Q2Qc (40265319 # 268435456).
Proof.
  cbv zeta. split; [reflexivity|]. split; [reflexivity|]. split; [|split].
  - vm_compute. apply (f_equal (fun q => Some [Num q])).
    apply Qc_is_canon. reflexivity.
  - vm_compute. apply (f_equal Num). apply Qc_is_canon. reflexivity.
  - intros E. apply (f_equal this) in E. vm_compute in E. discriminate E.
Qed.

(** C7, amended.  For a buffer of two or more channels the result has the
    buffer's length and its sample [i] is what floating point makes of the
    mean: the channels' samples at [i] are added one after the other into
    a binary32 cell, each sum rounded to binary32, and the cell is divided
    by the number of channels and rounded again.  A single channel passes
    through unchanged, and a channel of ones mixed with a channel of minus
    ones gives zeros. *)
Theorem downmixToMono_rounded_mean :
  forall b : IEEE.AudioBuffer,
    IEEE.wf_AudioBuffer b ->
    (2 <= IEEE.numberOfChannels b ->
       exists mono,
         IEEE.downmixToMono b = Some mono
         /\ List.length mono = IEEE.ab_length b
         /\ forall i : nat,
             (i < IEEE.ab_length b)%nat ->
             nth_error mono i
             = Some (IEEE.roundedMean
                       (map (fun ch => IEEE.load ch (Z.of_nat i)) (IEEE.ab_channels b))))%nat
    /\ (IEEE.numberOfChannels b = 1%nat ->
          IEEE.downmixToMono b = Some (IEEE.getChannelData b 0))
    /\ (IEEE.ab_channels b
          = [repeat (Single.ofZ 1) (IEEE.ab_length b);
             repeat (Single.ofZ (- (1))) (IEEE.ab_length b)] ->
        IEEE.downmixToMono b = Some (repeat Single.zero (IEEE.ab_length b))).
Proof.
  intros b [Hn Hch].
  assert (Hmean : (2 <= IEEE.numberOfChannels b)%nat ->
    exists mono,
      IEEE.downmixToMono b = Some mono
      /\ List.length mono = IEEE.ab_length b
      /\ forall i : nat,
          (i < IEEE.ab_length b)%nat ->
          nth_error mono i
          = Some (IEEE.roundedMean
                    (map (fun ch => IEEE.load ch (Z.of_nat i)) (IEEE.ab_channels b)))).
  { intros H2. eexists.
    split; [apply ieee_downmixToMono_several; lia|]. split.
    - rewrite length_imap_from, ieee_length_addChannels.
      apply ieee_length_new_Float32Array.
    - intros i Hi. rewrite nth_error_imap_from, ieee_nth_error_addChannels.
      unfold IEEE.new_Float32Array. rewrite nth_error_repeat_lt by exact Hi. simpl.
      unfold IEEE.roundedMean, IEEE.accumulate. rewrite length_map. reflexivity. }
  split; [exact Hmean|]. split.
  - intros H1. unfold IEEE.downmixToMono. rewrite H1. simpl Nat.eqb. cbv iota.
    unfold IEEE.Float32Array_set, IEEE.getChannelData.
    unfold IEEE.numberOfChannels in H1.
    destruct (IEEE.ab_channels b) as [|ch [|? ?]]; try discriminate H1.
    simpl nth. inversion Hch as [|? ? Hlen _]; subst.
    rewrite ieee_length_new_Float32Array, Hlen, Nat.leb_refl.
    rewrite skipn_all2 by (rewrite ieee_length_new_Float32Array; lia).
    now rewrite app_nil_r.
  - intros Hex.
    destruct Hmean as (mono & Hrun & Hlen & Hat).
    { unfold IEEE.numberOfChannels. rewrite Hex. simpl. lia. }
    rewrite Hrun. f_equal. apply nth_error_ext. intros i.
    destruct (Nat.lt_ge_cases i (IEEE.ab_length b)) as [Hi|Hi].
    + rewrite (Hat i Hi), nth_error_repeat_lt by exact Hi.
      rewrite Hex. simpl map.
      rewrite !(ieee_load_in_range _ i _ (nth_error_repeat_lt _ _ _ Hi)).
      reflexivity.
    + assert (nth_error mono i = None) as -> by (apply nth_error_None; lia).
      symmetry. apply nth_error_None. rewrite repeat_length. lia.
Qed.

Lemma downmixToMono_rounded_mean_witness :
  let b := IEEE.mkAudioBuffer 2
             [[Single.ofZ 1; Single.ofZ 1]; [Single.ofZ (- (1)); Single.ofZ (- (1))]] in
  IEEE.wf_AudioBuffer b
  /\ IEEE.downmixToMono b = Some [Single.zero; Single.zero].
Proof.
  intros b.
  assert (Hwf : IEEE.wf_AudioBuffer b).
  { split; [unfold b, IEEE.numberOfChannels; simpl; lia | unfold b; repeat constructor]. }
  split; [exact Hwf|].
  destruct (downmixToMono_rounded_mean b Hwf) as (_ & _ & Hex).
  exact (Hex eq_refl).
Defined.

(** The floating-point resampler, too, returns its input at equal rates;
    [NaN], which is not equal to itself, is no rate. *)
Lemma ieee_resampleMonoAudio_same_rate allocatable (input : IEEE.Float32Array) (r : Double.t) :
  Double.eqb r r = true -> IEEE.resampleMonoAudio allocatable input r r = Some input.
Proof. intros E. unfold IEEE.resampleMonoAudio. now rewrite E. Qed.

(** ** Session controller: stale messages *)

Lemma staleOptional_tagged (rid : Z) (s : State) :
  rid <> activeRequestIdRef s -> staleOptional (Some rid) s = true.
Proof.
  intros H. unfold staleOptional. destruct (Z.eqb_spec rid (activeRequestIdRef s)); easy.
Qed.

(** Every message kind that the handler scopes by request is dropped whole
    when its tag is not the current counter. *)
Lemma stale_dropped (clock0 clock1 : Z) (message : WorkerResponse) (s : State) (rid : Z) :
  requestIdOf message = Some rid ->
  rid <> activeRequestIdRef s ->
  isDownloadProgress message = false ->
  handleWorkerMessage clock0 clock1 message s = s.
Proof.
  intros Hid Hneq Hdl.
  destruct message as [st r detail device | m | text r | r text segs | text r | err r];
    simpl in Hid; unfold handleWorkerMessage.
  - rewrite Hid, (staleOptional_tagged rid s Hneq). reflexivity.
  - simpl in Hdl. rewrite Hid, (staleOptional_tagged rid s Hneq).
    destruct (m_phase m); [discriminate Hdl | reflexivity].
  - injection Hid as ->. destruct (Z.eqb_spec rid (activeRequestIdRef s)); easy.
  - injection Hid as ->. destruct (Z.eqb_spec rid (activeRequestIdRef s)); easy.
  - injection Hid as ->. destruct (Z.eqb_spec rid (activeRequestIdRef s)); easy.
  - rewrite Hid, (staleOptional_tagged rid s Hneq). reflexivity.
Qed.

(** C1, as stated, fails: with the counter at 2, a download-phase progress
    message tagged 1 is applied (status, phase and percentage change). *)
Lemma stale_download_progress_is_applied :
  let s := set_activeRequestIdRef 2 (initialState true) in
  let message :=
    msg_progress
      (mkProgress ProgressPhase.download (Double.ofZ 50) (Some 1)
                  None None None None (Some 5) (Some 10) None) in
  let s' := handleWorkerMessage 0 0 message s in
  requestIdOf message = Some 1
  /\ activeRequestIdRef s = 2
  /\ status s = TranscriptionStatus.idle
  /\ status s' = TranscriptionStatus.loading
  /\ progressPhase s = None
  /\ progressPhase s' = Some ProgressPhase.download
  /\ downloadedBytes s' = Some 5
  /\ s' <> s.
Proof.
  cbv zeta. repeat split; try reflexivity.
  intros E. apply (f_equal status) in E. discriminate E.
Qed.

(** C1, amended. A message whose requestId differs from the current counter
    is dropped without any change of state, unless it is a download-phase
    progress message; a download-phase progress message is applied
    whatever its requestId. *)
Theorem stale_message_dropped_unless_download_progress :
  forall (clock0 clock1 : Z) (s : State),
    (forall (message : WorkerResponse) (rid : Z),
        requestIdOf message = Some rid ->
        rid <> activeRequestIdRef s ->
        isDownloadProgress message = false ->
        handleWorkerMessage clock0 clock1 message s = s)
    /\ (forall (m : ProgressMessage) (rid : option Z),
           m_phase m = ProgressPhase.download ->
           handleWorkerMessage clock0 clock1 (msg_progress m) s
           = handleWorkerMessage clock0 clock1 (msg_progress (retag rid m)) s).
Proof.
  intros clock0 clock1 s. split.
  - intros message rid. apply stale_dropped.
  - intros m rid Hphase. unfold handleWorkerMessage. simpl. rewrite Hphase. reflexivity.
Qed.

Lemma stale_message_dropped_unless_download_progress_witness :
  let s := set_activeRequestIdRef 2 (initialState true) in
  requestIdOf (msg_result "superseded" 1) = Some 1
  /\ 1 <> activeRequestIdRef s
  /\ handleWorkerMessage 0 0 (msg_result "superseded" 1) s = s.
Proof.
  intros s.
  assert (Hid : requestIdOf (msg_result "superseded" 1) = Some 1) by reflexivity.
  assert (Hneq : 1 <> activeRequestIdRef s) by (simpl; lia).
  split; [exact Hid | split; [exact Hneq|]].
  destruct (stale_message_dropped_unless_download_progress 0 0 s) as [Hdrop _].
  exact (Hdrop (msg_result "superseded" 1) 1 Hid Hneq eq_refl).
Defined.

(** ** Session controller: progress *)

(** C3, as stated, fails: after a download-phase progress message reporting
    5 of 10 bytes, a transcribe-phase progress message leaves both byte
    counters in the state. *)
Lemma download_figures_survive_transcribe_progress :
  let s0 := initialState true in
  let s1 :=
    handleWorkerMessage 0 0
      (msg_progress
         (mkProgress ProgressPhase.download (Double.ofZ 50) None
                     None None None None (Some 5) (Some 10) None)) s0 in
  let s2 :=
    handleWorkerMessage 1000 1000
      (msg_progress
         (mkProgress ProgressPhase.transcribing (Double.ofZ 10) (Some 0)
                     (Some 1) (Some 4) None None None None None)) s1 in
  progressPhase s2 = Some ProgressPhase.transcribing
  /\ downloadedBytes s2 = Some 5
  /\ totalBytes s2 = Some 10.
Proof. cbv zeta. repeat split; reflexivity. Qed.

(** What a download-phase progress message leaves of the transcribe phase. *)
Lemma download_progress_resets_transcribe (clock0 clock1 : Z) (d : ProgressMessage) (s : State) :
  m_phase d = ProgressPhase.download ->
  let s1 := handleWorkerMessage clock0 clock1 (msg_progress d) s in
  processedChunks s1 = None /\ totalChunks s1 = None /\ etaSeconds s1 = None
  /\ transcribeStartedAtRef s1 = None
  /\ activeRequestIdRef s1 = activeRequestIdRef s.
Proof.
  intros Hd. unfold handleWorkerMessage. rewrite Hd. simpl.
  destruct (isSome (m_loaded d)); destruct (m_total d) as [t|];
    try destruct (0 <? t); repeat split; reflexivity.
Qed.

Lemma transcribe_progress_fields (clock0 clock1 : Z) (m : ProgressMessage) (s : State) :
  m_phase m = ProgressPhase.transcribing ->
  staleOptional (m_requestId m) s = false ->
  let s' := handleWorkerMessage clock0 clock1 (msg_progress m) s in
  let startedAt :=
    match transcribeStartedAtRef s with Some t => t | None => clock0 end in
  status s' = TranscriptionStatus.transcribing
  /\ progressPhase s' = Some ProgressPhase.transcribing
  /\ progress s' = clampProgress (m_progress m)
  /\ processedChunks s' = m_processedChunks m
  /\ totalChunks s' = m_totalChunks m
  /\ transcribeStartedAtRef s' = Some startedAt
  /\ etaSeconds s' = estimate clock1 startedAt m
  /\ downloadedBytes s' = downloadedBytes s
  /\ totalBytes s' = totalBytes s
  /\ output s' = output s
  /\ segments s' = segments s.
Proof.
  intros Hphase Hstale. unfold handleWorkerMessage, estimate, remainingSeconds.
  rewrite Hphase, Hstale. simpl.
  destruct (isSome (m_currentSlice m)), (isSome (m_totalSlices m));
    destruct (m_processedChunks m) as [p|], (m_totalChunks m) as [t|]; simpl;
    try destruct ((0 <? p) && (p <=? t)); repeat split; reflexivity.
Qed.

(** The ceiling that the handler takes is the exact ceiling of the
    double it is taken of. *)
Lemma Double_ceil_exact (x : Double.t) (q : Qc) :
  Double.exact x = Some q -> Double.ceil x = Math_ceil q.
Proof.
  destruct x as [sx|sx| |s m e]; simpl; try discriminate.
  - intros E. injection E as <-. reflexivity.
  - intros E. injection E as <-. unfold Math_ceil.
    set (z := cond_Zopp s (Zpos m)).
    rewrite (Qceiling_comp _ _ (this_Q2Qc _)).
    destruct (Z.ltb_spec e 0) as [Hneg | Hpos].
    + assert (Hk : 0 <= - e) by lia.
      assert (Hpow : (2 ^ e == / inject_Z (2 ^ (- e)))%Q).
      { replace e with (- - e) at 1 by lia.
        rewrite Qpower_opp. apply Qinv_comp.
        symmetry. exact (Zpower_Qpower 2 (- e) Hk). }
      assert (Hval : (inject_Z z * 2 ^ e == - (inject_Z (- z) / inject_Z (2 ^ (- e))))%Q).
      { rewrite Hpow, inject_Z_opp. unfold Qdiv. ring. }
      rewrite (Qceiling_comp _ _ Hval). unfold Qceiling.
      rewrite Qopp_involutive, <- Zdiv_Qdiv, Z.shiftr_div_pow2 by exact Hk.
      reflexivity.
    + assert (Hval : (inject_Z z * 2 ^ e == inject_Z (z * 2 ^ e))%Q).
      { rewrite inject_Z_mult. apply Qmult_comp; [reflexivity|].
        symmetry. exact (Zpower_Qpower 2 e Hpos). }
      rewrite (Qceiling_comp _ _ Hval), Qceiling_Z, Z.shiftl_mul_pow2 by exact Hpos.
      reflexivity.
Qed.

(** C3, amended. When a transcribe-phase progress message of the current
    request is handled after a download-phase progress message, the phase,
    the percentage, the chunk counters, the start time and the estimate are
    those of the transcribe message alone: the start of the phase is the
    clock reading of this message, there is no estimate unless the message
    has [1 <= processed <= total], and with such counters the estimate is
    the ceiling of the seconds computed for this message, wherever these
    are finite.  The downloaded-bytes and total-bytes counters are not
    reset: the transcribe-phase message leaves them exactly as the
    download-phase message left them. *)
Theorem transcribe_progress_after_download :
  forall (c0 c1 c2 c3 : Z) (d m : ProgressMessage) (s : State),
    m_phase d = ProgressPhase.download ->
    m_phase m = ProgressPhase.transcribing ->
    staleOptional (m_requestId m) s = false ->
    let s1 := handleWorkerMessage c0 c1 (msg_progress d) s in
    let s2 := handleWorkerMessage c2 c3 (msg_progress m) s1 in
    progressPhase s2 = Some ProgressPhase.transcribing
    /\ progress s2 = clampProgress (m_progress m)
    /\ processedChunks s2 = m_processedChunks m
    /\ totalChunks s2 = m_totalChunks m
    /\ transcribeStartedAtRef s2 = Some c2
    /\ (estimate c3 c2 m = None -> etaSeconds s2 = None)
    /\ (forall (processed total : Z) (q : Qc),
          m_processedChunks m = Some processed ->
          m_totalChunks m = Some total ->
          1 <= processed <= total ->
          Double.exact (remainingSeconds c3 c2 processed total) = Some q ->
          etaSeconds s2 = Some (Math_ceil q))
    /\ downloadedBytes s2 = downloadedBytes s1
    /\ totalBytes s2 = totalBytes s1.
Proof.
  intros c0 c1 c2 c3 d m s Hd Hm Hstale s1 s2.
  destruct (download_progress_resets_transcribe c0 c1 d s Hd)
    as (_ & _ & _ & Hstart & Hid).
  fold s1 in Hstart, Hid.
  assert (Hstale1 : staleOptional (m_requestId m) s1 = false).
  { unfold staleOptional in *. now rewrite Hid. }
  destruct (transcribe_progress_fields c2 c3 m s1 Hm Hstale1)
    as (_ & Hph & Hpr & Hpc & Htc & Hst & Heta & Hdb & Htb & _).
  fold s2 in Hph, Hpr, Hpc, Htc, Hst, Heta, Hdb, Htb.
  rewrite Hstart in Hst, Heta.
  split; [exact Hph|]. split; [exact Hpr|]. split; [exact Hpc|]. split; [exact Htc|].
  split; [exact Hst|]. split; [intros E; now rewrite Heta|].
  split; [|split; assumption].
  intros processed total q Hp Ht [H1 Hle] Hq.
  rewrite Heta. unfold estimate. rewrite Hp, Ht.
  destruct (Z.ltb_spec 0 processed); [|lia].
  destruct (Z.leb_spec processed total); [|lia].
  simpl. f_equal. now apply Double_ceil_exact.
Qed.

Lemma transcribe_progress_after_download_witness :
  let d := mkProgress ProgressPhase.download (Double.ofZ 50) None
                      None None None None (Some 5) (Some 10) None in
  let m := mkProgress ProgressPhase.transcribing (Double.ofZ 10) (Some 0)
                      (Some 1) (Some 4) None None None None None in
  let s1 := handleWorkerMessage 0 0 (msg_progress d) (initialState true) in
  let s2 := handleWorkerMessage 1000 4000 (msg_progress m) s1 in
  staleOptional (m_requestId m) (initialState true) = false
  /\ processedChunks s2 = Some 1
  /\ transcribeStartedAtRef s2 = Some 1000
  /\ downloadedBytes s2 = downloadedBytes s1.
Proof.
  intros d m s1 s2.
  pose proof (transcribe_progress_after_download 0 0 1000 4000 d m (initialState true)
                eq_refl eq_refl eq_refl) as (_ & _ & Hpc & _ & Hst & _ & _ & Hdb & _).
  split; [reflexivity|]. split; [exact Hpc|]. split; [exact Hst | exact Hdb].
Defined.

(** C5, as stated, fails.  With the phase started at 1000 ms, a progress
    message handled at 5200 ms that reports 3 of 8 chunks stores the
    estimate 8, while [ceil ((4.2 / 3) * (8 - 3))] is 7: the elapsed
    seconds and the quotient by 3 are rounded to doubles, and their product
    with 5 is the double just above 7. *)
Lemma estimate_is_rounded_before_the_ceiling :
  let m := mkProgress ProgressPhase.transcribing (Double.ofZ 40) (Some 0)
                      (Some 3) (Some 8) None None None None None in
  let s := set_transcribeStartedAtRef (Some 1000) (initialState true) in
  m_phase m = ProgressPhase.transcribing
  /\ staleOptional (m_requestId m) s = false
  /\ etaSeconds (handleWorkerMessage 0 5200 (msg_progress m) s) = Some 8
  /\ exactEstimate (5200 - 1000) 3 8 = 7.
Proof. cbv zeta. repeat split; vm_compute; reflexivity. Qed.

(** C5, amended. For a transcribe-phase progress message of the current
    request the start of the phase is recorded by the first such message
    and kept by the later ones; with [1 <= processed <= total] the estimate
    is the ceiling of [(elapsed / processed) * max (total - processed) 0]
    as evaluated in doubles, the difference of the clock readings, its
    quotient by 1000, the quotient by [processed] and the product each
    rounded to the nearest double: where that product is finite, the
    estimate is the ceiling of the rounded product.  An estimate is
    set only under [1 <= processed <= total]; and a progress message of
    either phase with [processed = 0] or a missing counter sets no estimate
    (it sets none, or is dropped as stale and changes nothing). *)
Theorem eta_from_completed_chunks_in_doubles :
  forall (clock0 clock1 : Z) (m : ProgressMessage) (s : State),
    let s' := handleWorkerMessage clock0 clock1 (msg_progress m) s in
    let startedAt :=
      match transcribeStartedAtRef s with Some t => t | None => clock0 end in
    let elapsed :=
      Double.div (Double.sub (Double.ofZ clock1) (Double.ofZ startedAt))
                 (Double.ofZ 1000) in
    (m_phase m = ProgressPhase.transcribing ->
     staleOptional (m_requestId m) s = false ->
     transcribeStartedAtRef s' = Some startedAt
     /\ (forall processed total : Z,
            m_processedChunks m = Some processed ->
            m_totalChunks m = Some total ->
            1 <= processed -> processed <= total ->
            let remaining :=
              Double.max (Double.sub (Double.ofZ total) (Double.ofZ processed))
                         Double.zero in
            let product :=
              Double.mul (Double.div elapsed (Double.ofZ processed)) remaining in
            forall q : Qc,
              Double.exact product = Some q -> etaSeconds s' = Some (Math_ceil q))
     /\ (forall eta : Z,
            etaSeconds s' = Some eta ->
            exists processed total : Z,
              m_processedChunks m = Some processed
              /\ m_totalChunks m = Some total
              /\ 1 <= processed <= total))
    /\ (m_processedChunks m = Some 0
        \/ m_processedChunks m = None
        \/ m_totalChunks m = None ->
        etaSeconds s' = None \/ s' = s).
Proof.
  intros clock0 clock1 m s. cbv zeta. split.
  - intros Hphase Hstale.
    pose proof (transcribe_progress_fields clock0 clock1 m s Hphase Hstale) as H.
    cbv zeta in H. destruct H as (_ & _ & _ & _ & _ & Hst & Heta & _).
    unfold estimate in Heta.
    split; [exact Hst|]. split.
    + intros processed total Hp Ht H1 Hle. rewrite Heta, Hp, Ht.
      destruct (Z.ltb_spec 0 processed); [|lia].
      destruct (Z.leb_spec processed total); [|lia].
      intros q Hq. simpl. f_equal. apply Double_ceil_exact. exact Hq.
    + intros eta He. rewrite Heta in He.
      destruct (m_processedChunks m) as [p|]; [|discriminate He].
      destruct (m_totalChunks m) as [t|]; [|discriminate He].
      destruct (Z.ltb_spec 0 p); [|discriminate He].
      destruct (Z.leb_spec p t); [|discriminate He].
      exists p, t. repeat split; try reflexivity; lia.
  - intros Hnone.
    destruct (m_phase m) eqn:Hphase.
    + left. pose proof (download_progress_resets_transcribe clock0 clock1 m s Hphase) as H.
      cbv zeta in H. now destruct H as (_ & _ & H & _).
    + destruct (staleOptional (m_requestId m) s) eqn:Hstale.
      * right. unfold handleWorkerMessage. now rewrite Hphase, Hstale.
      * left.
        pose proof (transcribe_progress_fields clock0 clock1 m s Hphase Hstale) as H.
        cbv zeta in H. destruct H as (_ & _ & _ & _ & _ & _ & Heta & _).
        rewrite Heta. unfold estimate.
        destruct Hnone as [H0 | [Hp | Ht]].
        -- rewrite H0. now destruct (m_totalChunks m).
        -- now rewrite Hp.
        -- rewrite Ht. now destruct (m_processedChunks m).
Qed.

Lemma eta_from_completed_chunks_in_doubles_witness :
  let m := mkProgress ProgressPhase.transcribing (Double.ofZ 25) (Some 0)
                      (Some 2) (Some 8) None None None None None in
  let s := set_transcribeStartedAtRef (Some 1000) (initialState true) in
  staleOptional (m_requestId m) s = false
  /\ etaSeconds (handleWorkerMessage 0 8000 (msg_progress m) s) = Some 21.
Proof.
  intros m s.
  assert (Hstale : staleOptional (m_requestId m) s = false) by reflexivity.
  split; [exact Hstale|].
  destruct (eta_from_completed_chunks_in_doubles 0 8000 m s) as (Hcur & _).
  destruct (Hcur eq_refl Hstale) as (_ & Heta & _).
  assert (H21 : Math_ceil (ofZ 21) = 21) by reflexivity.
  rewrite <- H21. apply (Heta 2 8 eq_refl eq_refl); [lia | lia |].
  vm_compute. f_equal. apply Qc_is_canon. reflexivity.
Defined.

(** ** Session controller: errors *)

Lemma clearProgressState_clears (s : State) : progressCleared (clearProgressState s).
Proof. repeat split. Qed.

(** C4. An error message of the current request, an unscoped error message
    and a worker-level fault each set the status to [error], store the
    message, clear the progress state and leave the output text and the
    segments as they were. *)
Theorem error_keeps_transcript :
  forall (clock0 clock1 : Z) (s : State),
    (forall (err : string) (requestId : option Z),
        requestId = None \/ requestId = Some (activeRequestIdRef s) ->
        let s' := handleWorkerMessage clock0 clock1 (msg_error err requestId) s in
        status s' = TranscriptionStatus.error
        /\ error s' = Some err
        /\ progressCleared s'
        /\ output s' = output s
        /\ segments s' = segments s)
    /\ (forall message : string,
           let s' := handleWorkerError message s in
           status s' = TranscriptionStatus.error
           /\ error s' = Some (if String.eqb message EmptyString
                               then "Worker encountered an unexpected error."%string
                               else message)
           /\ progressCleared s'
           /\ output s' = output s
           /\ segments s' = segments s).
Proof.
  intros clock0 clock1 s. split.
  - intros err requestId Hcur s'.
    assert (Hstale : staleOptional requestId s = false).
    { destruct Hcur as [-> | ->]; simpl; [reflexivity|]. now rewrite Z.eqb_refl. }
    subst s'. unfold handleWorkerMessage. rewrite Hstale.
    repeat split.
  - intros message s'. subst s'. unfold handleWorkerError. repeat split.
Qed.

Lemma error_keeps_transcript_witness :
  let s := setOutput "so far" (setStatus TranscriptionStatus.transcribing
                                 (set_activeRequestIdRef 3 (initialState true))) in
  let s' := handleWorkerMessage 0 0 (msg_error "out of memory" (Some 3)) s in
  Some 3 = Some (activeRequestIdRef s)
  /\ status s' = TranscriptionStatus.error
  /\ error s' = Some "out of memory"%string
  /\ output s' = "so far"%string.
Proof.
  intros s s'.
  assert (Hcur : Some 3 = Some (activeRequestIdRef s)) by reflexivity.
  split; [exact Hcur|].
  destruct (error_keeps_transcript 0 0 s) as [Herr _].
  destruct (Herr "out of memory"%string (Some 3) (or_intror Hcur))
    as (Hst & He & _ & Hout & _).
  fold s' in Hst, He, Hout.
  split; [exact Hst | split; [exact He | exact Hout]].
Defined.

(** ** Structured export *)

(** C9. Two payloads built from states with the same output text, segments,
    file name and selected language are equal when the clock reads the
    same, differ at most in [createdAt] when it does not, and building a
    payload returns the state as it received it. *)
Theorem buildJsonExportPayload_idempotent :
  forall (toISOString : Z -> string) (t1 t2 : Z) (s1 s2 : State),
    output s1 = output s2 ->
    segments s1 = segments s2 ->
    activeFileName s1 = activeFileName s2 ->
    selectedLanguage s1 = selectedLanguage s2 ->
    let r1 := buildJsonExportPayload toISOString t1 s1 in
    let r2 := buildJsonExportPayload toISOString t2 s2 in
    (t1 = t2 -> fst r1 = fst r2)
    /\ fst r2 = withCreatedAt (toISOString t2) (fst r1)
    /\ createdAt (fst r1) = toISOString t1
    /\ snd r1 = s1
    /\ snd r2 = s2.
Proof.
  intros toISOString t1 t2 s1 s2 Hout Hseg Hname Hlang r1 r2.
  subst r1 r2. unfold buildJsonExportPayload, withCreatedAt. simpl.
  rewrite Hout, Hseg, Hname, Hlang.
  repeat split. intros ->. reflexivity.
Qed.

Lemma buildJsonExportPayload_idempotent_witness :
  let toISOString := fun t : Z => if t =? 0 then "1970-01-01T00:00:00.000Z"%string
                                  else "1970-01-01T00:00:01.000Z"%string in
  let s := setOutput "hello world" (setActiveFileName (Some "a.wav"%string)
                                      (initialState true)) in
  fst (buildJsonExportPayload toISOString 0 s)
  = fst (buildJsonExportPayload toISOString 0 (setIsExportMenuOpen true s))
  /\ fst (buildJsonExportPayload toISOString 1000 s)
     = withCreatedAt "1970-01-01T00:00:01.000Z"
         (fst (buildJsonExportPayload toISOString 0 s))
  /\ snd (buildJsonExportPayload toISOString 1000 s) = s.
Proof.
  intros toISOString s.
  destruct (buildJsonExportPayload_idempotent toISOString 0 0 s
              (setIsExportMenuOpen true s) eq_refl eq_refl eq_refl eq_refl)
    as (Hsame & _).
  destruct (buildJsonExportPayload_idempotent toISOString 0 1000 s s
              eq_refl eq_refl eq_refl eq_refl)
    as (_ & Hstamp & _ & _ & Hstate).
  split; [exact (Hsame eq_refl) | split; [exact Hstamp | exact Hstate]].
Defined.

(** ** Runs: what every reachable state satisfies *)

Lemma samePlatform_refl s : samePlatform s s.
Proof. repeat split. Qed.

Lemma wellFormed_frame (s s' : State) :
  wellFormed s ->
  samePlatform s s' ->
  (workerSupported s = false ->
   busyStatus (status s') = false /\ progressPhase s' = None) ->
  wellFormed s'.
Proof.
  intros (Ha & Hb & Hc & Hd & He) (Hw & Hn & Ht & Hp & Haw & Hs) Hview.
  unfold wellFormed. rewrite Hw, Hn, Ht, Hp, Haw, Hs.
  repeat split; try assumption.
  - now destruct (He H).
  - now destruct (He H) as (_ & ? & _).
  - now destruct (Hview H).
  - now destruct (Hview H).
Qed.

Lemma handleWorkerMessage_samePlatform clock0 clock1 message s :
  samePlatform s (handleWorkerMessage clock0 clock1 message s).
Proof.
  unfold handleWorkerMessage, noteDevice.
  destruct message as [st r detail device | m | text r | r text segs | text r | err r].
  - destruct (staleOptional r s); [apply samePlatform_refl|].
    destruct st, (truthy detail), (truthy device); repeat split.
  - destruct (ProgressPhase.eqb (m_phase m) ProgressPhase.transcribing
              && staleOptional (m_requestId m) s); [apply samePlatform_refl|].
    destruct (m_phase m).
    + destruct (isSome (m_loaded m)), (m_total m) as [t|];
        try destruct (0 <? t); repeat split.
    + destruct (isSome (m_currentSlice m)), (isSome (m_totalSlices m)),
        (m_processedChunks m) as [p|], (m_totalChunks m) as [t|];
        try destruct ((0 <? p) && (p <=? t)); repeat split.
  - destruct (negb (r =? activeRequestIdRef s)); repeat split.
  - destruct (negb (r =? activeRequestIdRef s)); repeat split.
  - destruct (negb (r =? activeRequestIdRef s)); repeat split.
  - destruct (staleOptional r s); repeat split.
Qed.

Lemma wellFormed_initializeWorker s : wellFormed s -> wellFormed (initializeWorker s).
Proof.
  intros Hwf. unfold initializeWorker.
  destruct (workerSupported s) eqn:Hsup; simpl.
  - destruct Hwf as (Ha & Hb & Hc & Hd & He).
    unfold wellFormed. simpl. rewrite Hsup. repeat split; try discriminate.
    + intros w Hw. injection Hw as <-. lia.
    + eapply Forall_impl; [|exact Hb]. simpl. intros; lia.
    + apply Forall_app. split.
      * eapply Forall_impl; [|exact Hc]. simpl. intros; lia.
      * repeat constructor.
    + eapply Forall_impl; [|exact Hd]. simpl. intros; lia.
  - apply (wellFormed_frame s); [exact Hwf | repeat split |].
    intros _. simpl. destruct Hwf as (_ & _ & _ & _ & He).
    destruct (He Hsup) as (_ & _ & Hbusy & Hphase). now split.
Qed.

Lemma wellFormed_terminateWorker s : wellFormed s -> wellFormed (terminateWorker s).
Proof.
  intros Hwf. unfold terminateWorker.
  destruct (workerRef s) as [worker|] eqn:Hw; [|exact Hwf].
  destruct Hwf as (Ha & Hb & Hc & Hd & He).
  unfold wellFormed. simpl. repeat split; try assumption; try discriminate.
  - apply Forall_app. split; [exact Hb|]. constructor; [|constructor]. now apply Ha.
  - now destruct (He H).
  - now destruct (He H) as (_ & _ & ? & _).
  - now destruct (He H) as (_ & _ & _ & ?).
Qed.

Lemma wellFormed_cancelTranscription s : wellFormed s -> wellFormed (cancelTranscription s).
Proof.
  intros Hwf. unfold cancelTranscription.
  set (s1 := clearProgressState _).
  assert (H1 : wellFormed s1).
  { apply (wellFormed_frame s); [exact Hwf | repeat split | intros _; now split]. }
  pose proof (wellFormed_initializeWorker _ (wellFormed_terminateWorker _ H1)) as H3.
  set (s3 := initializeWorker _) in *.
  apply (wellFormed_frame s3); [exact H3 | repeat split |].
  intros Hsup. simpl. destruct H3 as (_ & _ & _ & _ & He).
  destruct (He Hsup) as (_ & _ & ? & ?). now split.
Qed.

(** Without a [Worker] constructor nothing can invoke a cancellation. *)
Lemma cancelInvoked_supported s :
  wellFormed s -> cancelInvoked s = true -> workerSupported s = true.
Proof.
  intros (_ & _ & _ & _ & He) Hinv.
  destruct (workerSupported s) eqn:Hsup; [reflexivity|].
  destruct (He eq_refl) as (_ & _ & Hbusy & Hphase).
  unfold cancelInvoked, cancelButtonEnabled, showProgressBar, isCompiling, isWarmingUp in Hinv.
  rewrite Hphase, Hbusy in Hinv.
  destruct (status s); simpl in Hbusy; try discriminate Hbusy;
    simpl in Hinv; rewrite ?andb_false_r in Hinv; discriminate Hinv.
Qed.

Lemma wellFormed_handleFileSelected fileName s :
  wellFormed s -> wellFormed (handleFileSelected fileName s).
Proof.
  intros Hwf. unfold handleFileSelected.
  destruct (selectedLanguage s) as [l|]; [|exact Hwf].
  set (s1 := if busyStatus (status s) then cancelTranscription s else s).
  assert (H1 : wellFormed s1).
  { unfold s1. destruct (busyStatus (status s));
      [now apply wellFormed_cancelTranscription | exact Hwf]. }
  clearbody s1. destruct (workerRef s1) as [worker|] eqn:Hw.
  - destruct H1 as (Ha & Hb & Hc & Hd & He).
    unfold wellFormed. simpl.
    split; [exact Ha|]. split; [exact Hb|]. split; [exact Hc|]. split.
    + apply Forall_app. split; [exact Hd|]. constructor; [|constructor].
      simpl. now apply Ha.
    + intros Hsup. destruct (He Hsup) as (_ & Hnone & _).
      rewrite Hw in Hnone. discriminate Hnone.
  - apply (wellFormed_frame s1); [exact H1 | repeat split |].
    intros Hsup. simpl. destruct H1 as (_ & _ & _ & _ & He).
    destruct (He Hsup) as (_ & _ & _ & ?). now split.
Qed.

Lemma existsb_PendingDecode p l :
  existsb (PendingDecode_eqb p) l = true ->
  exists q, In q l /\ pd_worker q = pd_worker p.
Proof.
  intros H. apply existsb_exists in H. destruct H as (q & Hin & Heq).
  exists q. split; [exact Hin|].
  unfold PendingDecode_eqb in Heq. apply andb_prop in Heq. destruct Heq as [_ Hw].
  symmetry. now apply Nat.eqb_eq.
Qed.

Lemma workerLive_created worker s : workerLive worker s = true -> (worker < workersCreated s)%nat.
Proof.
  unfold workerLive. intros H. apply andb_prop in H. destruct H as [H _].
  now apply Nat.ltb_lt.
Qed.

Lemma wellFormed_runTask t s : wellFormed s -> wellFormed (runTask t s).
Proof.
  intros Hwf. apply (wellFormed_frame s); [exact Hwf | destruct t; repeat split |].
  intros Hsup. destruct Hwf as (_ & _ & _ & _ & He).
  destruct (He Hsup) as (_ & _ & ? & ?). destruct t; simpl; now split.
Qed.

Lemma wellFormed_resume p r s :
  wellFormed s ->
  (pd_worker p < workersCreated s)%nat ->
  wellFormed (handleFileSelected_resume p r s).
Proof.
  intros Hwf Hpw. unfold handleFileSelected_resume.
  destruct (negb (pd_requestId p =? activeRequestIdRef s)); [exact Hwf|].
  destruct r as [thrown | audioData].
  - apply (wellFormed_frame s); [exact Hwf | repeat split |].
    intros Hsup. simpl. destruct Hwf as (_ & _ & _ & _ & He).
    destruct (He Hsup) as (_ & _ & _ & ?). now split.
  - destruct Hwf as (Ha & Hb & Hc & Hd & He).
    unfold wellFormed. simpl.
    split; [exact Ha|]. split; [exact Hb|]. split; [|split; [exact Hd | exact He]].
    apply Forall_app. split; [exact Hc|]. constructor; [exact Hpw | constructor].
Qed.

Lemma wellFormed_react e s :
  wellFormed s -> enabled e s = true -> wellFormed (react e s).
Proof.
  intros Hwf Hen.
  destruct e as [ | | worker c0 c1 message | worker message | | fileName | p d | | | | l];
    simpl in Hen; simpl react.
  - now apply wellFormed_initializeWorker.
  - now apply wellFormed_terminateWorker.
  - apply (wellFormed_frame s);
      [exact Hwf | apply handleWorkerMessage_samePlatform |].
    intros Hsup. apply workerLive_created in Hen.
    destruct Hwf as (_ & _ & _ & _ & He). destruct (He Hsup) as (H0 & _). lia.
  - apply (wellFormed_frame s); [exact Hwf | repeat split |].
    intros _. now split.
  - now apply wellFormed_cancelTranscription.
  - now apply wellFormed_handleFileSelected.
  - apply existsb_PendingDecode in Hen. destruct Hen as (q & Hin & Hq).
    assert (Hpw : (pd_worker p < workersCreated s)%nat).
    { destruct Hwf as (_ & _ & _ & Hd & _).
      rewrite <- Hq. rewrite Forall_forall in Hd. now apply Hd. }
    apply wellFormed_resume; [|exact Hpw].
    destruct Hwf as (Ha & Hb & Hc & Hd & He).
    unfold wellFormed. simpl.
    split; [exact Ha|]. split; [exact Hb|]. split; [exact Hc|]. split; [|exact He].
    rewrite Forall_forall in Hd. apply Forall_forall.
    intros x Hx. apply filter_In in Hx. now apply Hd.
  - destruct (microtasks s) as [|t rest]; [exact Hwf|].
    apply wellFormed_runTask.
    apply (wellFormed_frame s); [exact Hwf | repeat split |].
    intros Hsup. destruct Hwf as (_ & _ & _ & _ & He).
    destruct (He Hsup) as (_ & _ & ? & ?). now split.
  - destruct (timeouts s) as [|[delay t] rest]; [exact Hwf|].
    apply wellFormed_runTask.
    apply (wellFormed_frame s); [exact Hwf | repeat split |].
    intros Hsup. destruct Hwf as (_ & _ & _ & _ & He).
    destruct (He Hsup) as (_ & _ & ? & ?). now split.
  - apply (wellFormed_frame s); [exact Hwf | repeat split |].
    intros Hsup. destruct Hwf as (_ & _ & _ & _ & He).
    destruct (He Hsup) as (_ & _ & ? & ?). now split.
  - apply (wellFormed_frame s); [exact Hwf | repeat split |].
    intros Hsup. destruct Hwf as (_ & _ & _ & _ & He).
    destruct (He Hsup) as (_ & _ & ? & ?). now split.
Qed.

Lemma wellFormed_run events :
  forall s s', wellFormed s -> run events s = Some s' -> wellFormed s'.
Proof.
  induction events as [|e rest IH]; intros s s' Hwf Hrun; simpl in Hrun.
  - now injection Hrun as <-.
  - destruct (enabled e s) eqn:Hen; [|discriminate Hrun].
    apply (IH (react e s)); [now apply wellFormed_react | exact Hrun].
Qed.

Lemma wellFormed_initialState supported : wellFormed (initialState supported).
Proof.
  unfold wellFormed. simpl. repeat split; try constructor; discriminate.
Qed.

Lemma reachable_wellFormed s : reachable s -> wellFormed s.
Proof.
  intros (supported & events & Hrun).
  exact (wellFormed_run events _ _ (wellFormed_initialState supported) Hrun).
Qed.

(** ** Cancellation *)

Lemma cancelTranscription_session s :
  let s' := cancelTranscription s in
  activeRequestIdRef s' = activeRequestIdRef s + 1
  /\ status s' = TranscriptionStatus.idle
  /\ error s' = None
  /\ progressCleared s'.
Proof.
  intros s'. subst s'. unfold cancelTranscription, initializeWorker, terminateWorker.
  destruct s as [ref ? ? ? ? ? ? ? ? ? ? ? ? ? ? ? ? ? ? ? ? ? ? ? ? supported ? ? ? ? ? ?].
  destruct ref, supported; repeat split; reflexivity.
Qed.

Lemma cancelTranscription_platform s :
  workerSupported s = true ->
  let s' := cancelTranscription s in
  workerRef s' = Some (workersCreated s)
  /\ workersCreated s' = Datatypes.S (workersCreated s)
  /\ posted s' = posted s ++ [(workersCreated s, req_load)]
  /\ terminated s'
     = terminated s ++ match workerRef s with Some old => [old] | None => [] end.
Proof.
  intros Hsup s'. subst s'. unfold cancelTranscription, initializeWorker, terminateWorker.
  destruct s as [ref ? ? ? ? ? ? ? ? ? ? ? ? ? ? ? ? ? ? ? ? ? ? ? ? supported ? ? ? ? ? ?].
  simpl in Hsup. subst supported.
  destruct ref; simpl; rewrite ?app_nil_r; repeat split; reflexivity.
Qed.

Lemma existsb_eqb_false (n : nat) (l : list nat) :
  Forall (fun w => (w < n)%nat) l -> existsb (Nat.eqb n) l = false.
Proof.
  induction 1 as [|w l Hw _ IH]; simpl; [reflexivity|].
  rewrite IH. destruct (Nat.eqb_spec n w); [lia | reflexivity].
Qed.

Lemma filter_none_below (n : nat) (l : list (nat * WorkerRequest)) :
  Forall (fun e => (fst e < n)%nat) l ->
  filter (fun e => (fst e =? n)%nat) l = [].
Proof.
  induction 1 as [|e l He _ IH]; simpl; [reflexivity|].
  destruct (Nat.eqb_spec (fst e) n); [lia | exact IH].
Qed.

(** C2, as stated, fails.  In a run that cancels a transcribing session
    with request identifier 1, a download-phase progress message tagged 1
    that is handled after the cancellation is applied: the status goes
    from [idle] to [loading] and the progress display shows the download. *)
Lemma download_progress_applied_after_cancel :
  let events :=
    [ev_mount;
     ev_select_language (whisper english);
     ev_file_selected "talk.wav";
     ev_decoded (mkPending 1 0 (Some (whisper english)))
                (decoded (mkAudioBuffer 1 [[Num 0%Qc]]) (ofZ 16000));
     ev_message 0%nat 0 0 (msg_status WorkerStatus.transcribing (Some 1) None None)] in
  let message :=
    msg_progress (mkProgress ProgressPhase.download (Double.ofZ 50) (Some 1)
                             None None None None (Some 5) (Some 10) None) in
  exists s,
    run events (initialState true) = Some s
    /\ cancelInvoked s = true
    /\ activeRequestIdRef s = 1
    /\ requestIdOf message = Some 1
    /\ status (cancelTranscription s) = TranscriptionStatus.idle
    /\ status (handleWorkerMessage 9 9 message (cancelTranscription s))
       = TranscriptionStatus.loading
    /\ progressPhase (handleWorkerMessage 9 9 message (cancelTranscription s))
       = Some ProgressPhase.download
    /\ handleWorkerMessage 9 9 message (cancelTranscription s) <> cancelTranscription s.
Proof.
  cbv zeta. eexists. split; [vm_compute; reflexivity|].
  repeat split; try (vm_compute; reflexivity).
  intros E. apply (f_equal status) in E. vm_compute in E. discriminate E.
Qed.

(** C2, amended. Wherever a run of the component invokes
    [cancelTranscription], the request counter grows by one, so that no
    earlier request identifier is current any more and every message
    tagged with one, other than a download-phase progress message, is
    dropped without any change of state; the status is [idle]; the error
    message and the whole progress state are cleared; the worker in use is
    terminated and delivers nothing further; and a worker created by this
    call, to which exactly the [load] request has been posted, takes its
    place. *)
Theorem cancelTranscription_supersedes_and_replaces_worker :
  forall s : State,
    reachable s ->
    cancelInvoked s = true ->
    let s' := cancelTranscription s in
    activeRequestIdRef s' = activeRequestIdRef s + 1
    /\ (forall rid : Z,
          rid <= activeRequestIdRef s ->
          staleOptional (Some rid) s' = true
          /\ forall (clock0 clock1 : Z) (message : WorkerResponse),
              requestIdOf message = Some rid ->
              isDownloadProgress message = false ->
              handleWorkerMessage clock0 clock1 message s' = s')
    /\ status s' = TranscriptionStatus.idle
    /\ error s' = None
    /\ progressCleared s'
    /\ (forall old : nat, workerRef s = Some old -> workerLive old s' = false)
    /\ exists fresh : nat,
         workerRef s' = Some fresh
         /\ workerRef s <> Some fresh
         /\ workerLive fresh s = false
         /\ workerLive fresh s' = true
         /\ postedTo fresh s' = [req_load].
Proof.
  intros s Hreach Hinv. cbv zeta.
  pose proof (reachable_wellFormed s Hreach) as Hwf.
  pose proof (cancelInvoked_supported s Hwf Hinv) as Hsup.
  pose proof (cancelTranscription_session s) as Hsession. cbv zeta in Hsession.
  destruct Hsession as (Hid & Hst & Herr & Hclear).
  pose proof (cancelTranscription_platform s Hsup) as Hplatform. cbv zeta in Hplatform.
  destruct Hplatform as (Href & Hn & Hposted & Hterm).
  generalize dependent (cancelTranscription s). intros s' Hid Hst Herr Hclear Href Hn Hposted Hterm.
  destruct Hwf as (Ha & Hb & Hc & _).
  split; [exact Hid|]. split.
  { intros rid Hle.
    assert (Hneq : rid <> activeRequestIdRef s') by lia.
    split; [now apply staleOptional_tagged|].
    intros clock0 clock1 message Htag Hdl.
    exact (stale_dropped clock0 clock1 message s' rid Htag Hneq Hdl). }
  split; [exact Hst|]. split; [exact Herr|]. split; [exact Hclear|]. split.
  { intros old Hold. unfold workerLive. rewrite Hterm, Hold, existsb_app. simpl.
    rewrite Nat.eqb_refl, orb_true_r. apply andb_false_r. }
  exists (workersCreated s). split; [exact Href|]. split.
  { intros E. specialize (Ha _ E). lia. }
  split.
  { unfold workerLive. now rewrite Nat.ltb_irrefl. }
  split.
  { unfold workerLive. rewrite Hn, Hterm.
    destruct (Nat.ltb_spec (workersCreated s) (Datatypes.S (workersCreated s))); [|lia].
    rewrite existsb_eqb_false; [reflexivity|].
    apply Forall_app. split; [exact Hb|].
    destruct (workerRef s) as [old|] eqn:Hold; constructor; [|constructor].
    now apply Ha. }
  unfold postedTo. rewrite Hposted, filter_app, (filter_none_below _ _ Hc). simpl.
  now rewrite Nat.eqb_refl.
Qed.

Lemma cancelTranscription_supersedes_and_replaces_worker_witness :
  let events :=
    [ev_mount;
     ev_select_language (whisper english);
     ev_file_selected "talk.wav";
     ev_decoded (mkPending 1 0 (Some (whisper english)))
                (decoded (mkAudioBuffer 1 [[Num 0%Qc]]) (ofZ 16000));
     ev_message 0%nat 0 0 (msg_status WorkerStatus.transcribing (Some 1) None None);
     ev_message 0%nat 5 5
       (msg_progress (mkProgress ProgressPhase.transcribing (Double.ofZ 10) (Some 1)
                                 (Some 1) (Some 4) None None None None None))] in
  exists s,
    run events (initialState true) = Some s
    /\ cancelInvoked s = true
    /\ status s = TranscriptionStatus.transcribing
    /\ activeRequestIdRef (cancelTranscription s) = 2
    /\ handleWorkerMessage 9 9 (msg_result "late" 1) (cancelTranscription s)
       = cancelTranscription s
    /\ workerRef s = Some 0%nat
    /\ workerRef (cancelTranscription s) = Some 1%nat
    /\ postedTo 1 (cancelTranscription s) = [req_load].
Proof.
  intros events.
  destruct (run events (initialState true)) as [s|] eqn:Hrun;
    [|vm_compute in Hrun; discriminate Hrun].
  exists s.
  assert (Hreach : reachable s) by (exists true, events; exact Hrun).
  assert (Hs : Some s = run events (initialState true)) by (symmetry; exact Hrun).
  vm_compute in Hs. injection Hs as Hs.
  assert (Hinv : cancelInvoked s = true) by (rewrite Hs; reflexivity).
  destruct (cancelTranscription_supersedes_and_replaces_worker s Hreach Hinv)
    as (Hid & Hstale & _ & _ & _ & _ & fresh & Href & _ & _ & _ & Hposted).
  assert (Hfresh : workerRef (cancelTranscription s) = Some 1%nat)
    by (rewrite Hs; reflexivity).
  assert (E : fresh = 1%nat) by congruence. subst fresh.
  assert (Hone : 1 <= activeRequestIdRef s) by (rewrite Hs; simpl; lia).
  destruct (Hstale 1 Hone) as [_ Hdrop].
  split; [reflexivity|]. split; [exact Hinv|].
  split; [rewrite Hs; reflexivity|].
  split; [rewrite Hid, Hs; reflexivity|].
  split; [exact (Hdrop 9 9 (msg_result "late" 1) eq_refl eq_refl)|].
  split; [rewrite Hs; reflexivity|].
  split; [exact Hfresh | exact Hposted].
Defined.

(** * Further properties *)

(** ** What a worker message cannot touch *)

(** X1. No worker message, of any kind and with any tag, changes the
    request counter, the worker in use, the queues of posted requests,
    terminated workers, suspended submissions and scheduled callbacks, the
    file name, the selected language or the cancelling flag. *)
Theorem handleWorkerMessage_leaves_session_identity :
  forall (clock0 clock1 : Z) (message : WorkerResponse) (s : State),
    let s' := handleWorkerMessage clock0 clock1 message s in
    activeRequestIdRef s' = activeRequestIdRef s
    /\ workerRef s' = workerRef s
    /\ workersCreated s' = workersCreated s
    /\ terminated s' = terminated s
    /\ posted s' = posted s
    /\ awaiting s' = awaiting s
    /\ microtasks s' = microtasks s
    /\ timeouts s' = timeouts s
    /\ activeFileName s' = activeFileName s
    /\ selectedLanguage s' = selectedLanguage s
    /\ isCancelling s' = isCancelling s.
Proof.
  intros clock0 clock1 message s. cbv zeta.
  unfold handleWorkerMessage, noteDevice.
  destruct message as [st r detail device | m | text r | r text segs | text r | err r].
  - destruct (staleOptional r s); [repeat split|].
    destruct st, (truthy detail), (truthy device); repeat split.
  - destruct (ProgressPhase.eqb (m_phase m) ProgressPhase.transcribing
              && staleOptional (m_requestId m) s); [repeat split|].
    destruct (m_phase m).
    + destruct (isSome (m_loaded m)), (m_total m) as [t|];
        try destruct (0 <? t); repeat split.
    + destruct (isSome (m_currentSlice m)), (isSome (m_totalSlices m)),
        (m_processedChunks m) as [p|], (m_totalChunks m) as [t|];
        try destruct ((0 <? p) && (p <=? t)); repeat split.
  - destruct (negb (r =? activeRequestIdRef s)); repeat split.
  - destruct (negb (r =? activeRequestIdRef s)); repeat split.
  - destruct (negb (r =? activeRequestIdRef s)); repeat split.
  - destruct (staleOptional r s); repeat split.
Qed.

(** X2. The transcript is written by [partial], [segments] and [result]
    messages of the current request and by nothing else: the output text
    after a message is the message's text in exactly those cases, and the
    segment list changes only on a current [segments] message. *)
Theorem handleWorkerMessage_transcript :
  forall (clock0 clock1 : Z) (message : WorkerResponse) (s : State),
    let s' := handleWorkerMessage clock0 clock1 message s in
    output s'
    = match message with
      | msg_partial text r | msg_result text r | msg_segments r text _ =>
          if r =? activeRequestIdRef s then text else output s
      | _ => output s
      end
    /\ segments s'
       = match message with
         | msg_segments r _ segs =>
             if r =? activeRequestIdRef s then segs else segments s
         | _ => segments s
         end.
Proof.
  intros clock0 clock1 message s. cbv zeta.
  unfold handleWorkerMessage, noteDevice.
  destruct message as [st r detail device | m | text r | r text segs | text r | err r].
  - destruct (staleOptional r s); [split; reflexivity|].
    destruct st, (truthy detail), (truthy device); split; reflexivity.
  - destruct (ProgressPhase.eqb (m_phase m) ProgressPhase.transcribing
              && staleOptional (m_requestId m) s); [split; reflexivity|].
    destruct (m_phase m).
    + destruct (isSome (m_loaded m)), (m_total m) as [t|];
        try destruct (0 <? t); split; reflexivity.
    + destruct (isSome (m_currentSlice m)), (isSome (m_totalSlices m)),
        (m_processedChunks m) as [p|], (m_totalChunks m) as [t|];
        try destruct ((0 <? p) && (p <=? t)); split; reflexivity.
  - destruct (r =? activeRequestIdRef s); split; reflexivity.
  - destruct (r =? activeRequestIdRef s); split; reflexivity.
  - destruct (r =? activeRequestIdRef s); split; reflexivity.
  - destruct (staleOptional r s); split; reflexivity.
Qed.

(** X3. A progress message that is applied overrides the local countdown:
    handling it after a countdown tick gives the very state that handling
    it without the tick gives. *)
Theorem progress_overrides_countdown :
  forall (clock0 clock1 : Z) (m : ProgressMessage) (s : State),
    progressApplied m s = true ->
    handleWorkerMessage clock0 clock1 (msg_progress m) (etaCountdown s)
    = handleWorkerMessage clock0 clock1 (msg_progress m) s.
Proof.
  intros clock0 clock1 m s Happlied.
  unfold progressApplied in Happlied. apply negb_true_iff in Happlied.
  unfold handleWorkerMessage.
  assert (Hstale : staleOptional (m_requestId m) (etaCountdown s)
                   = staleOptional (m_requestId m) s) by reflexivity.
  rewrite Hstale, Happlied.
  destruct s. unfold etaCountdown. simpl.
  destruct (m_phase m).
  - destruct (isSome (m_loaded m)), (m_total m) as [t|];
      try destruct (0 <? t); reflexivity.
  - destruct (isSome (m_currentSlice m)), (isSome (m_totalSlices m)),
      (m_processedChunks m) as [p|], (m_totalChunks m) as [t|];
      try destruct ((0 <? p) && (p <=? t)); reflexivity.
Qed.

Lemma progress_overrides_countdown_witness :
  let m := mkProgress ProgressPhase.transcribing (Double.ofZ 25) None
                      (Some 2) (Some 8) None None None None None in
  let s := setEtaSeconds (Some 40)
             (setProgressPhase (Some ProgressPhase.transcribing)
                (set_transcribeStartedAtRef (Some 1000) (initialState true))) in
  progressApplied m s = true
  /\ etaSeconds (etaCountdown s) = Some 39
  /\ etaSeconds (handleWorkerMessage 0 8000 (msg_progress m) (etaCountdown s)) = Some 21.
Proof.
  intros m s.
  assert (Happlied : progressApplied m s = true) by reflexivity.
  split; [exact Happlied|]. split; [reflexivity|].
  rewrite (progress_overrides_countdown 0 8000 m s Happlied).
  vm_compute. reflexivity.
Defined.

(** ** Invariants of runs *)

Lemma run_app events1 :
  forall events2 s s1 s2,
    run events1 s = Some s1 -> run events2 s1 = Some s2 ->
    run (events1 ++ events2) s = Some s2.
Proof.
  induction events1 as [|e rest IH]; intros events2 s s1 s2 H1 H2; simpl in *.
  - injection H1 as <-. exact H2.
  - destruct (enabled e s); [|discriminate H1]. eapply IH; eassumption.
Qed.

(** An invariant of single events is an invariant of runs. *)
Lemma run_invariant (P : State -> Prop) :
  (forall e s, P s -> enabled e s = true -> P (react e s)) ->
  forall events s s', P s -> run events s = Some s' -> P s'.
Proof.
  intros Hstep. induction events as [|e rest IH]; intros s s' HP Hrun; simpl in Hrun.
  - now injection Hrun as <-.
  - destruct (enabled e s) eqn:Hen; [|discriminate Hrun].
    apply (IH (react e s)); [now apply Hstep | exact Hrun].
Qed.

Lemma reachable_run s events s' :
  reachable s -> run events s = Some s' -> reachable s'.
Proof.
  intros (supported & events0 & H0) Hrun.
  exists supported, (events0 ++ events). eapply run_app; eassumption.
Qed.

Lemma handleWorkerMessage_counter clock0 clock1 message s :
  activeRequestIdRef (handleWorkerMessage clock0 clock1 message s) = activeRequestIdRef s.
Proof.
  unfold handleWorkerMessage, noteDevice.
  destruct message as [st r detail device | m | text r | r text segs | text r | err r].
  - destruct (staleOptional r s); [reflexivity|].
    destruct st, (truthy detail), (truthy device); reflexivity.
  - destruct (ProgressPhase.eqb (m_phase m) ProgressPhase.transcribing
              && staleOptional (m_requestId m) s); [reflexivity|].
    destruct (m_phase m).
    + destruct (isSome (m_loaded m)), (m_total m) as [t|];
        try destruct (0 <? t); reflexivity.
    + destruct (isSome (m_currentSlice m)), (isSome (m_totalSlices m)),
        (m_processedChunks m) as [p|], (m_totalChunks m) as [t|];
        try destruct ((0 <? p) && (p <=? t)); reflexivity.
  - destruct (negb (r =? activeRequestIdRef s)); reflexivity.
  - destruct (negb (r =? activeRequestIdRef s)); reflexivity.
  - destruct (negb (r =? activeRequestIdRef s)); reflexivity.
  - destruct (staleOptional r s); reflexivity.
Qed.

Lemma transcribeIds_app l1 l2 :
  transcribeIds (l1 ++ l2) = transcribeIds l1 ++ transcribeIds l2.
Proof. unfold transcribeIds. apply flat_map_app. Qed.

(** What [cancelTranscription] does to the bookkeeping of requests. *)
Lemma cancelTranscription_requests s :
  activeRequestIdRef (cancelTranscription s) = activeRequestIdRef s + 1
  /\ awaiting (cancelTranscription s) = awaiting s
  /\ transcribeIds (posted (cancelTranscription s)) = transcribeIds (posted s).
Proof.
  unfold cancelTranscription, initializeWorker, terminateWorker.
  destruct s as [ref ? ? ? ? ? ? ? ? ? ? ? ? ? ? ? ? ? ? ? ? ? ? ? ? supported ? ? ? ? ? ?].
  destruct ref, supported; simpl; rewrite ?transcribeIds_app; simpl;
    rewrite ?app_nil_r; repeat split; reflexivity.
Qed.

(** [handleFileSelected] takes one of three courses. *)
Lemma handleFileSelected_cases fileName s :
  let s0 := if busyStatus (status s) then cancelTranscription s else s in
  let s' := handleFileSelected fileName s in
  (selectedLanguage s = None /\ s' = s)
  \/ (selectedLanguage s <> None /\ workerRef s0 = None
      /\ s' = setError (Some "Transcription worker is not available."%string)
                (setStatus TranscriptionStatus.error s0))
  \/ (exists worker,
        selectedLanguage s <> None /\ workerRef s0 = Some worker
        /\ activeRequestIdRef s' = activeRequestIdRef s0 + 1
        /\ awaiting s'
           = awaiting s0 ++ [mkPending (activeRequestIdRef s0 + 1) worker (selectedLanguage s)]
        /\ posted s' = posted s0
        /\ workerRef s' = Some worker
        /\ workersCreated s' = workersCreated s0
        /\ terminated s' = terminated s0
        /\ status s' = TranscriptionStatus.decoding
        /\ output s' = EmptyString
        /\ segments s' = []
        /\ error s' = None
        /\ activeFileName s' = Some fileName
        /\ progressCleared s').
Proof.
  cbv zeta. unfold handleFileSelected.
  destruct (selectedLanguage s) as [l|] eqn:Hl; [|left; now split].
  right.
  generalize (if busyStatus (status s) then cancelTranscription s else s). intros s0.
  destruct (workerRef s0) as [worker|] eqn:Hw.
  - right. exists worker. split; [discriminate|]. split; [reflexivity|].
    simpl. rewrite Hw. unfold progressCleared. simpl. repeat split; reflexivity.
  - left. split; [discriminate|]. now split.
Qed.

Lemma requestsOrdered_frame s s' :
  activeRequestIdRef s' = activeRequestIdRef s ->
  awaiting s' = awaiting s ->
  transcribeIds (posted s') = transcribeIds (posted s) ->
  requestsOrdered s -> requestsOrdered s'.
Proof.
  intros Hc Ha Hp H. unfold requestsOrdered in *. now rewrite Hc, Ha, Hp.
Qed.

Lemma requestsOrdered_advance s s' :
  activeRequestIdRef s' = activeRequestIdRef s + 1 ->
  awaiting s' = awaiting s ->
  transcribeIds (posted s') = transcribeIds (posted s) ->
  requestsOrdered s -> requestsOrdered s'.
Proof.
  intros Hc Ha Hp (H0 & Haw & Hnd & Hpo & Hpnd & Hdis).
  unfold requestsOrdered. rewrite Hc, Ha, Hp.
  split; [lia|]. split.
  { eapply Forall_impl; [|exact Haw]. simpl. intros; lia. }
  split; [exact Hnd|]. split.
  { eapply Forall_impl; [|exact Hpo]. simpl. intros; lia. }
  split; assumption.
Qed.

Lemma requestsOrdered_cancelTranscription s :
  requestsOrdered s -> requestsOrdered (cancelTranscription s).
Proof.
  destruct (cancelTranscription_requests s) as (Hc & Ha & Hp).
  now apply requestsOrdered_advance.
Qed.

Lemma requestsOrdered_maybe_cancel s :
  requestsOrdered s ->
  requestsOrdered (if busyStatus (status s) then cancelTranscription s else s).
Proof.
  intros H. destruct (busyStatus (status s)); [|exact H].
  now apply requestsOrdered_cancelTranscription.
Qed.

Lemma requestsOrdered_handleFileSelected fileName s :
  requestsOrdered s -> requestsOrdered (handleFileSelected fileName s).
Proof.
  intros H. pose proof (requestsOrdered_maybe_cancel s H) as H0.
  pose proof (handleFileSelected_cases fileName s) as Hcases. cbv zeta in Hcases.
  revert H0 Hcases.
  generalize (if busyStatus (status s) then cancelTranscription s else s). intros s0 H0.
  generalize (handleFileSelected fileName s). intros s' Hcases.
  destruct Hcases as [[_ ->] | [(_ & _ & ->) | (worker & _ & _ & Hc & Ha & Hp & _)]].
  - exact H.
  - revert H0. apply requestsOrdered_frame; reflexivity.
  - destruct H0 as (Hz & Haw & Hnd & Hpo & Hpnd & Hdis).
    unfold requestsOrdered. rewrite Hc, Ha, Hp, map_app. simpl.
    split; [lia|]. split.
    { apply Forall_app. split.
      - eapply Forall_impl; [|exact Haw]. simpl. intros; lia.
      - constructor; [simpl; lia | constructor]. }
    split.
    { apply NoDup_app; [exact Hnd | repeat constructor; intros [] |].
      intros id Hin [<- | []]. rewrite Forall_forall in Haw.
      apply in_map_iff in Hin. destruct Hin as (p & Hp' & Hin).
      specialize (Haw p Hin). lia. }
    split.
    { eapply Forall_impl; [|exact Hpo]. simpl. intros; lia. }
    split; [exact Hpnd|].
    intros id Hin Hin'. apply in_app_or in Hin'. destruct Hin' as [Hin' | [<- | []]].
    + exact (Hdis id Hin Hin').
    + rewrite Forall_forall in Hpo. specialize (Hpo _ Hin). lia.
Qed.

Lemma PendingDecode_eqb_id p q :
  PendingDecode_eqb p q = true -> pd_requestId q = pd_requestId p.
Proof.
  unfold PendingDecode_eqb. intros H. apply andb_prop in H. destruct H as [H _].
  symmetry. now apply Z.eqb_eq.
Qed.

Lemma NoDup_map_filter {A B : Type} (f : A -> B) (keep : A -> bool) (l : list A) :
  NoDup (map f l) -> NoDup (map f (filter keep l)).
Proof.
  induction l as [|x l IH]; simpl; intros H; [constructor|].
  inversion H as [|? ? Hnotin Hnd]; subst.
  destruct (keep x); simpl; [|now apply IH].
  constructor; [|now apply IH].
  intros Hin. apply Hnotin. apply in_map_iff in Hin. destruct Hin as (y & Hy & Hin).
  apply filter_In in Hin. apply in_map_iff. exists y. now split.
Qed.

Lemma requestsOrdered_decoded p d s :
  requestsOrdered s ->
  existsb (PendingDecode_eqb p) (awaiting s) = true ->
  requestsOrdered (react (ev_decoded p d) s).
Proof.
  intros (Hz & Haw & Hnd & Hpo & Hpnd & Hdis) Hen.
  apply existsb_exists in Hen. destruct Hen as (q & Hq & Heq).
  pose proof (PendingDecode_eqb_id p q Heq) as Hid.
  set (rest := filter (fun q0 => negb (PendingDecode_eqb p q0)) (awaiting s)).
  assert (Hrest : Forall (fun p0 => 1 <= pd_requestId p0 <= activeRequestIdRef s) rest).
  { rewrite Forall_forall in *. intros x Hx. apply filter_In in Hx. now apply Haw. }
  assert (Hrestnd : NoDup (map pd_requestId rest)) by now apply NoDup_map_filter.
  assert (Hrestdis : forall id, In id (transcribeIds (posted s)) ->
                                ~ In id (map pd_requestId rest)).
  { intros id Hin Hin'. apply (Hdis id Hin).
    apply in_map_iff in Hin'. destruct Hin' as (x & Hx & Hin').
    apply filter_In in Hin'. apply in_map_iff. exists x. now split. }
  assert (Hgone : ~ In (pd_requestId p) (map pd_requestId rest)).
  { intros Hin. apply in_map_iff in Hin. destruct Hin as (x & Hx & Hin).
    apply filter_In in Hin. destruct Hin as [Hin Hkeep].
    (* [x] and [q] carry the same identifier, so they are the same entry *)
    assert (Hxq : x = q).
    { clear - Hnd Hin Hq Hx Hid. induction (awaiting s) as [|a l IH]; [destruct Hin|].
      simpl in Hnd. inversion Hnd as [|? ? Hnotin Hnd']; subst.
      destruct Hin as [-> | Hin], Hq as [-> | Hq]; try reflexivity.
      - exfalso. apply Hnotin. apply in_map_iff. exists q. split; [congruence | exact Hq].
      - exfalso. apply Hnotin. apply in_map_iff. exists x. split; [congruence | exact Hin].
      - now apply IH. }
    subst x. rewrite Heq in Hkeep. discriminate Hkeep. }
  simpl react. unfold handleFileSelected_resume. simpl.
  destruct (negb (pd_requestId p =? activeRequestIdRef s)) eqn:Hcur.
  - unfold requestsOrdered. simpl. fold rest. repeat split; assumption.
  - apply negb_false_iff, Z.eqb_eq in Hcur.
    destruct (decodeAudioFile d) as [thrown | audioData].
    + unfold requestsOrdered. simpl. fold rest. repeat split; assumption.
    + unfold requestsOrdered. simpl. fold rest.
      rewrite transcribeIds_app. simpl.
      assert (Hnew : ~ In (pd_requestId p) (transcribeIds (posted s))).
      { intros Hin. apply (Hdis _ Hin). rewrite <- Hid. now apply in_map. }
      assert (Hrange : 1 <= pd_requestId p <= activeRequestIdRef s).
      { rewrite Forall_forall in Haw. rewrite <- Hid. now apply Haw. }
      split; [exact Hz|]. split; [exact Hrest|]. split; [exact Hrestnd|]. split.
      { apply Forall_app. split; [exact Hpo|]. constructor; [exact Hrange | constructor]. }
      split.
      { apply NoDup_app; [exact Hpnd | repeat constructor; intros [] |].
        intros id Hin [<- | []]. exact (Hnew Hin). }
      intros id Hin. apply in_app_or in Hin. destruct Hin as [Hin | [<- | []]].
      * now apply Hrestdis.
      * exact Hgone.
Qed.

Lemma requestsOrdered_runTask t s : requestsOrdered s -> requestsOrdered (runTask t s).
Proof. apply requestsOrdered_frame; destruct t; reflexivity. Qed.

Lemma requestsOrdered_react e s :
  requestsOrdered s -> enabled e s = true -> requestsOrdered (react e s).
Proof.
  intros H Hen.
  destruct e as [ | | worker c0 c1 message | worker message | | fileName | p d | | | | l];
    simpl in Hen.
  - revert H. simpl react. unfold initializeWorker.
    destruct (workerSupported s); apply requestsOrdered_frame; try reflexivity.
    simpl. rewrite transcribeIds_app. simpl. apply app_nil_r.
  - revert H. simpl react. unfold terminateWorker.
    destruct (workerRef s); [|trivial]. apply requestsOrdered_frame; reflexivity.
  - revert H. simpl react.
    destruct (handleWorkerMessage_samePlatform c0 c1 message s)
      as (_ & _ & _ & Hp & Ha & _).
    apply requestsOrdered_frame;
      [apply handleWorkerMessage_counter | exact Ha | now rewrite Hp].
  - revert H. apply requestsOrdered_frame; reflexivity.
  - now apply requestsOrdered_cancelTranscription.
  - now apply requestsOrdered_handleFileSelected.
  - now apply requestsOrdered_decoded.
  - simpl react. destruct (microtasks s) as [|t rest]; [exact H|].
    apply requestsOrdered_runTask. revert H. apply requestsOrdered_frame; reflexivity.
  - simpl react. destruct (timeouts s) as [|[delay t] rest]; [exact H|].
    apply requestsOrdered_runTask. revert H. apply requestsOrdered_frame; reflexivity.
  - revert H. apply requestsOrdered_frame; reflexivity.
  - revert H. apply requestsOrdered_frame; reflexivity.
Qed.

Lemma requestsOrdered_initialState supported : requestsOrdered (initialState supported).
Proof.
  unfold requestsOrdered. simpl.
  repeat split; try constructor; try lia; try (intros id []).
Qed.

Lemma reachable_requestsOrdered s : reachable s -> requestsOrdered s.
Proof.
  intros (supported & events & Hrun).
  exact (run_invariant requestsOrdered requestsOrdered_react events _ _
           (requestsOrdered_initialState supported) Hrun).
Qed.

(** ** The progress display along runs *)

Lemma SFcompare_antisym (x y : spec_float) :
  SFcompare y x = option_map CompOpp (SFcompare x y).
Proof.
  destruct x as [sx|sx| |sx mx ex], y as [sy|sy| |sy my ey]; simpl;
    try reflexivity;
    try (destruct sx; reflexivity);
    try (destruct sy; reflexivity);
    try (destruct sx, sy; reflexivity).
  destruct sx, sy; try reflexivity; f_equal;
    rewrite (Z.compare_antisym ex ey);
    destruct (ex ?= ey); simpl; try reflexivity.
  - rewrite (Pos.compare_cont_antisym mx my Eq). simpl.
    now destruct (Pos.compare_cont Eq mx my).
  - rewrite (Pos.compare_cont_antisym mx my Eq). reflexivity.
Qed.

Lemma SFcompare_finite_nan (s : bool) (m : positive) (e : Z) (v : spec_float) :
  SFcompare (S754_finite s m e) v = None -> v = S754_nan.
Proof. destruct v as [sv|sv| |sv mv ev]; simpl; try discriminate; reflexivity. Qed.

Lemma SFcompare_zero_nan (s : bool) (v : spec_float) :
  SFcompare (S754_zero s) v = None -> v = S754_nan.
Proof. destruct v as [sv|sv| |sv mv ev]; simpl; try discriminate; reflexivity. Qed.

Lemma clampProgress_zero : clampProgress Double.zero = Double.zero.
Proof. reflexivity. Qed.

(** The clamp by cases on how its argument compares with 100 and with 0. *)
Lemma clampProgress_cases (value : Double.t) :
  clampProgress value
  = match SFcompare (Double.ofZ 100) value with
    | None => S754_nan
    | Some Gt =>
        match SFcompare Double.zero value with
        | None => S754_nan
        | Some Lt => value
        | Some _ => Double.zero
        end
    | Some _ => Double.ofZ 100
    end.
Proof.
  unfold clampProgress, Double.min.
  change (Double.ofZ 0) with Double.zero.
  change (Double.ofZ 100) with (S754_finite false 7036874417766400 (-46)).
  destruct (SFcompare (S754_finite false 7036874417766400 (-46)) value) as [[ | | ]|];
    try reflexivity.
  unfold Double.max, Double.zero.
  destruct (SFcompare (S754_zero false) value) as [[ | | ]|]; try reflexivity.
  destruct value; reflexivity.
Qed.

(** The clamp lets [NaN] through, takes every other number into the range
    from 0 to 100, and leaves what it returns as it is. *)
Lemma clampProgress_spec (value : Double.t) :
  clampProgress (clampProgress value) = clampProgress value
  /\ (if Double.isNaN value
      then clampProgress value = S754_nan
      else isPercentage (clampProgress value) = true).
Proof.
  pose proof (clampProgress_cases value) as Hv.
  destruct (SFcompare (Double.ofZ 100) value) as [[ | | ]|] eqn:Hh.
  - rewrite Hv. destruct value; try discriminate Hh; split; reflexivity.
  - rewrite Hv. destruct value; try discriminate Hh; split; reflexivity.
  - assert (Hnan : Double.isNaN value = false).
    { destruct value; try reflexivity. discriminate Hh. }
    assert (Hle : Double.leb value (Double.ofZ 100) = true).
    { unfold Double.leb, SFleb.
      now rewrite (SFcompare_antisym (Double.ofZ 100) value), Hh. }
    rewrite Hnan.
    destruct (SFcompare Double.zero value) as [[ | | ]|] eqn:Hz.
    + rewrite Hv. split; reflexivity.
    + rewrite Hv. split.
      * now rewrite (clampProgress_cases value), Hh, Hz.
      * unfold isPercentage. rewrite Hle, andb_true_r.
        unfold Double.leb, SFleb. now rewrite Hz.
    + rewrite Hv. split; reflexivity.
    + unfold Double.zero in Hz. apply SFcompare_zero_nan in Hz. subst value.
      discriminate Hnan.
  - change (Double.ofZ 100) with (S754_finite false 7036874417766400 (-46)) in Hh.
    apply SFcompare_finite_nan in Hh. subst value. split; reflexivity.
Qed.

Lemma clampProgress_idempotent (value : Double.t) :
  clampProgress (clampProgress value) = clampProgress value.
Proof. exact (proj1 (clampProgress_spec value)). Qed.

(** A fixed point of the clamp is [NaN] or a percentage. *)
Lemma clampProgress_fixed (x : Double.t) :
  clampProgress x = x ->
  Double.isNaN x = true \/ isPercentage x = true.
Proof.
  intros E. pose proof (proj2 (clampProgress_spec x)) as H.
  destruct (Double.isNaN x); [now left | right; now rewrite <- E].
Qed.

(** Closes the side conditions that arise when a handler resets the
    progress display. *)
Ltac display_trivial :=
  simpl;
  first [ assumption
        | reflexivity
        | apply clampProgress_zero
        | apply clampProgress_idempotent
        | discriminate
        | let E := fresh in intros ? E; discriminate E ].

Lemma displayConsistent_same s s' :
  progress s' = progress s ->
  totalBytes s' = totalBytes s ->
  etaSeconds s' = etaSeconds s ->
  progressPhase s' = progressPhase s ->
  transcribeStartedAtRef s' = transcribeStartedAtRef s ->
  processedChunks s' = processedChunks s ->
  totalChunks s' = totalChunks s ->
  displayConsistent s -> displayConsistent s'.
Proof.
  intros H1 H2 H3 H4 H5 H6 H7 H. unfold displayConsistent in *.
  now rewrite H1, H2, H3, H4, H5, H6, H7.
Qed.

Lemma displayConsistent_no_eta s' :
  clampProgress (progress s') = progress s' ->
  (forall total, totalBytes s' = Some total -> 0 < total) ->
  etaSeconds s' = None ->
  displayConsistent s'.
Proof.
  intros H0 Hb He. unfold displayConsistent. rewrite He.
  split; [exact H0|]. split; [exact Hb|].
  intros eta E. discriminate E.
Qed.

Lemma displayConsistent_clear s : displayConsistent (clearProgressState s).
Proof. apply displayConsistent_no_eta; display_trivial. Qed.

Lemma displayConsistent_endProgress s :
  displayConsistent s -> displayConsistent (endProgress s).
Proof.
  intros (H0 & Hb & _). apply displayConsistent_no_eta; display_trivial.
Qed.

Lemma displayConsistent_handleWorkerMessage clock0 clock1 message s :
  displayConsistent s ->
  displayConsistent (handleWorkerMessage clock0 clock1 message s).
Proof.
  intros H. unfold handleWorkerMessage, noteDevice.
  destruct message as [st r detail device | m | text r | r text segs | text r | err r].
  - destruct (staleOptional r s); [exact H|].
    destruct st.
    + destruct (truthy detail), (truthy device);
        (revert H; apply displayConsistent_same; simpl; reflexivity).
    + apply displayConsistent_endProgress.
      destruct (truthy device); (revert H; apply displayConsistent_same; simpl; reflexivity).
    + destruct (truthy device); (revert H; apply displayConsistent_same; simpl; reflexivity).
    + destruct (truthy detail); apply displayConsistent_no_eta; display_trivial.
  - destruct (ProgressPhase.eqb (m_phase m) ProgressPhase.transcribing
              && staleOptional (m_requestId m) s); [exact H|].
    pose proof (clampProgress_idempotent (m_progress m)) as Hc.
    destruct H as (H0 & Hb & He).
    destruct (m_phase m).
    + destruct (isSome (m_loaded m)), (m_total m) as [t|];
        try destruct (Z.ltb_spec 0 t);
        apply displayConsistent_no_eta;
        first [ display_trivial | simpl; intros total E; injection E as <-; assumption ].
    + destruct (isSome (m_currentSlice m)), (isSome (m_totalSlices m)),
        (m_processedChunks m) as [p|], (m_totalChunks m) as [t|];
        try (apply displayConsistent_no_eta; display_trivial; fail);
        (destruct ((0 <? p) && (p <=? t)) eqn:Hcond;
         [| apply displayConsistent_no_eta; display_trivial ];
         apply andb_prop in Hcond; destruct Hcond as [Hp Ht];
         apply Z.ltb_lt in Hp; apply Z.leb_le in Ht;
         unfold displayConsistent; simpl;
         split; [exact Hc|]; split; [exact Hb|];
         intros eta _ _; split; [reflexivity|]; split; [discriminate|];
         exists p, t; repeat split; try reflexivity; lia).
  - destruct (negb (r =? activeRequestIdRef s)); [exact H|].
    revert H; apply displayConsistent_same; simpl; reflexivity.
  - destruct (negb (r =? activeRequestIdRef s)); [exact H|].
    apply displayConsistent_endProgress.
    revert H; apply displayConsistent_same; simpl; reflexivity.
  - destruct (negb (r =? activeRequestIdRef s)); [exact H|].
    apply displayConsistent_endProgress.
    revert H; apply displayConsistent_same; simpl; reflexivity.
  - destruct (staleOptional r s); [exact H|]. apply displayConsistent_clear.
Qed.

Lemma displayConsistent_cancelTranscription s : displayConsistent (cancelTranscription s).
Proof.
  unfold cancelTranscription.
  set (s1 := clearProgressState _).
  pose proof (displayConsistent_clear
                (setError None
                   (setStatus TranscriptionStatus.idle
                      (setIsCancelling true
                         (set_activeRequestIdRef (activeRequestIdRef s + 1) s))))) as H1.
  fold s1 in H1. clearbody s1.
  assert (H2 : displayConsistent (terminateWorker s1)).
  { unfold terminateWorker. destruct (workerRef s1); [|exact H1].
    revert H1. apply displayConsistent_same; simpl; reflexivity. }
  generalize dependent (terminateWorker s1). intros s2 H2.
  assert (H3 : displayConsistent (initializeWorker s2)).
  { unfold initializeWorker. destruct (workerSupported s2);
      (revert H2; apply displayConsistent_same; simpl; reflexivity). }
  generalize dependent (initializeWorker s2). intros s3 H3.
  revert H3. apply displayConsistent_same; simpl; reflexivity.
Qed.

Lemma displayConsistent_handleFileSelected fileName s :
  displayConsistent s -> displayConsistent (handleFileSelected fileName s).
Proof.
  intros H. unfold handleFileSelected.
  destruct (selectedLanguage s); [|exact H].
  assert (H0 : displayConsistent
                 (if busyStatus (status s) then cancelTranscription s else s)).
  { destruct (busyStatus (status s)); [apply displayConsistent_cancelTranscription | exact H]. }
  generalize dependent (if busyStatus (status s) then cancelTranscription s else s).
  intros s0 H0. destruct (workerRef s0).
  - apply displayConsistent_no_eta; display_trivial.
  - revert H0. apply displayConsistent_same; simpl; reflexivity.
Qed.

Lemma displayConsistent_runTask t s : displayConsistent s -> displayConsistent (runTask t s).
Proof. destruct t; apply displayConsistent_same; simpl; reflexivity. Qed.

Lemma displayConsistent_react e s :
  displayConsistent s -> enabled e s = true -> displayConsistent (react e s).
Proof.
  intros H Hen.
  destruct e as [ | | worker c0 c1 message | worker message | | fileName | p d | | | | l];
    simpl in Hen; simpl react.
  - unfold initializeWorker. destruct (workerSupported s);
      (revert H; apply displayConsistent_same; simpl; reflexivity).
  - unfold terminateWorker. destruct (workerRef s); [|exact H].
    revert H; apply displayConsistent_same; simpl; reflexivity.
  - now apply displayConsistent_handleWorkerMessage.
  - apply displayConsistent_clear.
  - apply displayConsistent_cancelTranscription.
  - now apply displayConsistent_handleFileSelected.
  - unfold handleFileSelected_resume. simpl.
    destruct (negb (pd_requestId p =? activeRequestIdRef s));
      [revert H; apply displayConsistent_same; simpl; reflexivity|].
    destruct (decodeAudioFile d); (revert H; apply displayConsistent_same; simpl; reflexivity).
  - destruct (microtasks s) as [|t rest]; [exact H|].
    apply displayConsistent_runTask. revert H; apply displayConsistent_same; simpl; reflexivity.
  - destruct (timeouts s) as [|[delay t] rest]; [exact H|].
    apply displayConsistent_runTask. revert H; apply displayConsistent_same; simpl; reflexivity.
  - destruct H as (H0 & Hb & He).
    unfold displayConsistent, etaCountdown. simpl.
    split; [exact H0|]. split; [exact Hb|].
    intros eta' Heta' Hpos.
    destruct (etaSeconds s) as [eta|] eqn:Heta.
    + destruct (Z.leb_spec eta 0); injection Heta' as <-; [lia|].
      apply (He eta eq_refl). lia.
    + injection Heta' as <-. lia.
  - revert H; apply displayConsistent_same; simpl; reflexivity.
Qed.

Lemma displayConsistent_initialState supported : displayConsistent (initialState supported).
Proof. apply displayConsistent_no_eta; display_trivial. Qed.

Lemma reachable_displayConsistent s : reachable s -> displayConsistent s.
Proof.
  intros (supported & events & Hrun).
  exact (run_invariant displayConsistent displayConsistent_react events _ _
           (displayConsistent_initialState supported) Hrun).
Qed.

(** What a handler can do to the displayed percentage: leave it, reset it
    to zero, or store the clamped percentage of a progress message. *)
Lemma progress_handleWorkerMessage clock0 clock1 message s :
  let s' := handleWorkerMessage clock0 clock1 message s in
  progress s' = progress s
  \/ progress s' = Double.zero
  \/ exists m, message = msg_progress m /\ progress s' = clampProgress (m_progress m).
Proof.
  cbv zeta. unfold handleWorkerMessage, noteDevice.
  destruct message as [st r detail device | m | text r | r text segs | text r | err r].
  - destruct (staleOptional r s); [now left|].
    destruct st, (truthy detail), (truthy device);
      first [ left; reflexivity | right; left; reflexivity ].
  - destruct (ProgressPhase.eqb (m_phase m) ProgressPhase.transcribing
              && staleOptional (m_requestId m) s); [now left|].
    right. right. exists m. split; [reflexivity|].
    destruct (m_phase m).
    + destruct (isSome (m_loaded m)), (m_total m) as [t|];
        try destruct (0 <? t); reflexivity.
    + destruct (isSome (m_currentSlice m)), (isSome (m_totalSlices m)),
        (m_processedChunks m) as [p|], (m_totalChunks m) as [t|];
        try destruct ((0 <? p) && (p <=? t)); reflexivity.
  - destruct (negb (r =? activeRequestIdRef s)); left; reflexivity.
  - destruct (negb (r =? activeRequestIdRef s)); left; reflexivity.
  - destruct (negb (r =? activeRequestIdRef s)); left; reflexivity.
  - destruct (staleOptional r s); [left | right; left]; reflexivity.
Qed.

Lemma progress_cancelTranscription s : progress (cancelTranscription s) = Double.zero.
Proof.
  pose proof (cancelTranscription_session s) as H. cbv zeta in H.
  destruct H as (_ & _ & _ & Hclear & _). exact Hclear.
Qed.

Lemma progress_handleFileSelected fileName s :
  progress (handleFileSelected fileName s) = progress s
  \/ progress (handleFileSelected fileName s) = Double.zero.
Proof.
  unfold handleFileSelected.
  destruct (selectedLanguage s); [|now left].
  destruct (busyStatus (status s)).
  - pose proof (progress_cancelTranscription s) as Hc.
    generalize dependent (cancelTranscription s). intros s0 Hc.
    destruct (workerRef s0); right; [reflexivity | exact Hc].
  - destruct (workerRef s); [right | left]; reflexivity.
Qed.

Lemma numericProgress_react e s :
  numericProgress e = true ->
  Double.isNaN (progress s) = false ->
  Double.isNaN (progress (react e s)) = false.
Proof.
  intros Hnum H.
  destruct e as [ | | worker c0 c1 message | worker message | | fileName | p d | | | | l];
    simpl react.
  - unfold initializeWorker. destruct (workerSupported s); exact H.
  - unfold terminateWorker. destruct (workerRef s); exact H.
  - destruct (progress_handleWorkerMessage c0 c1 message s) as [E | [E | (m & -> & E)]];
      cbv zeta in E; rewrite E; [exact H | reflexivity |].
    simpl in Hnum. apply negb_true_iff in Hnum.
    pose proof (proj2 (clampProgress_spec (m_progress m))) as Hspec.
    rewrite Hnum in Hspec.
    destruct (clampProgress (m_progress m)); try reflexivity. discriminate Hspec.
  - reflexivity.
  - now rewrite progress_cancelTranscription.
  - destruct (progress_handleFileSelected fileName s) as [E | E]; rewrite E;
      [exact H | reflexivity].
  - unfold handleFileSelected_resume. simpl.
    destruct (negb (pd_requestId p =? activeRequestIdRef s)); [exact H|].
    destruct (decodeAudioFile d); exact H.
  - destruct (microtasks s) as [|t rest]; [exact H|]. destruct t; exact H.
  - destruct (timeouts s) as [|[delay t] rest]; [exact H|]. destruct t; exact H.
  - exact H.
  - exact H.
Qed.

Lemma numericProgress_run events :
  forall s s',
    forallb numericProgress events = true ->
    Double.isNaN (progress s) = false ->
    run events s = Some s' ->
    Double.isNaN (progress s') = false.
Proof.
  induction events as [|e events IH]; intros s s' Hnum H Hrun; simpl in Hrun.
  - now injection Hrun as <-.
  - simpl in Hnum. apply andb_prop in Hnum. destruct Hnum as [He Hrest].
    destruct (enabled e s); [|discriminate Hrun].
    exact (IH _ _ Hrest (numericProgress_react e s He H) Hrun).
Qed.

(** X4. In every state of a run the displayed percentage is one that the
    clamp leaves as it is: it is [NaN], which the clamp lets through when a
    progress message carries it, or it lies between 0 and 100; it lies
    between 0 and 100 when no progress message of the run carried [NaN].
    A recorded total byte count is positive. *)
Theorem displayed_percentage_in_range :
  forall (supported : bool) (events : list Event) (s : State),
    run events (initialState supported) = Some s ->
    clampProgress (progress s) = progress s
    /\ (Double.isNaN (progress s) = true \/ isPercentage (progress s) = true)
    /\ (forallb numericProgress events = true -> isPercentage (progress s) = true)
    /\ (forall total : Z, totalBytes s = Some total -> 0 < total).
Proof.
  intros supported events s Hrun.
  assert (Hreach : reachable s) by (exists supported, events; exact Hrun).
  destruct (reachable_displayConsistent s Hreach) as (H0 & Hb & _).
  split; [exact H0|]. split; [now apply clampProgress_fixed|]. split; [|exact Hb].
  intros Hnum.
  assert (Hinit : Double.isNaN (progress (initialState supported)) = false)
    by reflexivity.
  pose proof (numericProgress_run events _ _ Hnum Hinit Hrun) as Hnan.
  destruct (clampProgress_fixed _ H0) as [E | E]; [congruence | exact E].
Qed.

Lemma displayed_percentage_in_range_witness :
  let events :=
    [ev_mount;
     ev_message 0%nat 0 0
       (msg_progress (mkProgress ProgressPhase.download (Double.ofZ 140) None
                                 None None None None (Some 4) (Some 0) None));
     ev_message 0%nat 0 0
       (msg_progress (mkProgress ProgressPhase.download (Double.ofZ (-5)) None
                                 None None None None (Some 4) (Some 10) None))] in
  exists s,
    run events (initialState true) = Some s
    /\ forallb numericProgress events = true
    /\ isPercentage (progress s) = true.
Proof.
  intros events.
  destruct (run events (initialState true)) as [s|] eqn:Hrun;
    [|vm_compute in Hrun; discriminate Hrun].
  exists s.
  assert (Hnum : forallb numericProgress events = true) by reflexivity.
  destruct (displayed_percentage_in_range true events s Hrun) as (_ & _ & Hin & _).
  split; [reflexivity|]. split; [exact Hnum | exact (Hin Hnum)].
Defined.

(** X5. In every state of a run an estimate above zero is displayed only in
    the transcribe phase, with the start of the phase recorded and with
    chunk counters [1 <= processed <= total].  A tick of the countdown that
    arrives where the guard of its effect does not hold (after the phase
    has ended, or before any estimate was made) leaves the estimate 0. *)
Theorem estimate_only_with_completed_chunks :
  forall s : State,
    reachable s ->
    (forall eta : Z,
        etaSeconds s = Some eta -> 0 < eta ->
        progressPhase s = Some ProgressPhase.transcribing
        /\ transcribeStartedAtRef s <> None
        /\ exists processed total : Z,
             processedChunks s = Some processed
             /\ totalChunks s = Some total
             /\ 1 <= processed <= total)
    /\ (etaCountdownRunning s = false -> etaSeconds (etaCountdown s) = Some 0).
Proof.
  intros s Hreach.
  destruct (reachable_displayConsistent s Hreach) as (_ & _ & He).
  split; [exact He|].
  intros Hidle.
  unfold etaCountdownRunning in Hidle. unfold etaCountdown. simpl.
  destruct (etaSeconds s) as [eta|] eqn:Heta.
  - destruct (Z.leb_spec eta 0) as [Hle|Hgt]; [reflexivity|].
    destruct (He eta eq_refl Hgt) as (Hphase & _).
    rewrite Hphase in Hidle.
    destruct (Z.ltb_spec 0 eta); [discriminate Hidle | lia].
  - reflexivity.
Qed.

Lemma estimate_only_with_completed_chunks_witness :
  let events :=
    [ev_mount;
     ev_message 0%nat 1000 1000
       (msg_progress (mkProgress ProgressPhase.transcribing (Double.ofZ 0) None
                                 (Some 0) (Some 8) None None None None None));
     ev_message 0%nat 8000 8000
       (msg_progress (mkProgress ProgressPhase.transcribing (Double.ofZ 25) None
                                 (Some 2) (Some 8) None None None None None));
     ev_eta_tick] in
  exists s,
    run events (initialState true) = Some s
    /\ etaSeconds s = Some 20
    /\ progressPhase s = Some ProgressPhase.transcribing.
Proof.
  intros events.
  destruct (run events (initialState true)) as [s|] eqn:Hrun;
    [|vm_compute in Hrun; discriminate Hrun].
  exists s.
  assert (Hreach : reachable s) by (exists true, events; exact Hrun).
  assert (Hs : Some s = run events (initialState true)) by (symmetry; exact Hrun).
  vm_compute in Hs. injection Hs as Hs.
  assert (Heta : etaSeconds s = Some 20) by (rewrite Hs; reflexivity).
  destruct (estimate_only_with_completed_chunks s Hreach) as (Hpos & _).
  destruct (Hpos 20 Heta ltac:(lia)) as (Hphase & _).
  split; [reflexivity|]. split; assumption.
Defined.

(** ** The worker in use along runs *)

Lemma refNotTerminated_frame s s' :
  workerRef s' = workerRef s -> terminated s' = terminated s ->
  refNotTerminated s -> refNotTerminated s'.
Proof. intros Hr Ht H. unfold refNotTerminated in *. now rewrite Hr, Ht. Qed.

Lemma refNotTerminated_initializeWorker s :
  wellFormed s -> refNotTerminated s -> refNotTerminated (initializeWorker s).
Proof.
  intros (_ & Hb & _) H. unfold initializeWorker.
  destruct (workerSupported s).
  - unfold refNotTerminated. simpl. intros w E Hin. injection E as <-.
    rewrite Forall_forall in Hb. specialize (Hb _ Hin). lia.
  - revert H. apply refNotTerminated_frame; reflexivity.
Qed.

Lemma refNotTerminated_terminateWorker s : refNotTerminated (terminateWorker s).
Proof.
  unfold terminateWorker, refNotTerminated.
  destruct (workerRef s) eqn:Hw; simpl; intros w E; [discriminate E|].
  rewrite Hw in E. discriminate E.
Qed.

Lemma refNotTerminated_cancelTranscription s :
  wellFormed s -> refNotTerminated (cancelTranscription s).
Proof.
  intros Hwf. unfold cancelTranscription.
  set (s1 := clearProgressState _).
  assert (H1 : wellFormed s1).
  { apply (wellFormed_frame s); [exact Hwf | repeat split | intros _; now split]. }
  clearbody s1.
  pose proof (wellFormed_terminateWorker s1 H1) as H2.
  pose proof (refNotTerminated_terminateWorker s1) as R2.
  generalize dependent (terminateWorker s1). intros s2 H2 R2.
  pose proof (refNotTerminated_initializeWorker s2 H2 R2) as R3.
  generalize dependent (initializeWorker s2). intros s3 R3.
  revert R3. apply refNotTerminated_frame; reflexivity.
Qed.

Lemma workersKept_react e s :
  wellFormed s /\ refNotTerminated s ->
  enabled e s = true ->
  wellFormed (react e s) /\ refNotTerminated (react e s).
Proof.
  intros [Hwf Href] Hen. split; [now apply wellFormed_react|].
  destruct e as [ | | worker c0 c1 message | worker message | | fileName | p d | | | | l];
    simpl react.
  - now apply refNotTerminated_initializeWorker.
  - apply refNotTerminated_terminateWorker.
  - destruct (handleWorkerMessage_samePlatform c0 c1 message s) as (Hr & _ & Ht & _).
    revert Href. now apply refNotTerminated_frame.
  - revert Href. apply refNotTerminated_frame; reflexivity.
  - now apply refNotTerminated_cancelTranscription.
  - pose proof (handleFileSelected_cases fileName s) as Hcases. cbv zeta in Hcases.
    assert (H0 : refNotTerminated
                   (if busyStatus (status s) then cancelTranscription s else s)).
    { destruct (busyStatus (status s));
        [now apply refNotTerminated_cancelTranscription | exact Href]. }
    revert H0 Hcases.
    generalize (if busyStatus (status s) then cancelTranscription s else s). intros s0 H0.
    generalize (handleFileSelected fileName s). intros s' Hcases.
    destruct Hcases as [[_ ->] | [(_ & _ & ->) | (w & _ & Hw & _ & _ & _ & Hr & _ & Ht & _)]].
    + exact Href.
    + revert H0. apply refNotTerminated_frame; reflexivity.
    + revert H0. apply refNotTerminated_frame; [now rewrite Hr, Hw | exact Ht].
  - unfold handleFileSelected_resume. simpl.
    destruct (negb (pd_requestId p =? activeRequestIdRef s));
      [revert Href; apply refNotTerminated_frame; reflexivity|].
    destruct (decodeAudioFile d); (revert Href; apply refNotTerminated_frame; reflexivity).
  - destruct (microtasks s) as [|t rest]; [exact Href|].
    destruct t; (revert Href; apply refNotTerminated_frame; reflexivity).
  - destruct (timeouts s) as [|[delay t] rest]; [exact Href|].
    destruct t; (revert Href; apply refNotTerminated_frame; reflexivity).
  - revert Href. apply refNotTerminated_frame; reflexivity.
  - revert Href. apply refNotTerminated_frame; reflexivity.
Qed.

Lemma reachable_refNotTerminated s : reachable s -> refNotTerminated s.
Proof.
  intros (supported & events & Hrun).
  refine (proj2 (run_invariant (fun s => wellFormed s /\ refNotTerminated s)
                   workersKept_react events _ _ _ Hrun)).
  split; [apply wellFormed_initialState|]. intros w E. discriminate E.
Qed.

(** X6. In every state of a run the worker the component holds exists and
    has not been terminated, and every worker a suspended submission holds
    has been created. *)
Theorem worker_in_use_is_live :
  forall s : State,
    reachable s ->
    (forall w, workerRef s = Some w -> workerLive w s = true)
    /\ (forall p, In p (awaiting s) -> (pd_worker p < workersCreated s)%nat).
Proof.
  intros s Hreach.
  pose proof (reachable_wellFormed s Hreach) as (Ha & _ & _ & Hd & _).
  pose proof (reachable_refNotTerminated s Hreach) as Href.
  split.
  - intros w Hw. unfold workerLive.
    destruct (Nat.ltb_spec w (workersCreated s)) as [_|Hge];
      [|specialize (Ha w Hw); lia].
    simpl. apply negb_true_iff.
    destruct (existsb (Nat.eqb w) (terminated s)) eqn:Hex; [|reflexivity].
    apply existsb_exists in Hex. destruct Hex as (x & Hin & Heq).
    apply Nat.eqb_eq in Heq. subst x. elim (Href w Hw Hin).
  - intros p Hin. rewrite Forall_forall in Hd. now apply Hd.
Qed.

Lemma worker_in_use_is_live_witness :
  let events :=
    [ev_mount;
     ev_message 0%nat 0 0
       (msg_progress (mkProgress ProgressPhase.download (Double.ofZ 40) None
                                 None None None None (Some 4) (Some 10) None));
     ev_cancel_click] in
  exists s,
    run events (initialState true) = Some s
    /\ workerRef s = Some 1%nat
    /\ workerLive 1 s = true.
Proof.
  intros events.
  destruct (run events (initialState true)) as [s|] eqn:Hrun;
    [|vm_compute in Hrun; discriminate Hrun].
  exists s.
  assert (Hreach : reachable s) by (exists true, events; exact Hrun).
  assert (Hs : Some s = run events (initialState true)) by (symmetry; exact Hrun).
  vm_compute in Hs. injection Hs as Hs.
  assert (Hw : workerRef s = Some 1%nat) by (rewrite Hs; reflexivity).
  destruct (worker_in_use_is_live s Hreach) as [Hlive _].
  split; [reflexivity|]. split; [exact Hw | exact (Hlive 1%nat Hw)].
Defined.

(** ** Request identifiers along runs *)

Lemma handleFileSelected_counter fileName s :
  activeRequestIdRef s <= activeRequestIdRef (handleFileSelected fileName s).
Proof.
  pose proof (handleFileSelected_cases fileName s) as Hcases. cbv zeta in Hcases.
  assert (H0 : activeRequestIdRef s
               <= activeRequestIdRef
                    (if busyStatus (status s) then cancelTranscription s else s)).
  { destruct (busyStatus (status s)); [|lia].
    destruct (cancelTranscription_requests s) as (Hc & _). lia. }
  revert H0 Hcases.
  generalize (if busyStatus (status s) then cancelTranscription s else s). intros s0 H0.
  generalize (handleFileSelected fileName s). intros s' Hcases.
  destruct Hcases as [[_ ->] | [(_ & _ & ->) | (w & _ & _ & Hc & _)]].
  - lia.
  - exact H0.
  - lia.
Qed.

Lemma react_counter e s : activeRequestIdRef s <= activeRequestIdRef (react e s).
Proof.
  destruct e as [ | | worker c0 c1 message | worker message | | fileName | p d | | | | l];
    simpl react.
  - unfold initializeWorker. destruct (workerSupported s); simpl; lia.
  - unfold terminateWorker. destruct (workerRef s); simpl; lia.
  - rewrite handleWorkerMessage_counter. lia.
  - simpl. lia.
  - destruct (cancelTranscription_requests s) as (Hc & _). lia.
  - apply handleFileSelected_counter.
  - unfold handleFileSelected_resume. simpl.
    destruct (negb (pd_requestId p =? activeRequestIdRef s)); [simpl; lia|].
    destruct (decodeAudioFile d); simpl; lia.
  - destruct (microtasks s) as [|t rest]; [lia|]. destruct t; simpl; lia.
  - destruct (timeouts s) as [|[delay t] rest]; [lia|]. destruct t; simpl; lia.
  - simpl. lia.
  - simpl. lia.
Qed.

Lemma run_counter events :
  forall s s', run events s = Some s' -> activeRequestIdRef s <= activeRequestIdRef s'.
Proof.
  induction events as [|e rest IH]; intros s s' Hrun; simpl in Hrun.
  - injection Hrun as <-. lia.
  - destruct (enabled e s); [|discriminate Hrun].
    pose proof (react_counter e s). specialize (IH _ _ Hrun). lia.
Qed.

(** X7. Along any run the request counter never decreases; hence a request
    identifier below the counter stays stale for ever, and every tagged
    message that the handler scopes by request (all but download-phase
    progress) stays without effect. *)
Theorem superseded_request_stays_superseded :
  forall (events : list Event) (s s' : State),
    run events s = Some s' ->
    activeRequestIdRef s <= activeRequestIdRef s'
    /\ forall rid : Z,
        rid < activeRequestIdRef s ->
        staleOptional (Some rid) s' = true
        /\ forall (clock0 clock1 : Z) (message : WorkerResponse),
            requestIdOf message = Some rid ->
            isDownloadProgress message = false ->
            handleWorkerMessage clock0 clock1 message s' = s'.
Proof.
  intros events s s' Hrun. pose proof (run_counter events s s' Hrun) as Hle.
  split; [exact Hle|]. intros rid Hlt.
  assert (Hneq : rid <> activeRequestIdRef s') by lia.
  split; [now apply staleOptional_tagged|].
  intros clock0 clock1 message Hid Hdl. now apply (stale_dropped _ _ _ _ rid).
Qed.

Lemma superseded_request_stays_superseded_witness :
  let before :=
    [ev_mount; ev_select_language auto; ev_file_selected "a.wav";
     ev_file_selected "b.wav"] in
  let after := [ev_select_language (whisper turkish); ev_file_selected "c.wav"] in
  exists s s',
    run before (initialState true) = Some s
    /\ run after s = Some s'
    /\ 1 < activeRequestIdRef s
    /\ handleWorkerMessage 0 0 (msg_result "from a" 1) s' = s'.
Proof.
  intros before after.
  destruct (run before (initialState true)) as [s|] eqn:Hrun;
    [|vm_compute in Hrun; discriminate Hrun].
  assert (Hs : Some s = run before (initialState true)) by (symmetry; exact Hrun).
  vm_compute in Hs. injection Hs as Hs.
  destruct (run after s) as [s'|] eqn:Hrun';
    [|rewrite Hs in Hrun'; vm_compute in Hrun'; discriminate Hrun'].
  exists s, s'.
  assert (Hlt : 1 < activeRequestIdRef s) by (rewrite Hs; reflexivity).
  destruct (superseded_request_stays_superseded after s s' Hrun') as [_ Hstale].
  destruct (Hstale 1 Hlt) as [_ Hdrop].
  split; [reflexivity|]. split; [exact Hrun'|]. split; [exact Hlt|].
  exact (Hdrop 0 0 (msg_result "from a" 1) eq_refl eq_refl).
Defined.

(** X8. In every state of a run no request identifier has been sent in two
    [transcribe] requests; the identifiers sent and the identifiers of the
    submissions still decoding are all between 1 and the counter, and no
    submission still decoding has already been sent. *)
Theorem request_identifiers_are_used_once :
  forall s : State,
    reachable s ->
    NoDup (transcribeIds (posted s))
    /\ NoDup (map pd_requestId (awaiting s))
    /\ (forall id, In id (transcribeIds (posted s)) ->
                   1 <= id <= activeRequestIdRef s
                   /\ ~ In id (map pd_requestId (awaiting s)))
    /\ (forall p, In p (awaiting s) -> 1 <= pd_requestId p <= activeRequestIdRef s).
Proof.
  intros s Hreach.
  destruct (reachable_requestsOrdered s Hreach) as (_ & Haw & Hnd & Hpo & Hpnd & Hdis).
  rewrite Forall_forall in Haw, Hpo.
  split; [exact Hpnd|]. split; [exact Hnd|]. split.
  - intros id Hin. split; [now apply Hpo | now apply Hdis].
  - exact Haw.
Qed.

Lemma request_identifiers_are_used_once_witness :
  let events :=
    [ev_mount; ev_select_language auto; ev_file_selected "a.wav";
     ev_decoded (mkPending 1 0 (Some auto))
                (decoded (mkAudioBuffer 1 [[Num 0%Qc]]) (ofZ 16000));
     ev_file_selected "b.wav";
     ev_decoded (mkPending 3 1 (Some auto))
                (decoded (mkAudioBuffer 1 [[Num 1%Qc]]) (ofZ 16000))] in
  exists s,
    run events (initialState true) = Some s
    /\ transcribeIds (posted s) = [1; 3]
    /\ NoDup (transcribeIds (posted s)).
Proof.
  intros events.
  destruct (run events (initialState true)) as [s|] eqn:Hrun;
    [|vm_compute in Hrun; discriminate Hrun].
  exists s.
  assert (Hreach : reachable s) by (exists true, events; exact Hrun).
  assert (Hs : Some s = run events (initialState true)) by (symmetry; exact Hrun).
  vm_compute in Hs. injection Hs as Hs.
  destruct (request_identifiers_are_used_once s Hreach) as (Hnd & _).
  split; [reflexivity|]. split; [rewrite Hs; reflexivity | exact Hnd].
Defined.

(** X9. A decode that completes after its submission was superseded does
    nothing at all: for a submission suspended in a state of a run, right
    after a cancellation, and in any state whose counter is beyond that
    state's, resuming it returns the state unchanged, whatever the decoder
    produced. *)
Theorem late_decode_is_ignored :
  forall (s : State) (p : PendingDecode),
    reachable s ->
    In p (awaiting s) ->
    (forall (r : option string + Float32Array),
        handleFileSelected_resume p r (cancelTranscription s) = cancelTranscription s)
    /\ (forall (s' : State) (r : option string + Float32Array),
           activeRequestIdRef s < activeRequestIdRef s' ->
           handleFileSelected_resume p r s' = s').
Proof.
  intros s p Hreach Hin.
  destruct (reachable_requestsOrdered s Hreach) as (_ & Haw & _).
  rewrite Forall_forall in Haw. specialize (Haw p Hin).
  assert (Hskip : forall s' r, activeRequestIdRef s < activeRequestIdRef s' ->
                               handleFileSelected_resume p r s' = s').
  { intros s' r Hlt. unfold handleFileSelected_resume.
    destruct (Z.eqb_spec (pd_requestId p) (activeRequestIdRef s')); [lia | reflexivity]. }
  split.
  - intros r. apply Hskip.
    destruct (cancelTranscription_requests s) as (Hc & _). lia.
  - intros s' r Hlt. now apply Hskip.
Qed.

Lemma late_decode_is_ignored_witness :
  let events := [ev_mount; ev_select_language auto; ev_file_selected "a.wav"] in
  let p := mkPending 1 0 (Some auto) in
  exists s,
    run events (initialState true) = Some s
    /\ In p (awaiting s)
    /\ handleFileSelected_resume p (inr [Num 0%Qc]) (cancelTranscription s)
       = cancelTranscription s.
Proof.
  intros events p.
  destruct (run events (initialState true)) as [s|] eqn:Hrun;
    [|vm_compute in Hrun; discriminate Hrun].
  exists s.
  assert (Hreach : reachable s) by (exists true, events; exact Hrun).
  assert (Hs : Some s = run events (initialState true)) by (symmetry; exact Hrun).
  vm_compute in Hs. injection Hs as Hs.
  assert (Hin : In p (awaiting s)) by (rewrite Hs; left; reflexivity).
  destruct (late_decode_is_ignored s p Hreach Hin) as [Hcancel _].
  split; [reflexivity|]. split; [exact Hin | exact (Hcancel (inr [Num 0%Qc]))].
Defined.

(** X10. While no language is selected a submitted file is ignored.  With
    a language selected, a file submitted while a session is in flight is
    always accepted: the session in flight is cancelled first, so the
    counter grows by two, the worker in use is terminated and replaced, the
    new submission waits for its decode under the new identifier on the
    new worker, the transcript is emptied and the status is [decoding]. *)
Theorem submission_during_session_supersedes :
  forall (s : State) (fileName : string),
    reachable s ->
    busyStatus (status s) = true ->
    let s' := handleFileSelected fileName s in
    (selectedLanguage s = None -> s' = s)
    /\ (selectedLanguage s <> None ->
        status s' = TranscriptionStatus.decoding
        /\ activeRequestIdRef s' = activeRequestIdRef s + 2
        /\ output s' = EmptyString
        /\ segments s' = []
        /\ error s' = None
        /\ activeFileName s' = Some fileName
        /\ progressCleared s'
        /\ workerRef s' = Some (workersCreated s)
        /\ workerLive (workersCreated s) s' = true
        /\ (forall old, workerRef s = Some old -> workerLive old s' = false)
        /\ awaiting s'
           = awaiting s ++ [mkPending (activeRequestIdRef s + 2) (workersCreated s)
                                      (selectedLanguage s)]
        /\ transcribeIds (posted s') = transcribeIds (posted s)).
Proof.
  intros s fileName Hreach Hbusy. cbv zeta.
  split; [intros E; unfold handleFileSelected; now rewrite E|].
  intros Hlang.
  pose proof (reachable_wellFormed s Hreach) as Hwf.
  assert (Hinv : cancelInvoked s = true).
  { unfold cancelInvoked. rewrite Hbusy.
    destruct (selectedLanguage s); [|now elim Hlang]. simpl. apply orb_true_r. }
  pose proof (cancelInvoked_supported s Hwf Hinv) as Hsup.
  pose proof (cancelTranscription_platform s Hsup) as Hplat. cbv zeta in Hplat.
  destruct Hplat as (Href & Hn & Hposted & Hterm).
  destruct (cancelTranscription_requests s) as (Hc & Ha & Hp).
  pose proof (handleFileSelected_cases fileName s) as Hcases. cbv zeta in Hcases.
  rewrite Hbusy in Hcases.
  generalize dependent (cancelTranscription s). intros s0 Href Hn Hposted Hterm Hc Ha Hp.
  generalize (handleFileSelected fileName s). intros s' Hcases.
  destruct Hcases as [[Hnone _] | [(_ & Hnone & _) | (w & _ & Hw & Hc' & Ha' & Hp' & Hr' & Hn' & Ht' & Hst & Hout & Hseg & Herr & Hname & Hclear)]].
  - now elim Hlang.
  - rewrite Href in Hnone. discriminate Hnone.
  - rewrite Href in Hw. injection Hw as <-.
    destruct Hwf as (Hwa & Hwb & _).
    split; [exact Hst|]. split; [lia|]. split; [exact Hout|]. split; [exact Hseg|].
    split; [exact Herr|]. split; [exact Hname|]. split; [exact Hclear|].
    split; [exact Hr'|]. split.
    { unfold workerLive. rewrite Hn', Hn, Ht', Hterm.
      destruct (Nat.ltb_spec (workersCreated s) (Datatypes.S (workersCreated s))); [|lia].
      rewrite existsb_eqb_false; [reflexivity|].
      apply Forall_app. split; [exact Hwb|].
      destruct (workerRef s) as [old|] eqn:Hold; constructor; [|constructor].
      now apply Hwa. }
    split.
    { intros old Hold. unfold workerLive. rewrite Ht', Hterm, Hold, existsb_app. simpl.
      rewrite Nat.eqb_refl, orb_true_r. apply andb_false_r. }
    split.
    { rewrite Ha', Ha, Hc. do 3 f_equal. lia. }
    now rewrite Hp', Hp.
Qed.

Lemma submission_during_session_supersedes_witness :
  let events := [ev_mount; ev_select_language auto; ev_file_selected "a.wav"] in
  exists s,
    run events (initialState true) = Some s
    /\ selectedLanguage s <> None
    /\ busyStatus (status s) = true
    /\ activeRequestIdRef s = 1
    /\ activeRequestIdRef (handleFileSelected "b.wav" s) = 3
    /\ workerRef (handleFileSelected "b.wav" s) = Some 1%nat.
Proof.
  intros events.
  destruct (run events (initialState true)) as [s|] eqn:Hrun;
    [|vm_compute in Hrun; discriminate Hrun].
  exists s.
  assert (Hreach : reachable s) by (exists true, events; exact Hrun).
  assert (Hs : Some s = run events (initialState true)) by (symmetry; exact Hrun).
  vm_compute in Hs. injection Hs as Hs.
  assert (Hlang : selectedLanguage s <> None) by (rewrite Hs; discriminate).
  assert (Hbusy : busyStatus (status s) = true) by (rewrite Hs; reflexivity).
  assert (Hid : activeRequestIdRef s = 1) by (rewrite Hs; reflexivity).
  assert (Hn : workersCreated s = 1%nat) by (rewrite Hs; reflexivity).
  pose proof (submission_during_session_supersedes s "b.wav" Hreach Hbusy) as H.
  cbv zeta in H. destruct H as [_ H].
  destruct (H Hlang) as (_ & Hc & _ & _ & _ & _ & _ & Hw & _).
  split; [reflexivity|]. split; [exact Hlang|]. split; [exact Hbusy|].
  split; [exact Hid|]. split; [rewrite Hc, Hid; reflexivity|].
  rewrite Hw, Hn. reflexivity.
Defined.

(** X11. On a platform without the [Worker] constructor every state of a run
    has no worker, nothing posted, nothing decoding and no session in
    flight; a file submitted with a language selected ends in the error
    ["Transcription worker is not available."] without anything being
    queued, and a file submitted while no language is selected is
    ignored. *)
Theorem no_worker_platform_rejects_submissions :
  forall s : State,
    reachable s ->
    workerSupported s = false ->
    workerRef s = None
    /\ posted s = []
    /\ awaiting s = []
    /\ busyStatus (status s) = false
    /\ forall fileName : string,
        let s' := handleFileSelected fileName s in
        (selectedLanguage s = None -> s' = s)
        /\ (selectedLanguage s <> None ->
            status s' = TranscriptionStatus.error
            /\ error s' = Some "Transcription worker is not available."%string
            /\ posted s' = []
            /\ awaiting s' = []
            /\ activeRequestIdRef s' = activeRequestIdRef s).
Proof.
  intros s Hreach Hsup.
  destruct (reachable_wellFormed s Hreach) as (_ & _ & Hc & Hd & He).
  destruct (He Hsup) as (Hn & Href & Hbusy & _).
  assert (Hposted : posted s = []).
  { destruct (posted s) as [|e l]; [reflexivity|].
    inversion Hc as [|? ? Hlt _]; subst. lia. }
  assert (Hawaiting : awaiting s = []).
  { destruct (awaiting s) as [|p l]; [reflexivity|].
    inversion Hd as [|? ? Hlt _]; subst. lia. }
  split; [exact Href|]. split; [exact Hposted|]. split; [exact Hawaiting|].
  split; [exact Hbusy|].
  intros fileName. cbv zeta.
  split; [intros E; unfold handleFileSelected; now rewrite E|].
  intros Hlang.
  pose proof (handleFileSelected_cases fileName s) as Hcases. cbv zeta in Hcases.
  rewrite Hbusy in Hcases.
  generalize dependent (handleFileSelected fileName s). intros s' Hcases.
  destruct Hcases as [[Hnone _] | [(_ & _ & ->) | (w & _ & Hw & _)]].
  - now elim Hlang.
  - simpl. repeat split; assumption.
  - rewrite Href in Hw. discriminate Hw.
Qed.

Lemma no_worker_platform_rejects_submissions_witness :
  let events := [ev_mount; ev_microtask; ev_select_language auto] in
  exists s,
    run events (initialState false) = Some s
    /\ workerSupported s = false
    /\ error s = Some "Web Workers are not supported in this browser."%string
    /\ error (handleFileSelected "a.wav" s)
       = Some "Transcription worker is not available."%string.
Proof.
  intros events.
  destruct (run events (initialState false)) as [s|] eqn:Hrun;
    [|vm_compute in Hrun; discriminate Hrun].
  exists s.
  assert (Hreach : reachable s) by (exists false, events; exact Hrun).
  assert (Hs : Some s = run events (initialState false)) by (symmetry; exact Hrun).
  vm_compute in Hs. injection Hs as Hs.
  assert (Hsup : workerSupported s = false) by (rewrite Hs; reflexivity).
  assert (Hlang : selectedLanguage s <> None) by (rewrite Hs; discriminate).
  destruct (no_worker_platform_rejects_submissions s Hreach Hsup) as (_ & _ & _ & _ & Hsub).
  destruct (Hsub "a.wav"%string) as [_ Hact].
  destruct (Hact Hlang) as (_ & Herr & _).
  split; [reflexivity|]. split; [exact Hsup|].
  split; [rewrite Hs; reflexivity | exact Herr].
Defined.

(** ** The normaliser keeps samples in range *)












(** ** Strings and numerals *)

Lemma length_append (a b : string) :
  String.length (a ++ b) = (String.length a + String.length b)%nat.
Proof. induction a as [|c a IH]; simpl; [reflexivity | now rewrite IH]. Qed.

(** Two concatenations with tails of equal length agree part by part. *)
Lemma append_inj_tail (a b c d : string) :
  String.length c = String.length d ->
  (a ++ c)%string = (b ++ d)%string -> a = b /\ c = d.
Proof.
  revert b. induction a as [|x a IH]; intros [|y b] Hlen E; simpl in E.
  - now split.
  - exfalso. apply (f_equal String.length) in E. simpl in E.
    rewrite length_append in E. lia.
  - exfalso. apply (f_equal String.length) in E. simpl in E.
    rewrite length_append in E. lia.
  - injection E as -> E. destruct (IH b Hlen E) as [-> ->]. now split.
Qed.

Lemma append_inj_head (a b c d : string) :
  String.length a = String.length b ->
  (a ++ c)%string = (b ++ d)%string -> a = b /\ c = d.
Proof.
  intros Hlen E. apply append_inj_tail; [|exact E].
  apply (f_equal String.length) in E. rewrite !length_append in E. lia.
Qed.

Lemma readZ_String_of_Z (z : Z) : readZ (String_of_Z z) = Some z.
Proof.
  unfold readZ, String_of_Z. rewrite NilEmpty.isi. simpl. now rewrite DecimalZ.of_to.
Qed.

Lemma String_of_Z_inj (x y : Z) : String_of_Z x = String_of_Z y -> x = y.
Proof.
  intros E. apply (f_equal readZ) in E. rewrite !readZ_String_of_Z in E. congruence.
Qed.

Lemma String_of_Z_nonneg (z : Z) :
  0 <= z -> exists d, String_of_Z z = NilEmpty.string_of_uint d /\ Z.of_uint d = z.
Proof.
  intros Hz. unfold String_of_Z.
  pose proof (DecimalZ.of_to z) as Hback.
  destruct z as [|p|p]; [| |lia].
  - exists Decimal.zero. split; [reflexivity | exact Hback].
  - exists (Pos.to_uint p). split; [reflexivity | exact Hback].
Qed.

Lemma readZ_leading_zero (d : Decimal.uint) :
  readZ (String "0" (NilEmpty.string_of_uint d)) = Some (Z.of_uint d).
Proof.
  unfold readZ. cbn [NilEmpty.int_of_string]. 
  change (Ascii.eqb "0" "-") with false. cbv iota.
  cbn [NilEmpty.uint_of_string]. rewrite NilEmpty.usu. reflexivity.
Qed.

(** A padded numeral reads back as the number. *)
Lemma readZ_padStart2 (z : Z) : 0 <= z -> readZ (padStart2 (String_of_Z z)) = Some z.
Proof.
  intros Hz. destruct (String_of_Z_nonneg z Hz) as (d & Hs & Hd).
  unfold padStart2.
  destruct (String.length (String_of_Z z)) as [|[|n]] eqn:Hlen.
  - rewrite Hs in Hlen. destruct d; simpl in Hlen; try discriminate Hlen.
    rewrite Hs. simpl in Hd. subst z. reflexivity.
  - simpl. rewrite Hs. rewrite readZ_leading_zero. now rewrite Hd.
  - simpl. apply readZ_String_of_Z.
Qed.

Lemma padStart2_inj (x y : Z) :
  0 <= x -> 0 <= y ->
  padStart2 (String_of_Z x) = padStart2 (String_of_Z y) -> x = y.
Proof.
  intros Hx Hy E. apply (f_equal readZ) in E.
  rewrite !readZ_padStart2 in E by assumption. congruence.
Qed.

Lemma padStart2_length (z : Z) :
  0 <= z < 100 -> String.length (padStart2 (String_of_Z z)) = 2%nat.
Proof.
  intros Hz.
  assert (Hall : forallb (fun k => Nat.eqb (String.length
                                     (padStart2 (String_of_Z (Z.of_nat k)))) 2)
                         (seq 0 100) = true) by (vm_compute; reflexivity).
  rewrite forallb_forall in Hall.
  specialize (Hall (Z.to_nat z)). rewrite Z2Nat.id in Hall by lia.
  apply Nat.eqb_eq, Hall, in_seq. lia.
Qed.

Lemma floorDiv_div (a b : Z) : 0 < b -> floorDiv a b = a / b.
Proof.
  intros Hb. unfold floorDiv, Math_floor.
  rewrite (Zdiv_Qdiv a b). apply Qfloor_comp.
  rewrite this_Qcdiv, !this_ofZ. reflexivity.
Qed.

(** ** Segment timestamps *)

Lemma append_assoc (a b c : string) : ((a ++ b) ++ c)%string = (a ++ (b ++ c))%string.
Proof. induction a as [|x a IH]; simpl; [reflexivity | now rewrite IH]. Qed.

Lemma formatSegmentTimestamp_fields (seconds : Qc) :
  let safeSeconds := Z.max 0 (Math_floor seconds) in
  formatSegmentTimestamp seconds
  = renderClock (safeSeconds / 3600) ((safeSeconds mod 3600) / 60) (safeSeconds mod 60).
Proof.
  intros safeSeconds. unfold formatSegmentTimestamp, renderClock. fold safeSeconds.
  assert (Hsafe : 0 <= safeSeconds) by (unfold safeSeconds; lia).
  rewrite !floorDiv_div by lia.
  rewrite !Z.rem_mod_nonneg by lia.
  destruct (0 <? safeSeconds / 3600); [|reflexivity].
  now rewrite append_assoc.
Qed.

Lemma renderClock_inj (h1 m1 s1 h2 m2 s2 : Z) :
  0 <= h1 -> 0 <= m1 < 60 -> 0 <= s1 < 60 ->
  0 <= h2 -> 0 <= m2 < 60 -> 0 <= s2 < 60 ->
  renderClock h1 m1 s1 = renderClock h2 m2 s2 ->
  h1 = h2 /\ m1 = m2 /\ s1 = s2.
Proof.
  intros Hh1 Hm1 Hs1 Hh2 Hm2 Hs2 E. unfold renderClock in E.
  assert (Hlen : forall m s, 0 <= m < 60 -> 0 <= s < 60 ->
            String.length (padStart2 (String_of_Z m) ++ ":" ++ padStart2 (String_of_Z s))
            = 5%nat).
  { intros m s Hm Hs. rewrite !length_append, !padStart2_length by lia. reflexivity. }
  apply append_inj_tail in E; [|now rewrite !Hlen].
  destruct E as [Ehead Etail].
  apply append_inj_head in Etail; [|rewrite !padStart2_length by lia; reflexivity].
  destruct Etail as [Em Es]. injection Es as Es.
  apply padStart2_inj in Em; [|lia|lia]. apply padStart2_inj in Es; [|lia|lia].
  split; [|now split].
  destruct (Z.ltb_spec 0 h1), (Z.ltb_spec 0 h2).
  - apply append_inj_tail in Ehead; [|reflexivity].
    destruct Ehead as [Eh _]. now apply padStart2_inj in Eh.
  - exfalso. destruct (padStart2 (String_of_Z h1)); discriminate Ehead.
  - exfalso. destruct (padStart2 (String_of_Z h2)); discriminate Ehead.
  - lia.
Qed.

(** X16. Segment timestamps are unambiguous: two instants get the same
    label exactly when they fall into the same whole second (a negative
    instant counting as zero); below one hour the label is five
    characters, [MM:SS]. *)
Theorem formatSegmentTimestamp_identifies_the_second :
  forall a b : Qc,
    (formatSegmentTimestamp a = formatSegmentTimestamp b
     <-> Z.max 0 (Math_floor a) = Z.max 0 (Math_floor b))
    /\ (Math_floor a < 3600 -> String.length (formatSegmentTimestamp a) = 5%nat).
Proof.
  intros a b. split; [split|].
  - intros E. rewrite !formatSegmentTimestamp_fields in E. cbv zeta in E.
    set (x := Z.max 0 (Math_floor a)) in *. set (y := Z.max 0 (Math_floor b)) in *.
    assert (Hx : 0 <= x) by (unfold x; lia).
    assert (Hy : 0 <= y) by (unfold y; lia).
    apply renderClock_inj in E.
    + destruct E as (Eh & Em & Es).
      pose proof (Z.div_mod x 3600). pose proof (Z.div_mod y 3600).
      pose proof (Z.div_mod (x mod 3600) 60). pose proof (Z.div_mod (y mod 3600) 60).
      assert (Hxs : (x mod 3600) mod 60 = x mod 60).
      { apply Z.mod_mod_divide. now exists 60. }
      assert (Hys : (y mod 3600) mod 60 = y mod 60).
      { apply Z.mod_mod_divide. now exists 60. }
      lia.
    + apply Z.div_pos; lia.
    + pose proof (Z.mod_pos_bound x 3600). split; [apply Z.div_pos; lia|].
      apply Z.div_lt_upper_bound; lia.
    + apply Z.mod_pos_bound. lia.
    + apply Z.div_pos; lia.
    + pose proof (Z.mod_pos_bound y 3600). split; [apply Z.div_pos; lia|].
      apply Z.div_lt_upper_bound; lia.
    + apply Z.mod_pos_bound. lia.
  - intros E. unfold formatSegmentTimestamp. now rewrite E.
  - intros Hlt. rewrite formatSegmentTimestamp_fields. cbv zeta.
    set (x := Z.max 0 (Math_floor a)).
    assert (Hx : 0 <= x < 3600) by (unfold x; lia).
    unfold renderClock. rewrite Z.div_small by lia.
    change (0 <? 0) with false. cbv iota. change (("" ++ ?s)%string) with s.
    rewrite Z.mod_small by lia.
    assert (Hm : 0 <= x / 60 < 100).
    { split; [apply Z.div_pos; lia | apply Z.div_lt_upper_bound; lia]. }
    assert (Hs : 0 <= x mod 60 < 100).
    { pose proof (Z.mod_pos_bound x 60). lia. }
    rewrite length_append, (padStart2_length _ Hm).
    rewrite length_append, (padStart2_length _ Hs). reflexivity.
Qed.

Lemma formatSegmentTimestamp_identifies_the_second_witness :
  formatSegmentTimestamp (Q2Qc (5 # 2)) = formatSegmentTimestamp (ofZ 2)
  /\ String.length (formatSegmentTimestamp (ofZ 3599)) = 5%nat.
Proof.
  destruct (formatSegmentTimestamp_identifies_the_second (Q2Qc (5 # 2)) (ofZ 2))
    as [[_ Hsame] _].
  destruct (formatSegmentTimestamp_identifies_the_second (ofZ 3599) (ofZ 0))
    as [_ Hlen].
  split; [apply Hsame; reflexivity | apply Hlen; reflexivity].
Defined.

(** ** File name timestamps *)

Ltac split_padded E H :=
  apply append_inj_head in E;
  [ destruct E as [H E] | rewrite !padStart2_length by lia; reflexivity ].

(** X17. The timestamp of a download's file name determines the clock
    reading it was made from, second by second: two valid dates with the
    same stamp are the same date; with a four-digit year the stamp is the
    19 characters [YYYY-MM-DD-HH-MM-SS]. *)
Theorem timestampForFilename_identifies_the_date :
  forall d1 d2 : DateParts,
    validDate d1 -> validDate d2 ->
    (timestampForFilename d1 = timestampForFilename d2 -> d1 = d2)
    /\ (1000 <= getFullYear d1 <= 9999 ->
        String.length (timestampForFilename d1) = 19%nat).
Proof.
  intros [y1 mo1 da1 h1 mi1 s1] [y2 mo2 da2 h2 mi2 s2].
  unfold validDate, timestampForFilename. simpl.
  intros (Hy1 & Hmo1 & Hda1 & Hh1 & Hmi1 & Hs1) (Hy2 & Hmo2 & Hda2 & Hh2 & Hmi2 & Hs2).
  split.
  - intros E.
    apply append_inj_tail in E.
    2:{ simpl. rewrite !length_append. simpl. rewrite !length_append. simpl.
        rewrite !length_append. simpl. rewrite !length_append. simpl.
        rewrite !padStart2_length by lia. reflexivity. }
    destruct E as [Ey E]. apply String_of_Z_inj in Ey.
    injection E as E. split_padded E Emo.
    injection E as E. split_padded E Eda.
    injection E as E. split_padded E Eh.
    injection E as E. split_padded E Emi.
    injection E as E.
    apply padStart2_inj in Emo; [|lia|lia]. apply padStart2_inj in Eda; [|lia|lia].
    apply padStart2_inj in Eh; [|lia|lia]. apply padStart2_inj in Emi; [|lia|lia].
    apply padStart2_inj in E; [|lia|lia].
    subst. f_equal. lia.
  - intros Hyear.
    assert (Hall : forallb (fun k => Nat.eqb (String.length (String_of_Z (Z.of_nat k))) 4)
                           (seq (Z.to_nat 1000) (Z.to_nat 9000)) = true)
      by (vm_compute; reflexivity).
    rewrite forallb_forall in Hall.
    specialize (Hall (Z.to_nat y1)). rewrite Z2Nat.id in Hall by lia.
    assert (Hlen : String.length (String_of_Z y1) = 4%nat).
    { apply Nat.eqb_eq, Hall, in_seq. lia. }
    rewrite length_append, Hlen. simpl.
    rewrite length_append, padStart2_length by lia. simpl.
    rewrite length_append, padStart2_length by lia. simpl.
    rewrite length_append, padStart2_length by lia. simpl.
    rewrite length_append, padStart2_length by lia. simpl.
    rewrite padStart2_length by lia. reflexivity.
Qed.

Lemma timestampForFilename_identifies_the_date_witness :
  let d := mkDate 2026 10 3 4 5 6 in
  validDate d
  /\ timestampForFilename d = "2026-11-03-04-05-06"%string
  /\ String.length (timestampForFilename d) = 19%nat.
Proof.
  intros d.
  assert (Hvalid : validDate d) by (unfold validDate, d; simpl; lia).
  destruct (timestampForFilename_identifies_the_date d d Hvalid Hvalid) as [_ Hlen].
  split; [exact Hvalid|]. split; [reflexivity|].
  apply Hlen. unfold d. simpl. lia.
Defined.

(** ** The estimate label *)

Lemma Math_round_quotient (a b : Z) :
  0 < b -> Math_round (ofZ a / ofZ b)%Qc = (2 * a + b) / (2 * b).
Proof.
  intros Hb. unfold Math_round.
  rewrite (Zdiv_Qdiv (2 * a + b) (2 * b)). apply Qfloor_comp.
  rewrite this_Qcplus, this_Qcdiv, !this_ofZ.
  assert (Hhalf : (this half == 1 # 2)%Q) by reflexivity.
  rewrite Hhalf, inject_Z_plus, !inject_Z_mult.
  assert (Hbq : ~ (inject_Z b == 0)%Q).
  { change 0%Q with (inject_Z 0). rewrite inject_Z_injective. lia. }
  change (inject_Z 2) with 2%Q. field. exact Hbq.
Qed.

Lemma roughAudioMinutes_known (s : State) (total : Z) :
  totalChunks s = Some total -> 1 <= total ->
  exists minutes, roughAudioMinutes s = Some minutes /\ 1 <= minutes
                  /\ minutes = (40 * total + 80) / 120.
Proof.
  intros Ht Hpos. unfold roughAudioMinutes. rewrite Ht.
  destruct (Z.ltb_spec 0 total); [|lia].
  eexists. split; [reflexivity|].
  rewrite Math_round_quotient by lia.
  replace (2 * ((total - 1) * 20 + 30) + 60) with (40 * total + 80) by lia.
  change (2 * 60) with 120. split; [|reflexivity].
  apply Z.div_le_lower_bound; lia.
Qed.

Lemma rough_range (minutes : Z) :
  1 <= minutes -> 1 <= roughLow minutes < roughHigh minutes.
Proof.
  intros Hm. unfold roughLow, roughHigh.
  rewrite !Math_round_quotient by lia.
  change (2 * 5) with 10. change (2 * 2) with 4.
  pose proof (Z.div_mod (2 * minutes + 5) 10).
  pose proof (Z.mod_pos_bound (2 * minutes + 5) 10).
  pose proof (Z.div_mod (2 * minutes + 2) 4).
  pose proof (Z.mod_pos_bound (2 * minutes + 2) 4).
  lia.
Qed.

(** X18. While the phase is [transcribing] an estimate label is always
    shown.  Before the first chunk completes and with a known positive
    chunk total it is the coarse range, whose ends satisfy
    [1 <= low < high]; at an estimate of zero or less it reads
    "finishing", otherwise it shows the remaining time as a timestamp.
    Outside the phase there is no label. *)
Theorem etaLabel_always_informative :
  forall s : State,
    (progressPhase s = Some ProgressPhase.transcribing -> etaLabel s <> None)
    /\ (progressPhase s <> Some ProgressPhase.transcribing -> etaLabel s = None)
    /\ (forall total : Z,
           progressPhase s = Some ProgressPhase.transcribing ->
           etaSeconds s = None ->
           totalChunks s = Some total -> 1 <= total ->
           exists minutes : Z,
             roughAudioMinutes s = Some minutes
             /\ 1 <= minutes
             /\ 1 <= roughLow minutes < roughHigh minutes
             /\ etaLabel s
                = Some ("Audio length ~" ++ String_of_Z minutes
                        ++ " min — estimated processing time: "
                        ++ String_of_Z (roughLow minutes) ++ "–"
                        ++ String_of_Z (roughHigh minutes) ++ " min")%string)
    /\ (forall eta : Z,
           progressPhase s = Some ProgressPhase.transcribing ->
           etaSeconds s = Some eta ->
           etaLabel s
           = Some (if eta <=? 0 then "Estimated time: finishing..."%string
                   else ("Estimated remaining: "
                         ++ formatSegmentTimestamp (ofZ eta))%string)).
Proof.
  intros s. split; [|split; [|split]].
  - intros Hphase. unfold etaLabel. rewrite Hphase.
    destruct (etaSeconds s) as [eta|].
    + destruct (eta <=? 0); discriminate.
    + destruct (roughAudioMinutes s) as [minutes|]; [|discriminate].
      destruct (0 <? minutes); discriminate.
  - intros Hphase. unfold etaLabel.
    destruct (progressPhase s) as [[|]|]; try reflexivity. now elim Hphase.
  - intros total Hphase Heta Ht Hpos.
    destruct (roughAudioMinutes_known s total Ht Hpos) as (minutes & Hr & Hm & _).
    exists minutes. split; [exact Hr|]. split; [exact Hm|].
    split; [now apply rough_range|].
    unfold etaLabel. rewrite Hphase, Heta, Hr.
    destruct (Z.ltb_spec 0 minutes); [reflexivity | lia].
  - intros eta Hphase Heta. unfold etaLabel. rewrite Hphase, Heta.
    destruct (eta <=? 0); reflexivity.
Qed.

Lemma etaLabel_always_informative_witness :
  let s := setTotalChunks (Some 5)
             (setProgressPhase (Some ProgressPhase.transcribing) (initialState true)) in
  progressPhase s = Some ProgressPhase.transcribing
  /\ etaLabel s
     = Some "Audio length ~2 min — estimated processing time: 1–2 min"%string.
Proof.
  intros s.
  assert (Hphase : progressPhase s = Some ProgressPhase.transcribing) by reflexivity.
  split; [exact Hphase|].
  destruct (etaLabel_always_informative s) as (_ & _ & Hrough & _).
  destruct (Hrough 5 Hphase eq_refl eq_refl) as (minutes & Hr & _ & _ & Hlabel); [lia|].
  rewrite Hlabel.
  assert (E : minutes = 2) by (vm_compute in Hr; congruence).
  subst minutes. vm_compute. reflexivity.
Defined.

(** ** Trimming *)

Lemma trimStart_fixed (s : string) : startsWhite s = false -> trimStart s = s.
Proof.
  destruct s as [|a [|b [|c rest3]]]; simpl; intros H; try reflexivity.
  - rewrite orb_false_r in H. now rewrite H.
  - apply orb_false_iff in H. destruct H as [H1 H2]. rewrite orb_false_r in H2.
    now rewrite H1, H2.
  - apply orb_false_iff in H. destruct H as [H1 H2].
    apply orb_false_iff in H2. destruct H2 as [H2 H3].
    now rewrite H1, H2, H3.
Qed.

Lemma trimStart_unfold (s : string) :
  trimStart s
  = match s with
    | String a rest =>
        if white1 a then trimStart rest
        else match rest with
             | String b rest2 =>
                 if white2 a b then trimStart rest2
                 else match rest2 with
                      | String c rest3 => if white3 a b c then trimStart rest3 else s
                      | EmptyString => s
                      end
             | EmptyString => s
             end
    | EmptyString => EmptyString
    end.
Proof. destruct s; reflexivity. Qed.

(** What [trimStart] returns does not begin with white space. *)
Lemma trimStart_clean (s : string) : startsWhite (trimStart s) = false.
Proof.
  remember (String.length s) as n eqn:Hn.
  revert s Hn. induction n as [n IH] using lt_wf_ind. intros s Hn.
  rewrite trimStart_unfold.
  destruct s as [|a rest]; [reflexivity|].
  destruct (white1 a) eqn:H1.
  { apply (IH (String.length rest)); [subst n; simpl; lia | reflexivity]. }
  destruct rest as [|b rest2]; [simpl; now rewrite H1|].
  destruct (white2 a b) eqn:H2.
  { apply (IH (String.length rest2)); [subst n; simpl; lia | reflexivity]. }
  destruct rest2 as [|c rest3]; [simpl; now rewrite H1, H2|].
  destruct (white3 a b c) eqn:H3.
  { apply (IH (String.length rest3)); [subst n; simpl; lia | reflexivity]. }
  simpl. now rewrite H1, H2, H3.
Qed.

Lemma trimStart_idempotent (s : string) : trimStart (trimStart s) = trimStart s.
Proof. apply trimStart_fixed, trimStart_clean. Qed.

Lemma blank_not_startsWhite (s : string) :
  startsWhite s = false -> blank s = negb (nonEmpty s).
Proof. intros H. unfold blank. now rewrite trimStart_fixed. Qed.

(** [trimEnd] keeps a prefix: it does not create a white-space start. *)
Lemma trimEnd_clean_start (s : string) :
  startsWhite s = false -> startsWhite (trimEnd s) = false.
Proof.
  destruct s as [|a rest]; [reflexivity|].
  intros H. simpl trimEnd. destruct (blank (String a rest)); [reflexivity|].
  destruct rest as [|b rest2].
  { simpl in *. exact H. }
  simpl trimEnd. destruct (blank (String b rest2)).
  { simpl in *. apply orb_false_iff in H. destruct H as [H1 _]. now rewrite H1. }
  destruct rest2 as [|c rest3].
  { simpl in *. exact H. }
  simpl trimEnd. destruct (blank (String c rest3)).
  { simpl in *. apply orb_false_iff in H. destruct H as [H1 H2].
    apply orb_false_iff in H2. destruct H2 as [H2 _]. now rewrite H1, H2. }
  simpl in *. exact H.
Qed.

Lemma trimEnd_nonEmpty (s : string) :
  startsWhite s = false -> nonEmpty (trimEnd s) = nonEmpty s.
Proof.
  intros H. destruct s as [|a rest]; [reflexivity|].
  simpl trimEnd. rewrite (blank_not_startsWhite _ H). reflexivity.
Qed.

(** Trimming twice finds text exactly when trimming once does. *)
Lemma trim_trim_nonEmpty (s : string) : nonEmpty (trim (trim s)) = nonEmpty (trim s).
Proof.
  unfold trim at 1.
  pose proof (trimStart_clean s) as Hclean.
  pose proof (trimEnd_clean_start _ Hclean) as Hclean'. fold (trim s) in Hclean'.
  rewrite (trimStart_fixed _ Hclean'). now apply trimEnd_nonEmpty.
Qed.

Lemma trim_bracket (rest : string) :
  nonEmpty (trim (String "[" rest)) = true.
Proof.
  assert (H : startsWhite (String "[" rest) = false).
  { destruct rest as [|b [|c rest3]]; reflexivity. }
  unfold trim. rewrite (trimStart_fixed _ H). now rewrite trimEnd_nonEmpty.
Qed.

Lemma trim_empty_iff_blank (s : string) : nonEmpty (trim s) = negb (blank s).
Proof.
  unfold trim, blank. rewrite trimEnd_nonEmpty by apply trimStart_clean.
  now rewrite negb_involutive.
Qed.

(** ** Joined text *)

Lemma nonEmpty_append (a b : string) : nonEmpty a = true -> nonEmpty (a ++ b) = true.
Proof. destruct a; [discriminate | reflexivity]. Qed.

Lemma join_cons (separator p : string) (rest : list string) :
  join separator (p :: rest)
  = match rest with
    | [] => p
    | _ :: _ => (p ++ separator ++ join separator rest)%string
    end.
Proof. destruct rest; reflexivity. Qed.

Lemma join_nonEmpty (separator : string) (parts : list string) :
  Forall (fun p => nonEmpty p = true) parts ->
  nonEmpty (join separator parts) = negb (Nat.eqb (List.length parts) 0).
Proof.
  intros H. destruct H as [|p rest Hp _]; [reflexivity|].
  rewrite join_cons. destruct rest; [exact Hp | now apply nonEmpty_append].
Qed.

Lemma nonEmpty_false (s : string) : nonEmpty s = false <-> s = EmptyString.
Proof. destruct s; simpl; split; congruence. Qed.

(** The non-blank trimmed segment texts, in order. *)
Lemma plain_parts_nonEmpty (segs : list TranscriptSegment) :
  Forall (fun p => nonEmpty p = true)
         (filter nonEmpty (map (fun segment => trim (seg_text segment)) segs)).
Proof. apply Forall_forall. intros p Hp. now apply filter_In in Hp. Qed.

Lemma plain_parts_nil (segs : list TranscriptSegment) :
  filter nonEmpty (map (fun segment => trim (seg_text segment)) segs) = []
  <-> Forall (fun segment => blank (seg_text segment) = true) segs.
Proof.
  induction segs as [|seg segs IH]; simpl; [split; constructor|].
  rewrite trim_empty_iff_blank.
  destruct (blank (seg_text seg)) eqn:Hb; simpl.
  - rewrite IH. split; [now constructor | now inversion 1].
  - split; [discriminate|]. inversion 1; congruence.
Qed.

(** X19. With at least one segment the plain-text export is built from the
    segments alone: it ignores the output text, and it is empty exactly
    when every segment text is blank, even while the output text is not.
    Without segments it is the trimmed output text. *)
Theorem plainTextExport_from_segments :
  forall s : State,
    (segments s = [] -> plainTextExport s = trim (output s))
    /\ (segments s <> [] ->
        (plainTextExport s = EmptyString
         <-> Forall (fun segment => blank (seg_text segment) = true) (segments s))
        /\ forall text : string, plainTextExport (setOutput text s) = plainTextExport s).
Proof.
  intros s. unfold plainTextExport. split.
  - intros ->. reflexivity.
  - intros Hne. destruct (segments s) as [|seg segs] eqn:Hsegs; [now elim Hne|].
    split; [|intros text; simpl; now rewrite Hsegs].
    rewrite <- plain_parts_nil, <- nonEmpty_false.
    rewrite (join_nonEmpty _ _ (plain_parts_nonEmpty (seg :: segs))).
    destruct (filter nonEmpty _); simpl; split; congruence.
Qed.

Lemma plainTextExport_from_segments_witness :
  let s := setOutput "hello" (setSegments [mkSegment "  " 0%Qc 1%Qc] (initialState true)) in
  segments s <> [] /\ plainTextExport s = EmptyString /\ output s = "hello"%string.
Proof.
  intros s.
  assert (Hne : segments s <> []) by discriminate.
  destruct (plainTextExport_from_segments s) as [_ Hsegs].
  destruct (Hsegs Hne) as [Hempty _].
  split; [exact Hne|]. split; [|reflexivity].
  apply Hempty. repeat constructor.
Defined.

Lemma timestamped_bracket (seg : TranscriptSegment) (segs : list TranscriptSegment) :
  exists rest, join newline (map timestampedLine (seg :: segs)) = String "[" rest.
Proof.
  simpl map. rewrite join_cons.
  destruct (map timestampedLine segs); unfold timestampedLine; eexists; reflexivity.
Qed.

Lemma hasExportContent_content (s : State) :
  hasExportContent s = true <-> segments s <> [] \/ blank (output s) = false.
Proof.
  unfold hasExportContent, plainTextExport, timestampedExport.
  destruct (segments s) as [|seg segs] eqn:Hsegs.
  - rewrite orb_diag, trim_trim_nonEmpty, trim_empty_iff_blank.
    destruct (blank (output s)); simpl; split; intros H;
      try discriminate H; try (now right); try reflexivity.
    destruct H as [H | H]; [now elim H | discriminate H].
  - destruct (timestamped_bracket seg segs) as (rest & ->).
    rewrite trim_bracket, orb_true_r. split; [intros _; left; discriminate | reflexivity].
Qed.

(** X20. Export is offered exactly when there is at least one segment or the
    output text is not blank; in particular any delivered segment, even a
    blank one, makes the export available. *)
Theorem hasExportContent_iff :
  forall s : State,
    hasExportContent s = true <-> segments s <> [] \/ blank (output s) = false.
Proof. intros s. apply hasExportContent_content. Qed.

Lemma hasExportContent_iff_witness :
  let s := setSegments [mkSegment "  " 0%Qc 1%Qc] (initialState true) in
  segments s <> [] /\ hasExportContent s = true /\ plainTextExport s = EmptyString.
Proof.
  intros s.
  assert (Hne : segments s <> []) by discriminate.
  split; [exact Hne|]. split; [|reflexivity].
  apply (proj2 (hasExportContent_iff s)). left. exact Hne.
Defined.

(** ** Lines of the timestamped export *)

Lemma hasNewline_append (a b : string) :
  hasNewline (a ++ b) = hasNewline a || hasNewline b.
Proof.
  induction a as [|x a IH]; simpl; [reflexivity|]. rewrite IH. apply orb_assoc.
Qed.

Lemma hasNewline_uint (d : Decimal.uint) : hasNewline (NilEmpty.string_of_uint d) = false.
Proof. induction d; simpl; trivial. Qed.

Lemma hasNewline_String_of_Z (z : Z) : hasNewline (String_of_Z z) = false.
Proof.
  unfold String_of_Z. destruct (Z.to_int z); simpl; apply hasNewline_uint.
Qed.

Lemma hasNewline_padStart2 (z : Z) : hasNewline (padStart2 (String_of_Z z)) = false.
Proof.
  unfold padStart2. rewrite hasNewline_append, hasNewline_String_of_Z.
  destruct (2 - String.length (String_of_Z z))%nat as [|[|[|n]]] eqn:E; try reflexivity.
  lia.
Qed.

Lemma hasNewline_formatSegmentTimestamp (seconds : Qc) :
  hasNewline (formatSegmentTimestamp seconds) = false.
Proof.
  rewrite formatSegmentTimestamp_fields. cbv zeta. unfold renderClock.
  destruct (0 <? _);
    rewrite ?hasNewline_append, ?hasNewline_padStart2; reflexivity.
Qed.

Lemma hasNewline_timestampedLine (seg : TranscriptSegment) :
  hasNewline (timestampedLine seg) = hasNewline (seg_text seg).
Proof.
  unfold timestampedLine. simpl.
  rewrite hasNewline_append, hasNewline_formatSegmentTimestamp. reflexivity.
Qed.

Lemma splitLines_single (line : string) :
  hasNewline line = false -> splitLines line = [line].
Proof.
  induction line as [|a line IH]; simpl; [reflexivity|].
  intros H. apply orb_false_iff in H. destruct H as [Ha Hl].
  rewrite Ha, (IH Hl). reflexivity.
Qed.

Lemma splitLines_append (line rest : string) :
  hasNewline line = false ->
  splitLines (line ++ newline ++ rest) = line :: splitLines rest.
Proof.
  induction line as [|a line IH]; simpl; [reflexivity|].
  intros H. apply orb_false_iff in H. destruct H as [Ha Hl].
  rewrite Ha. simpl in IH. rewrite (IH Hl). reflexivity.
Qed.

Lemma splitLines_join (lines : list string) :
  lines <> [] ->
  Forall (fun line => hasNewline line = false) lines ->
  splitLines (join newline lines) = lines.
Proof.
  intros Hne H. induction H as [|line rest Hline Hrest IH]; [now elim Hne|].
  rewrite join_cons. destruct rest as [|line2 rest].
  - now apply splitLines_single.
  - rewrite splitLines_append by exact Hline. f_equal. apply IH. discriminate.
Qed.

(** X21. Without segments the timestamped export is the trimmed output
    text.  With at least one segment, and no line break inside a segment
    text, it has exactly one line per segment, in order, each consisting
    of the bracketed timestamp of the segment's start, a space and the
    segment's text as received. *)
Theorem timestampedExport_one_line_per_segment :
  forall s : State,
    (segments s = [] -> timestampedExport s = trim (output s))
    /\ (segments s <> [] ->
        Forall (fun segment => hasNewline (seg_text segment) = false) (segments s) ->
        splitLines (timestampedExport s) = map timestampedLine (segments s)
        /\ List.length (splitLines (timestampedExport s)) = List.length (segments s)).
Proof.
  intros s. split.
  { intros E. unfold timestampedExport. now rewrite E. }
  intros Hne Hall.
  assert (E : splitLines (timestampedExport s) = map timestampedLine (segments s)).
  { unfold timestampedExport. destruct (segments s) as [|seg segs] eqn:Hsegs; [now elim Hne|].
    apply splitLines_join; [discriminate|].
    apply Forall_forall. intros line Hin. apply in_map_iff in Hin.
    destruct Hin as (x & <- & Hx). rewrite hasNewline_timestampedLine.
    rewrite Forall_forall in Hall. now apply Hall. }
  split; [exact E|]. now rewrite E, length_map.
Qed.

Lemma timestampedExport_one_line_per_segment_witness :
  let s := setSegments [mkSegment "one" 0%Qc 1%Qc; mkSegment " two" (ofZ 61) (ofZ 62)]
                       (initialState true) in
  splitLines (timestampedExport s) = ["[00:00] one"%string; "[01:01]  two"%string].
Proof.
  intros s.
  assert (Hne : segments s <> []) by discriminate.
  assert (Hall : Forall (fun segment => hasNewline (seg_text segment) = false) (segments s)).
  { repeat constructor. }
  destruct (proj2 (timestampedExport_one_line_per_segment s) Hne Hall) as [Hlines _].
  rewrite Hlines. vm_compute. reflexivity.
Defined.

(** ** Export actions *)

Lemma white2_space (a : ascii) : white2 a " " = false.
Proof.
  unfold white2. change (N_of_ascii " ") with 32%N. apply andb_false_r.
Qed.

Lemma white3_space_mid (a c : ascii) : white3 a " " c = false.
Proof.
  unfold white3. cbv zeta. change (N_of_ascii " ") with 32%N.
  change (32 =? 154)%N with false. change (32 =? 128)%N with false.
  change (32 =? 129)%N with false.
  rewrite ?andb_false_r, ?andb_false_l. reflexivity.
Qed.

Lemma white3_space_last (a b : ascii) : white3 a b " " = false.
Proof.
  unfold white3. cbv zeta. change (N_of_ascii " ") with 32%N.
  change (32 =? 128)%N with false. change (32 =? 159)%N with false.
  change (32 =? 168)%N with false. change (32 =? 169)%N with false.
  change (32 =? 175)%N with false. change (128 <=? 32)%N with false.
  rewrite ?andb_false_r, ?andb_false_l. reflexivity.
Qed.

Lemma startsWhite_append_space (p rest : string) :
  nonEmpty p = true -> startsWhite p = false ->
  startsWhite (p ++ String " " rest) = false.
Proof.
  intros Hp Hclean.
  destruct p as [|a [|b [|c p3]]]; [discriminate Hp | | | exact Hclean].
  - simpl in Hclean. rewrite orb_false_r in Hclean.
    change (startsWhite (String a (String " " rest)) = false).
    unfold startsWhite. rewrite Hclean, white2_space.
    destruct rest; [reflexivity|]. now rewrite white3_space_mid.
  - simpl in Hclean. apply orb_false_iff in Hclean. destruct Hclean as [H1 H2].
    rewrite orb_false_r in H2.
    change (startsWhite (String a (String b (String " " rest))) = false).
    unfold startsWhite. now rewrite H1, H2, white3_space_last.
Qed.

Lemma plain_nonblank (segs : list TranscriptSegment) :
  nonEmpty (trim (join " " (filter nonEmpty
                              (map (fun segment => trim (seg_text segment)) segs))))
  = negb (forallb (fun segment => blank (seg_text segment)) segs).
Proof.
  induction segs as [|seg segs IH]; [reflexivity|].
  simpl map. simpl filter. simpl forallb.
  pose proof (trim_empty_iff_blank (seg_text seg)) as Hseg.
  destruct (blank (seg_text seg)) eqn:Hb; simpl in Hseg; rewrite Hseg;
    [exact IH|].
  simpl andb. simpl negb.
  rewrite join_cons.
  set (p := trim (seg_text seg)) in *.
  assert (Hp : nonEmpty p = true) by exact Hseg.
  assert (Hclean : startsWhite p = false).
  { unfold p, trim. apply trimEnd_clean_start, trimStart_clean. }
  destruct (filter nonEmpty _) as [|q qs].
  - unfold p. now rewrite trim_trim_nonEmpty, trim_empty_iff_blank, Hb.
  - unfold trim.
    assert (Hc : startsWhite (p ++ " " ++ join " " (q :: qs)) = false)
      by now apply startsWhite_append_space.
    rewrite (trimStart_fixed _ Hc), (trimEnd_nonEmpty _ Hc).
    now apply nonEmpty_append.
Qed.

Lemma clearTimeout_self (id : nat) : clearTimeout id [id] = [].
Proof. unfold clearTimeout. simpl. now rewrite Nat.eqb_refl. Qed.

Lemma armCopyReset_tidy (t : CopyTimers) :
  copyTimersTidy t ->
  copyResetTimeoutRef (armCopyReset t) = Some (copyTimersCreated t)
  /\ copyTimersPending (armCopyReset t) = [copyTimersCreated t]
  /\ copyTimersCreated (armCopyReset t) = Datatypes.S (copyTimersCreated t).
Proof.
  intros [Hnone | (id & Href & Hone)]; unfold armCopyReset; simpl.
  - rewrite Hnone. destruct (copyResetTimeoutRef t); repeat split; reflexivity.
  - rewrite Href, Hone, clearTimeout_self. repeat split; reflexivity.
Qed.

(** X22. An export action closes the export menu and never touches the
    transcript.  Without export content it does nothing else.  With
    content, the JSON action offers a [.json] file and changes nothing
    else; copying with timestamps always copies the timestamped export;
    copying the text alone copies the plain text, unless there are
    segments and all of them are blank, in which case it silently does
    nothing.  To copy is to hand the text to the clipboard and wait,
    leaving everything else as it is, or, where the platform has no
    clipboard, to show the failure at once: the copy state is [error], the
    feedback is "Copy failed", the error message names the missing
    clipboard, and the reset timer is set anew. *)
Theorem handleSmartExport_effects :
  forall (clipboardAvailable : bool)
         (stringify : TranscriptExportJson -> string) (toISOString : Z -> string)
         (now : Z) (date : DateParts) (action : SmartExportAction)
         (s : State) (t : CopyTimers),
    let r := handleSmartExport clipboardAvailable stringify toISOString now date
                               action s t in
    let s' := fst (fst r) in
    (isExportMenuOpen s' = false
     /\ output s' = output s /\ segments s' = segments s
     /\ activeFileName s' = activeFileName s
     /\ selectedLanguage s' = selectedLanguage s
     /\ status s' = status s)
    /\ (hasExportContent s = false -> r = (setIsExportMenuOpen false s, t, None))
    /\ (hasExportContent s = true ->
        match action with
        | copy_with_timestamps =>
            copies clipboardAvailable (timestampedExport s) "Timestamped copy ready" s t r
        | export_json =>
            r = (setIsExportMenuOpen false s, t,
                 Some (eff_download
                         (stringify (fst (buildJsonExportPayload toISOString now s))
                          ++ newline)
                         ("transcription-" ++ timestampForFilename date ++ ".json")
                         "application/json;charset=utf-8"))
        | copy_text_only =>
            if forallb (fun segment => blank (seg_text segment)) (segments s)
               && negb (Nat.eqb (List.length (segments s)) 0)
            then r = (setIsExportMenuOpen false s, t, None)
            else copies clipboardAvailable (plainTextExport s) "Text copied" s t r
        end).
Proof.
  intros clipboardAvailable stringify toISOString now date action s t. cbv zeta.
  unfold handleSmartExport, writeToClipboard, copies.
  split.
  { destruct (hasExportContent s), action; simpl;
      repeat match goal with
             | |- context [if ?c then _ else _] => destruct c; simpl
             end;
      repeat split; reflexivity. }
  split; [intros ->; reflexivity|].
  intros Hhas. rewrite Hhas. simpl negb. cbv iota.
  pose proof (proj1 (hasExportContent_content s) Hhas) as Hcontent.
  destruct action.
  - assert (E : nonEmpty (trim (plainTextExport s))
                = negb (forallb (fun segment => blank (seg_text segment)) (segments s)
                        && negb (Nat.eqb (List.length (segments s)) 0))).
    { unfold plainTextExport.
      destruct (segments s) as [|seg segs] eqn:Hsegs.
      - destruct Hcontent as [Hne | Hblank]; [now elim Hne|].
        rewrite trim_trim_nonEmpty, trim_empty_iff_blank, Hblank. reflexivity.
      - rewrite plain_nonblank. simpl List.length. simpl Nat.eqb.
        now rewrite andb_true_r. }
    rewrite E.
    destruct (forallb _ (segments s) && negb (Nat.eqb (List.length (segments s)) 0));
      simpl; [reflexivity|].
    destruct clipboardAvailable; reflexivity.
  - assert (E : nonEmpty (trim (timestampedExport s)) = true).
    { unfold timestampedExport.
      destruct (segments s) as [|seg segs] eqn:Hsegs.
      - destruct Hcontent as [Hne | Hblank]; [now elim Hne|].
        rewrite trim_trim_nonEmpty, trim_empty_iff_blank, Hblank. reflexivity.
      - destruct (timestamped_bracket seg segs) as (rest & ->). apply trim_bracket. }
    rewrite E. simpl. destruct clipboardAvailable; reflexivity.
  - reflexivity.
Qed.

Lemma handleSmartExport_effects_witness :
  let s := setSegments [mkSegment "  " 0%Qc 1%Qc] (initialState true) in
  let t := mkCopyTimers None 0 [] in
  let date := mkDate 2026 10 3 4 5 6 in
  hasExportContent s = true
  /\ snd (handleSmartExport true (fun _ => "{}"%string) (fun _ => "t"%string) 0 date
                            copy_text_only s t) = None
  /\ handleSmartExport false (fun _ => "{}"%string) (fun _ => "t"%string) 0 date
                       copy_with_timestamps s t
     = (copyFailed (Some "Clipboard API is unavailable in this browser."%string)
                   (setIsExportMenuOpen false s),
        mkCopyTimers (Some 0%nat) 1 [0%nat], None).
Proof.
  intros s t date.
  assert (Hhas : hasExportContent s = true) by reflexivity.
  split; [exact Hhas|]. split.
  - destruct (handleSmartExport_effects true (fun _ => "{}"%string) (fun _ => "t"%string)
                0 date copy_text_only s t) as (_ & _ & Hact).
    specialize (Hact Hhas). cbv beta iota in Hact.
    change (forallb (fun segment => blank (seg_text segment)) (segments s)
            && negb (Nat.eqb (List.length (segments s)) 0)) with true in Hact.
    cbv iota in Hact. now rewrite Hact.
  - destruct (handleSmartExport_effects false (fun _ => "{}"%string) (fun _ => "t"%string)
                0 date copy_with_timestamps s t) as (_ & _ & Hact).
    exact (Hact Hhas).
Defined.

(** X24. When the write to the clipboard settles, the feedback is shown: on
    success the copy state is [success] and the feedback is the message of
    the action, the error message left as it was; on failure the copy
    state is [error], the feedback is "Copy failed" and the error message
    is the one thrown, or the default text when no [Error] was thrown.
    Either way the transcript is not touched and the reset timer is set
    anew: if no timer but the one in the cell was pending before, the new
    timer is the only one pending afterwards, so that feedback is never
    taken down by the timer of an earlier copy.  When the timer fires, the
    copy state is [idle] again, the feedback is gone and no timer is
    pending. *)
Theorem writeToClipboard_feedback :
  forall (outcome : ClipboardWrite) (successMessage : string)
         (s : State) (t : CopyTimers),
    copyTimersTidy t ->
    let r := writeToClipboard_resume outcome successMessage s t in
    let s' := fst r in
    let t' := snd r in
    match outcome with
    | write_resolved =>
        copyState s' = CopyState.success
        /\ copyFeedback s' = Some successMessage
        /\ error s' = error s
    | write_rejected thrown =>
        copyState s' = CopyState.error
        /\ copyFeedback s' = Some "Copy failed"%string
        /\ error s'
           = Some match thrown with
                  | Some message => message
                  | None => "Failed to copy transcript to clipboard."%string
                  end
    end
    /\ (output s' = output s /\ segments s' = segments s /\ status s' = status s)
    /\ copyResetTimeoutRef t' = Some (copyTimersCreated t)
    /\ copyTimersPending t' = [copyTimersCreated t]
    /\ copyTimersTidy t'
    /\ let fired := copyResetFires (copyTimersCreated t) s' t' in
       copyState (fst fired) = CopyState.idle
       /\ copyFeedback (fst fired) = None
       /\ error (fst fired) = error s'
       /\ output (fst fired) = output s
       /\ copyTimersPending (snd fired) = []
       /\ copyTimersTidy (snd fired).
Proof.
  intros outcome successMessage s t Htidy. cbv zeta.
  destruct (armCopyReset_tidy t Htidy) as (Href & Hpending & _).
  unfold writeToClipboard_resume.
  set (t' := armCopyReset t) in *. clearbody t'.
  cbn [fst snd].
  split; [destruct outcome; repeat split; reflexivity|].
  split; [destruct outcome; repeat split; reflexivity|].
  split; [exact Href|]. split; [exact Hpending|]. split.
  { right. exists (copyTimersCreated t). split; assumption. }
  unfold copyResetFires, copyTimersTidy.
  cbn [fst snd copyTimersPending copyResetTimeoutRef copyTimersCreated].
  rewrite Hpending, clearTimeout_self.
  destruct outcome; repeat split; try reflexivity; now left.
Qed.

Lemma writeToClipboard_feedback_witness :
  let s := setOutput "hello" (initialState true) in
  let t := mkCopyTimers (Some 3%nat) 4 [3%nat] in
  copyTimersTidy t
  /\ copyFeedback (fst (writeToClipboard_resume write_resolved "Text copied" s t))
     = Some "Text copied"%string
  /\ copyTimersPending (snd (writeToClipboard_resume write_resolved "Text copied" s t))
     = [4%nat].
Proof.
  intros s t.
  assert (Htidy : copyTimersTidy t) by (right; exists 3%nat; split; reflexivity).
  split; [exact Htidy|].
  pose proof (writeToClipboard_feedback write_resolved "Text copied" s t Htidy) as H.
  cbv zeta in H. destruct H as ((_ & Hfb & _) & _ & _ & Hpending & _).
  split; [exact Hfb | exact Hpending].
Defined.

(** X23. The text-file download acts exactly when export content is
    reported: its own guard on the timestamped export and the
    [hasExportContent] flag never disagree, and the file offered holds the
    timestamped export under a [.txt] name built from the date. *)
Theorem handleDownloadTxt_agrees_with_hasExportContent :
  forall (date : DateParts) (s : State),
    handleDownloadTxt date s
    = if hasExportContent s
      then Some (eff_download
                   (timestampedExport s)
                   ("transcription-" ++ timestampForFilename date ++ ".txt")
                   "text/plain;charset=utf-8")
      else None.
Proof.
  intros date s. unfold handleDownloadTxt.
  assert (E : nonEmpty (trim (timestampedExport s)) = hasExportContent s).
  { unfold hasExportContent, plainTextExport, timestampedExport.
    destruct (segments s) as [|seg segs].
    - now rewrite orb_diag.
    - destruct (timestamped_bracket seg segs) as (rest & ->).
      now rewrite trim_bracket, orb_true_r. }
  rewrite E. destruct (hasExportContent s); reflexivity.
Qed.
